(** * telegram-bot-azure: the conversation-turn orchestrator

    A shallow embedding of the two entry points of the repository,
    [bot.py] (long-polling bot, synchronous store client) and
    [TelegramWebhookHandler/__init__.py] (Azure Function, asynchronous
    store client), and the properties of their turn orchestration.

    Conventions of the embedding.
    - A Python [str] is a [string], one [ascii] for each character (the
      code points below 256); [len] is [String.length].
    - A Python [int] is a [Z].
    - A chat message, a [dict] with the two keys ['role'] and ['content']
      (every construction site of the source builds exactly these), is the
      record [message].  The completion client, which reads the entries
      of a list it is handed, takes them as dicts ([entry]).
    - A JSON document of the store is a [gmap string value].
    - Calls to [logger] have no effect on the results and are left out;
      where building the text of a log line can raise outside a [try]
      (the preview of the completion client), that is kept.
    - An exception is a value of [exn]; a computation that may raise
      returns an [outcome].  Only classes deriving from [Exception] are
      modelled: interpreter exit and task cancellation derive from
      [BaseException] alone and are outside the embedding. *)

From Stdlib Require Import ZArith String Ascii Lia.
From stdpp Require Import base option list gmap strings pretty.

Local Open Scope string_scope.
Local Open Scope list_scope.
Local Open Scope Z_scope.

(** ** Python data *)

Record message := Message { role : string; content : string }.

#[global] Instance message_eq_dec : EqDecision message.
Proof. solve_decision. Defined.

(** A JSON value as the store returns it.  An array is typed by the
    source as a history, [list[dict[str, str]]]; nested objects keep
    their fields in order. *)
#[warnings="-register-all"]
Inductive value :=
| VNone
| VBool (b : bool)
| VInt (n : Z)
| VFloat (literal : string)
| VStr (s : string)
| VList (items : list message)
| VDict (fields : list (string * value)).

(** A history entry as Python holds it: a [dict].  The entries the
    program builds have the two keys ['role'] and ['content'], both
    strings (a [message]); the completion client is handed a list of
    dicts and reads these two keys of its last entries. *)
Definition entry : Type := gmap string value.

Definition message_entry (m : message) : entry :=
  <["content" := VStr (content m)]> (<["role" := VStr (role m)]> ∅).

Definition entries (history : list message) : list entry :=
  message_entry <$> history.

(** [isinstance(v, list)] *)
Definition isinstance_list (v : value) : bool :=
  match v with VList _ => true | _ => false end.

(** Truth value of a [str], of an optional [str] and of a [dict]. *)
Definition str_truthy (s : string) : bool := negb (String.eqb s "").

Definition opt_str_truthy (s : option string) : bool :=
  match s with Some s => str_truthy s | None => false end.

Definition dict_truthy {V} (d : gmap string V) : bool :=
  negb (bool_decide (d = ∅)).

Definition opt_dict_truthy {V} (d : option (gmap string V)) : bool :=
  match d with Some d => dict_truthy d | None => false end.

(** [str(n)] for an [int]. *)
Definition str (n : Z) : string := pretty n.

(** [str.isspace] on one character: the white space of Unicode that
    falls in the range of [ascii]. *)
Definition py_isspace (c : ascii) : bool :=
  let n := nat_of_ascii c in
  ((9 <=? n) && (n <=? 13) || (28 <=? n) && (n <=? 32)
   || (n =? 133) || (n =? 160))%nat.

Fixpoint lstrip (s : string) : string :=
  match s with
  | String c s' => if py_isspace c then lstrip s' else s
  | EmptyString => EmptyString
  end.

Fixpoint rstrip (s : string) : string :=
  match s with
  | String c s' =>
      match rstrip s' with
      | EmptyString => if py_isspace c then EmptyString else String c EmptyString
      | r => String c r
      end
  | EmptyString => EmptyString
  end.

(** [s.strip()] *)
Definition strip (s : string) : string := rstrip (lstrip s).

(** [l[start:]] for an arbitrary integer [start]: a negative [start]
    counts from the end, and both ends are clipped to the list. *)
Definition py_slice_from {A} (start : Z) (l : list A) : list A :=
  let len := Z.of_nat (length l) in
  let lo := if start <? 0 then Z.max (start + len) 0 else Z.min start len in
  drop (Z.to_nat lo) l.

(** ** Constants shared by both entry points *)

Definition MAX_CONVERSATION_MESSAGES : Z := 20.
Definition MAX_USER_MESSAGE_LENGTH : Z := 2000.

(** ** Context window builder (bot.py 199-231, __init__.py 134-149)

    The two files hold the same function; they differ in the text of
    the log lines only. *)

Definition _prepare_and_truncate_history_for_llm
    (full_history : list message) (max_messages : Z) (chat_id : Z)
    : list message :=
  match full_history with
  | [] => []
  | first :: _ =>
    let processed_history_for_llm := full_history in
    let '(system_message_obj, conversation_messages) :=
      if String.eqb (role first) "system"
      then (Some first, py_slice_from 1 processed_history_for_llm)
      else (None, processed_history_for_llm) in
    if Z.of_nat (length conversation_messages) >? max_messages then
      let truncated_conversation :=
        py_slice_from (- max_messages) conversation_messages in
      match system_message_obj with
      | Some s => [s] ++ truncated_conversation
      | None => truncated_conversation
      end
    else
      match system_message_obj with
      | Some s => [s] ++ conversation_messages
      | None => conversation_messages
      end
  end.

(** ** Exceptions, effects and the world outside

    The store, the completion service and the Telegram API are outside
    the repository.  Their answers are fixed by an [environment]; every
    call made to them is appended to the [trace] of the [world]. *)

Inductive exn :=
| CosmosResourceNotFoundError
| CosmosHttpResponseError
| ValueError
| KeyError
| IndexError
| TypeError
| AttributeError
| TimeoutError
| TelegramError
| OtherException (description : string).

Inductive outcome (A : Type) :=
| Returned (a : A)
| Raised (e : exn).
Arguments Returned {A} a.
Arguments Raised {A} e.

Record choice := Choice { choice_content : option string }.
Record chat_completion := ChatCompletion { choices : list choice }.

Inductive application := Application (token : string).
Inductive bot := Bot (token : string).

Inductive event :=
| ReadItem (item partition_key : string)
| UpsertItem (body : gmap string value)
| CompletionsCreate (model : string) (temperature max_tokens : Z)
    (messages : list entry)
| SendChatAction (chat_id : Z)
| ReplyText (chat_id : Z) (text : string)
| ReplyHtml (chat_id : Z) (text : string)
| EditText (chat_id : Z) (text : string)
| Enter_get_chat_history (chat_id : Z)
| Enter_save_chat_history (chat_id : Z) (history_list : list message)
    (interacting_user_id : Z) (interacting_username : option string)
    (is_initial_creation_or_reset : bool)
    (existing_metadata : option (gmap string value)).

(** The two [Enter_] events mark the entry of the store adapter's two
    functions with the arguments of the call; they make the calls one
    function of the source makes to another observable. *)

Definition is_telegram_call (ev : event) : bool :=
  match ev with
  | SendChatAction _ | ReplyText _ _ | ReplyHtml _ _ | EditText _ _ => true
  | _ => false
  end.

Record world := World {
  store : gmap string (gmap string value);
  trace : list event;
  ptb_application : option application;
  ptb_bot_instance : option bot
}.

Record update := Update {
  message_text : option string;
  message_chat_id : Z;
  effective_user_id : Z;
  effective_user_username : option string;
  effective_user_mention : string
}.

(** What one round of the liveness loop observes of the stop event:
    whether it is set when the loop condition is tested, and whether it
    becomes set before the four seconds of the wait are over. *)
Record typing_round := TypingRound {
  stop_set_at_check : bool;
  stop_set_within_wait : bool
}.

Record environment := Environment {
  utc_now_isoformat : string;
  read_item_fault : option exn;
  upsert_item_fault : option exn;
  completions_create : string -> list entry -> outcome chat_completion;
  telegram_fault : nat -> option exn;
  stop_event_schedule : list typing_round;
  application_initialize_fault : option exn;
  update_de_json : string -> outcome (option update);
  application_process_update :
    update -> world -> outcome unit * world
}.

Definition M (A : Type) : Type := environment -> world -> outcome A * world.

Definition ret {A} (a : A) : M A := fun _ w => (Returned a, w).

Definition raise {A} (e : exn) : M A := fun _ w => (Raised e, w).

Definition bind {A B} (m : M A) (k : A -> M B) : M B :=
  fun env w =>
    match m env w with
    | (Returned a, w') => k a env w'
    | (Raised e, w') => (Raised e, w')
    end.

(** [try: body except Exception as e: handler e] *)
Definition try_except {A} (body : M A) (handler : exn -> M A) : M A :=
  fun env w =>
    match body env w with
    | (Returned a, w') => (Returned a, w')
    | (Raised e, w') => handler e env w'
    end.

Notation "x <- m ;; k" := (bind m (fun x => k))
  (at level 100, m at next level, right associativity).
Notation "m ;;; k" := (bind m (fun _ => k))
  (at level 100, right associativity).

Definition emit (ev : event) : M unit :=
  fun _ w => (Returned tt,
    World (store w) (trace w ++ [ev]) (ptb_application w) (ptb_bot_instance w)).

Definition ask : M environment := fun env w => (Returned env, w).

Definition get_world : M world := fun _ w => (Returned w, w).

Definition put_store (s : gmap string (gmap string value)) : M unit :=
  fun _ w => (Returned tt,
    World s (trace w) (ptb_application w) (ptb_bot_instance w)).

Definition put_ptb (a : option application) (b : option bot) : M unit :=
  fun _ w => (Returned tt, World (store w) (trace w) a b).

(** *** The calls that leave the process *)

(** [container_client.read_item(item, partition_key)].  The store of
    the world holds each document as a read returns it. *)
Definition read_item (item partition_key : string) : M (gmap string value) :=
  emit (ReadItem item partition_key) ;;;
  env <- ask ;;
  match read_item_fault env with
  | Some e => raise e
  | None =>
      w <- get_world ;;
      match store w !! item with
      | Some doc => ret doc
      | None => raise CosmosResourceNotFoundError
      end
  end.

(** [container_client.upsert_item(body)]; the key of a document is its
    ['id'] field.  The system properties a store stamps on what it
    writes ([_rid], [_self], [_etag], [_attachments], [_ts]) are not
    modelled: the body is stored as it is. *)
Definition upsert_item (body : gmap string value) : M unit :=
  emit (UpsertItem body) ;;;
  env <- ask ;;
  match upsert_item_fault env with
  | Some e => raise e
  | None =>
      match body !! "id" with
      | Some (VStr key) =>
          w <- get_world ;;
          put_store (<[key := body]> (store w))
      | _ => raise CosmosHttpResponseError
      end
  end.

(** [openrouter_client.chat.completions.create(...)] *)
Definition chat_completions_create (model : string) (temperature max_tokens : Z)
    (messages : list entry) : M chat_completion :=
  emit (CompletionsCreate model temperature max_tokens messages) ;;;
  env <- ask ;;
  match completions_create env model messages with
  | Returned c => ret c
  | Raised e => raise e
  end.

(** The number of Telegram calls in a trace. *)
Definition telegram_rank (tr : list event) : nat :=
  length (filter (fun e => is_telegram_call e = true) tr).

(** A call of the Telegram Bot API; the environment decides by the rank
    of the call among the Telegram calls made so far whether it fails. *)
Definition telegram_call (ev : event) : M unit :=
  w <- get_world ;;
  emit ev ;;;
  env <- ask ;;
  match telegram_fault env (telegram_rank (trace w)) with
  | Some e => raise e
  | None => ret tt
  end.

(** *** The log preview of the completion client *)

(** [d[key]] on a dict. *)
Definition getitem (d : entry) (key : string) : outcome value :=
  match d !! key with
  | Some v => Returned v
  | None => Raised KeyError
  end.

(** The values [v] for which [v[:n]] is defined: a [str] and a list. *)
Definition can_slice (v : value) : bool :=
  match v with
  | VStr _ | VList _ => true
  | _ => false
  end.

(** [v[:k]]; the slice itself goes to the log only, so that [k] does
    not matter below.  A number, a Boolean and [None] cannot be
    subscripted, and a [dict] cannot take a slice as key ([TypeError],
    as long as slices cannot be hashed). *)
Definition slice_prefix (v : value) (k : Z) : outcome unit :=
  if can_slice v then Returned tt else Raised TypeError.

(** [f"{msg['role']}: {msg['content'][:k]}"] for one entry. *)
Definition preview_entry (k : Z) (msg : entry) : outcome unit :=
  match getitem msg "role" with
  | Raised e => Raised e
  | Returned _ =>
      match getitem msg "content" with
      | Raised e => Raised e
      | Returned c => slice_prefix c k
      end
  end.

Fixpoint preview_entries (k : Z) (l : list entry) : outcome unit :=
  match l with
  | [] => Returned tt
  | msg :: rest =>
      match preview_entry k msg with
      | Raised e => Raised e
      | Returned _ => preview_entries k rest
      end
  end.

(** [" | ".join([f"{msg['role']}: {msg['content'][:k]}" for msg in
    history_list[-n:]])]: the text goes to the log only; what is kept
    of it is whether building it raises. *)
Definition log_history_preview (n k : Z) (history_list : list entry)
    : outcome unit :=
  preview_entries k (py_slice_from (- n) history_list).

(** An outcome computed without effect. *)
Definition of_outcome {A} (o : outcome A) : M A := fun _ w => (o, w).

(** ** bot.py: the long-polling entry point *)

Module Bot.

Section WithSystemMessage.

(** The text of the system turn (bot.py 67-71); nothing below depends
    on what it says. *)
Variable SYSTEM_MESSAGE_CONTENT : string.

Definition SYSTEM_MESSAGE : message := Message "system" SYSTEM_MESSAGE_CONTENT.

(** bot.py 77-95 *)
Definition get_chat_history_from_cosmos (chat_id_int : Z)
    : M (list message * gmap string value) :=
  emit (Enter_get_chat_history chat_id_int) ;;;
  let chat_id_str := str chat_id_int in
  try_except
    (item_response <- read_item chat_id_str chat_id_str ;;
     let history := default (VList []) (item_response !! "history") in
     let metadata :=
       filter (fun kv : string * value => kv.1 <> "history") item_response in
     ret (match history with VList items => items | _ => [] end, metadata))
    (fun e =>
       match e with
       | CosmosResourceNotFoundError => ret ([], ∅)
       | _ => ret ([], ∅)
       end).

(** bot.py 105-129: the document [save_chat_history_to_cosmos] builds. *)
Definition item_body (chat_id_int : Z) (history_list : list message)
    (interacting_user_id : Z) (interacting_username : option string)
    (is_initial_creation_or_reset : bool)
    (existing_metadata : option (gmap string value))
    (current_utc_timestamp : string) : gmap string value :=
  let chat_id_str := str chat_id_int in
  let user_id_str := str interacting_user_id in
  let username_to_store :=
    if opt_str_truthy interacting_username
    then default "" interacting_username else "N/A" in
  let item_body : gmap string value :=
    <["last_updated_timestamp" := VStr current_utc_timestamp]>
    (<["last_interactor_username" := VStr username_to_store]>
    (<["last_interactor_user_id" := VStr user_id_str]>
    (<["history" := VList history_list]>
    (<["chat_id" := VStr chat_id_str]>
    (<["id" := VStr chat_id_str]> ∅))))) in
  if is_initial_creation_or_reset then
    <["creator_username" := VStr username_to_store]>
    (<["creator_user_id" := VStr user_id_str]> item_body)
  else if opt_dict_truthy existing_metadata then
    let existing_metadata := default ∅ existing_metadata in
    let item_body :=
      match existing_metadata !! "creator_user_id" with
      | Some v => <["creator_user_id" := v]> item_body
      | None => item_body
      end in
    match existing_metadata !! "creator_username" with
    | Some v => <["creator_username" := v]> item_body
    | None => item_body
    end
  else
    <["creator_username" := VStr username_to_store]>
    (<["creator_user_id" := VStr user_id_str]> item_body).

(** bot.py 97-144 *)
Definition save_chat_history_to_cosmos (chat_id_int : Z)
    (history_list : list message) (interacting_user_id : Z)
    (interacting_username : option string)
    (is_initial_creation_or_reset : bool)
    (existing_metadata : option (gmap string value)) : M unit :=
  emit (Enter_save_chat_history chat_id_int history_list interacting_user_id
          interacting_username is_initial_creation_or_reset existing_metadata) ;;;
  env <- ask ;;
  let body := item_body chat_id_int history_list interacting_user_id
                interacting_username is_initial_creation_or_reset
                existing_metadata (utc_now_isoformat env) in
  try_except (upsert_item body) (fun e => ret tt).

Definition FALLBACK_REPLY : string :=
  "Ah, my brain's a bit fuzzy right now. Ask me later, 'kay?".

Definition DEFAULT_MODEL : string := "mistralai/mistral-small-3.1-24b-instruct".

(** bot.py 147-159.  The log preview of the last five entries is built
    before the [try].  [choices[0]] raises [IndexError] on an empty
    list, and slicing a missing content raises [TypeError]; both happen
    inside the [try]. *)
Definition get_llm_response_from_openrouter (history_list : list entry)
    (model_name : string) : M string :=
  of_outcome (log_history_preview 5 30 history_list) ;;;
  try_except
    (chat_completion <-
       chat_completions_create model_name 1 500 history_list ;;
     match choices chat_completion with
     | [] => raise IndexError
     | c :: _ =>
         match choice_content c with
         | None => raise TypeError
         | Some response_content => ret (strip response_content)
         end
     end)
    (fun e => ret FALLBACK_REPLY).

(** bot.py 162-179 *)
Definition start_command (u : update) : M unit :=
  let chat_id := message_chat_id u in
  let user_id := effective_user_id u in
  let username := effective_user_username u in
  let initial_history := [SYSTEM_MESSAGE] in
  save_chat_history_to_cosmos chat_id initial_history user_id username
    true None ;;;
  telegram_call
    (ReplyHtml chat_id ("Hey " +:+ effective_user_mention u +:+ "! What's up?")).

(** bot.py 181-196 *)
Definition clear_command (u : update) : M unit :=
  let chat_id := message_chat_id u in
  let user_id := effective_user_id u in
  let username := effective_user_username u in
  let cleared_history := [SYSTEM_MESSAGE] in
  save_chat_history_to_cosmos chat_id cleared_history user_id username
    true None ;;;
  telegram_call (ReplyText chat_id "Aight, memory wiped. Fresh start!").

Definition REJECTION_NOTICE : string :=
  "Whoa there, Shakespeare! That's a bit long for me. Try keeping it under "
  +:+ str MAX_USER_MESSAGE_LENGTH +:+ " characters, 'kay?".

(** The placeholder reply of bot.py 281.  The four characters the
    source file has after the dots are outside the range of [ascii] and
    are given by their UTF-8 bytes. *)
Definition THINKING_NOTICE : string := "Hmm, lemme think... ðŸ¤”".

(** bot.py 234-300.  [message_text u = None] stands for an update
    without a message or without text. *)
Definition llm_message_handler (u : update) : M unit :=
  match message_text u with
  | None => ret tt
  | Some user_message_content =>
    if negb (str_truthy user_message_content) then ret tt else
    let chat_id := message_chat_id u in
    let user_id := effective_user_id u in
    let username := effective_user_username u in
    if Z.of_nat (String.length user_message_content) >? MAX_USER_MESSAGE_LENGTH
    then telegram_call (ReplyText chat_id REJECTION_NOTICE)
    else
      loaded <- get_chat_history_from_cosmos chat_id ;;
      let retrieved_history := loaded.1 in
      let existing_doc_metadata := loaded.2 in
      let is_first_interaction_for_chat :=
        negb (negb (bool_decide (retrieved_history = [])))
        && negb (dict_truthy existing_doc_metadata) in
      let current_turn_history :=
        if is_first_interaction_for_chat then [SYSTEM_MESSAGE]
        else if bool_decide (retrieved_history = [])
                && dict_truthy existing_doc_metadata
        then [SYSTEM_MESSAGE]
        else retrieved_history in
      let current_turn_history :=
        current_turn_history ++ [Message "user" user_message_content] in
      let history_for_llm :=
        _prepare_and_truncate_history_for_llm
          current_turn_history MAX_CONVERSATION_MESSAGES chat_id in
      telegram_call (ReplyText chat_id THINKING_NOTICE) ;;;
      llm_reply_content <-
        get_llm_response_from_openrouter (entries history_for_llm)
          DEFAULT_MODEL ;;
      let current_turn_history :=
        current_turn_history ++ [Message "assistant" llm_reply_content] in
      save_chat_history_to_cosmos chat_id current_turn_history user_id username
        is_first_interaction_for_chat
        (if negb is_first_interaction_for_chat
         then Some existing_doc_metadata else None) ;;;
      telegram_call (EditText chat_id llm_reply_content)
  end.

End WithSystemMessage.

End Bot.

(** ** TelegramWebhookHandler/__init__.py: the Azure Function *)

Module Webhook.

(** *** Global initialization (__init__.py 31-87) *)

Record secrets := Secrets {
  TELEGRAM_BOT_TOKEN : option string;
  OPENROUTER_API_KEY : option string;
  COSMOS_DB_URI : option string;
  COSMOS_DB_KEY : option string
}.

(** What the worker finds when it starts: the process environment, the
    answer of the key vault (if one is configured), and whether building
    the service clients raises. *)
Record startup := Startup {
  getenv : string -> option string;
  key_vault_secrets : outcome secrets;
  client_constructor_fault : option exn
}.

Record globals := Globals {
  global_secrets : secrets;
  openrouter_client : bool;
  async_container_client : bool;
  critical_secrets_missing : bool
}.

Definition or_getenv (s : startup) (current : option string) (name : string)
    : option string :=
  if negb (opt_str_truthy current) then getenv s name else current.

Definition global_initialization (s : startup) : globals :=
  let loaded :=
    if opt_str_truthy (getenv s "KEY_VAULT_URI") then
      match key_vault_secrets s with
      | Returned k => k
      | Raised _ => Secrets None None None None
      end
    else Secrets None None None None in
  let resolved :=
    Secrets
      (or_getenv s (TELEGRAM_BOT_TOKEN loaded) "TELEGRAM_BOT_TOKEN")
      (or_getenv s (OPENROUTER_API_KEY loaded) "OPENROUTER_API_KEY")
      (or_getenv s (COSMOS_DB_URI loaded) "COSMOS_DB_URI")
      (or_getenv s (COSMOS_DB_KEY loaded) "COSMOS_DB_KEY") in
  let missing :=
    negb (opt_str_truthy (TELEGRAM_BOT_TOKEN resolved))
    || negb (opt_str_truthy (OPENROUTER_API_KEY resolved))
    || negb (opt_str_truthy (COSMOS_DB_URI resolved))
    || negb (opt_str_truthy (COSMOS_DB_KEY resolved)) in
  if negb missing then
    match client_constructor_fault s with
    | None => Globals resolved true true false
    | Some _ => Globals resolved false false true
    end
  else Globals resolved false false true.

(** The worker starts with no PTB application. *)
Definition initial_world (docs : gmap string (gmap string value)) : world :=
  World docs [] None None.

Definition SYSTEM_MESSAGE_CONTENT : string := "".
Definition SYSTEM_MESSAGE : message := Message "system" SYSTEM_MESSAGE_CONTENT.

Section WithGlobals.

Variable g : globals.

(** __init__.py 100-109 *)
Definition get_chat_history_from_cosmos (chat_id_int : Z)
    : M (list message * gmap string value) :=
  emit (Enter_get_chat_history chat_id_int) ;;;
  if negb (async_container_client g) then ret ([], ∅) else
  let chat_id_str := str chat_id_int in
  try_except
    (item_response <- read_item chat_id_str chat_id_str ;;
     let history := default (VList []) (item_response !! "history") in
     let metadata :=
       filter (fun kv : string * value => kv.1 <> "history") item_response in
     ret (match history with VList items => items | _ => [] end, metadata))
    (fun e =>
       match e with
       | CosmosResourceNotFoundError => ret ([], ∅)
       | _ => ret ([], ∅)
       end).

(** __init__.py 113-117: the document [save_chat_history_to_cosmos]
    builds. *)
Definition item_body (chat_id_int : Z) (history_list : list message)
    (interacting_user_id : Z) (interacting_username : option string)
    (is_initial_creation_or_reset : bool)
    (existing_metadata : option (gmap string value))
    (current_utc_timestamp : string) : gmap string value :=
  let chat_id_str := str chat_id_int in
  let user_id_str := str interacting_user_id in
  let username_to_store :=
    if opt_str_truthy interacting_username
    then default "" interacting_username else "N/A" in
  let item_body : gmap string value :=
    <["last_updated_timestamp" := VStr current_utc_timestamp]>
    (<["last_interactor_username" := VStr username_to_store]>
    (<["last_interactor_user_id" := VStr user_id_str]>
    (<["history" := VList history_list]>
    (<["chat_id" := VStr chat_id_str]>
    (<["id" := VStr chat_id_str]> ∅))))) in
  if is_initial_creation_or_reset then
    <["creator_username" := VStr username_to_store]>
    (<["creator_user_id" := VStr user_id_str]> item_body)
  else if opt_dict_truthy existing_metadata then
    let existing_metadata := default ∅ existing_metadata in
    <["creator_username" :=
        default (VStr username_to_store) (existing_metadata !! "creator_username")]>
    (<["creator_user_id" :=
        default (VStr user_id_str) (existing_metadata !! "creator_user_id")]>
     item_body)
  else
    <["creator_username" := VStr username_to_store]>
    (<["creator_user_id" := VStr user_id_str]> item_body).

(** __init__.py 111-121 *)
Definition save_chat_history_to_cosmos (chat_id_int : Z)
    (history_list : list message) (interacting_user_id : Z)
    (interacting_username : option string)
    (is_initial_creation_or_reset : bool)
    (existing_metadata : option (gmap string value)) : M unit :=
  emit (Enter_save_chat_history chat_id_int history_list interacting_user_id
          interacting_username is_initial_creation_or_reset existing_metadata) ;;;
  if negb (async_container_client g) then ret tt else
  env <- ask ;;
  let body := item_body chat_id_int history_list interacting_user_id
                interacting_username is_initial_creation_or_reset
                existing_metadata (utc_now_isoformat env) in
  try_except (upsert_item body) (fun e => ret tt).

Definition CLIENT_ERROR_REPLY : string :=
  "Ah, my brain's not working (OpenRouter client error). Try later.".

Definition FALLBACK_REPLY : string :=
  "Ah, my brain's a bit fuzzy right now. Ask me later, 'kay?".

Definition DEFAULT_MODEL : string := "meta-llama/llama-4-maverick".

(** __init__.py 123-132.  The log preview of the last three entries is
    built after the test of the client and before the [try]. *)
Definition get_llm_response_from_openrouter (history_list : list entry)
    (model_name : string) : M string :=
  if negb (openrouter_client g) then ret CLIENT_ERROR_REPLY else
  of_outcome (log_history_preview 3 20 history_list) ;;;
  try_except
    (chat_completion <-
       chat_completions_create model_name 1 500 history_list ;;
     match choices chat_completion with
     | [] => raise IndexError
     | c :: _ =>
         match choice_content c with
         | None => raise TypeError
         | Some response_content => ret (strip response_content)
         end
     end)
    (fun e => ret FALLBACK_REPLY).

(** *** Liveness signaler (__init__.py 151-166) *)

Inductive loop_control := Break | Continue.

(** One pass through the body of the [while]. *)
Definition typing_round_body (context_bot : bool) (chat_id : Z)
    (r : typing_round) : M loop_control :=
  try_except
    (if context_bot then
       telegram_call (SendChatAction chat_id) ;;;
       (if stop_set_within_wait r then ret tt else raise TimeoutError) ;;;
       ret Break
     else ret Break)
    (fun e =>
       match e with
       | TimeoutError => ret Continue
       | _ => ret Break
       end).

(** The loop over the rounds the environment schedules.  [Some tt]: the
    coroutine has returned; [None]: it is still looping when the
    schedule ends. *)
Fixpoint send_typing_periodically (context_bot : bool) (chat_id : Z)
    (schedule : list typing_round) : M (option unit) :=
  match schedule with
  | [] => ret None
  | r :: rest =>
      if stop_set_at_check r then ret (Some tt) else
      c <- typing_round_body context_bot chat_id r ;;
      match c with
      | Break => ret (Some tt)
      | Continue => send_typing_periodically context_bot chat_id rest
      end
  end.

(** *** Command and message handlers *)

(** __init__.py 169-174 *)
Definition start_command (u : update) : M unit :=
  let chat_id := message_chat_id u in
  let user_id := effective_user_id u in
  let username := effective_user_username u in
  let initial_history := [SYSTEM_MESSAGE] in
  save_chat_history_to_cosmos chat_id initial_history user_id username
    true None ;;;
  telegram_call
    (ReplyHtml chat_id ("Hey " +:+ effective_user_mention u +:+ "! What's up?")).

(** __init__.py 176-181 *)
Definition clear_command (u : update) : M unit :=
  let chat_id := message_chat_id u in
  let user_id := effective_user_id u in
  let username := effective_user_username u in
  let cleared_history := [SYSTEM_MESSAGE] in
  save_chat_history_to_cosmos chat_id cleared_history user_id username
    true None ;;;
  telegram_call (ReplyText chat_id "Aight, memory wiped. Fresh start!").

Definition REJECTION_NOTICE : string :=
  "Whoa there, Shakespeare! Keep it under "
  +:+ str MAX_USER_MESSAGE_LENGTH +:+ " chars, 'kay?".

Definition DEFAULT_REPLY : string :=
  "Sorry, something went wrong while thinking...".

(** __init__.py 183-225.  The signaler task and the completion task run
    concurrently in the source; the trace lists the signaler's calls
    first.  [context_bot] tells whether [context.bot] is available. *)
Definition llm_message_handler (context_bot : bool) (u : update) : M unit :=
  match message_text u with
  | None => ret tt
  | Some user_message_content =>
    if negb (str_truthy user_message_content) then ret tt else
    let chat_id := message_chat_id u in
    let user_id := effective_user_id u in
    let username := effective_user_username u in
    try_except
      (if context_bot then telegram_call (SendChatAction chat_id) else ret tt)
      (fun e_initial_typing => ret tt) ;;;
    if Z.of_nat (String.length user_message_content) >? MAX_USER_MESSAGE_LENGTH
    then telegram_call (ReplyText chat_id REJECTION_NOTICE)
    else
      loaded <- get_chat_history_from_cosmos chat_id ;;
      let retrieved_history := loaded.1 in
      let existing_doc_metadata := loaded.2 in
      let is_first_interaction_for_chat :=
        negb (negb (bool_decide (retrieved_history = [])))
        && negb (dict_truthy existing_doc_metadata) in
      let current_turn_history :=
        if is_first_interaction_for_chat then [SYSTEM_MESSAGE]
        else if bool_decide (retrieved_history = [])
                && dict_truthy existing_doc_metadata
        then [SYSTEM_MESSAGE]
        else retrieved_history in
      let current_turn_history :=
        current_turn_history ++ [Message "user" user_message_content] in
      let history_for_llm :=
        _prepare_and_truncate_history_for_llm
          current_turn_history MAX_CONVERSATION_MESSAGES chat_id in
      llm_reply_content <-
        try_except
          (env <- ask ;;
           try_except
             (send_typing_periodically context_bot chat_id
                (stop_event_schedule env) ;;; ret tt)
             (fun e_typing_cancel => ret tt) ;;;
           get_llm_response_from_openrouter (entries history_for_llm)
             DEFAULT_MODEL)
          (fun e_concurrent => ret DEFAULT_REPLY) ;;
      let current_turn_history :=
        current_turn_history ++ [Message "assistant" llm_reply_content] in
      save_chat_history_to_cosmos chat_id current_turn_history user_id username
        is_first_interaction_for_chat
        (if negb is_first_interaction_for_chat
         then Some existing_doc_metadata else None) ;;;
      telegram_call (ReplyText chat_id llm_reply_content)
  end.

(** *** Lazy initialization and the HTTP entry point *)

(** __init__.py 229-246 *)
Definition initialize_ptb_application : M unit :=
  if opt_str_truthy (TELEGRAM_BOT_TOKEN (global_secrets g)) then
    let token := default "" (TELEGRAM_BOT_TOKEN (global_secrets g)) in
    try_except
      (env <- ask ;;
       match application_initialize_fault env with
       | Some e => raise e
       | None => put_ptb (Some (Application token)) (Some (Bot token))
       end)
      (fun e_ptb_lazy_init => put_ptb None None)
  else ret tt.

Record http_request := HttpRequest {
  request_json : option string
}.

Record http_response := HttpResponse {
  response_body : string;
  status_code : Z
}.

(** [req.get_json()]: [ValueError] when the body is not JSON. *)
Definition get_json (req : http_request) : M string :=
  match request_json req with
  | Some body => ret body
  | None => raise ValueError
  end.

Definition is_none {A} (o : option A) : bool :=
  match o with None => true | Some _ => false end.

(** __init__.py 250-303.  [None] in the first stage stands for the
    flow continuing past the lazy initialization. *)
Definition main (req : http_request) : M http_response :=
  if critical_secrets_missing g then
    ret (HttpResponse "Error: Bot configuration error (secrets)." 500)
  else
    w <- get_world ;;
    early <-
      (if is_none (ptb_application w) then
         w <- get_world ;;
         if is_none (ptb_application w) then
           initialize_ptb_application ;;;
           w <- get_world ;;
           if is_none (ptb_application w) || is_none (ptb_bot_instance w) then
             ret (Some (HttpResponse
               "Error: Bot application failed to initialize (PTB)." 500))
           else ret None
         else ret None
       else ret None) ;;
    match early with
    | Some response => ret response
    | None =>
      parsed <-
        try_except
          (request_body <- get_json req ;; ret (inl request_body))
          (fun e =>
             match e with
             | ValueError => ret (inr (HttpResponse "Please pass valid JSON" 400))
             | _ => raise e
             end) ;;
      match parsed with
      | inr response => ret response
      | inl request_body =>
        try_except
          (w <- get_world ;;
           if is_none (ptb_bot_instance w) then
             ret (HttpResponse
               "Error: Bot instance unavailable (internal error)." 500)
           else
             env <- ask ;;
             decoded <-
               match update_de_json env request_body with
               | Returned d => ret d
               | Raised e => raise e
               end ;;
             match decoded with
             | None => raise AttributeError
             | Some u =>
                 w <- get_world ;;
                 match ptb_application w with
                 | None => raise AttributeError
                 | Some _ =>
                     (fun env w => application_process_update env u w) ;;;
                     ret (HttpResponse "Update processed by function." 200)
                 end
             end)
          (fun e_process_update =>
             ret (HttpResponse "Internal error processing update." 200))
      end
    end.

End WithGlobals.

End Webhook.

(** ** Vocabulary of the properties *)

Definition is_system (m : message) : bool := String.eqb (role m) "system".

Definition count_system (l : list message) : nat :=
  length (filter (fun m => is_system m = true) l).

Definition leading_system (h : list message) : bool :=
  match h with
  | m :: _ => is_system m
  | [] => false
  end.

(** The leading system entry of a history, if it has one, and the
    entries after it. *)
Definition system_part (h : list message) : list message :=
  if leading_system h then take 1 h else [].

Definition conversation_part (h : list message) : list message :=
  if leading_system h then drop 1 h else h.

(** The last [n] entries of a list (all of it when it has fewer). *)
Definition last_entries {A} (n : Z) (l : list A) : list A :=
  drop (length l - Z.to_nat n) l.

(** The window property as the specification words it, for a history
    [h] and a bound [N]. *)
Definition window_property_as_stated (h : list message) (N : Z) : Prop :=
  let w := _prepare_and_truncate_history_for_llm h N 0 in
  Z.of_nat (length w) <= N + 1
  /\ (leading_system h = true ->
      count_system w = 1%nat /\ leading_system w = true)
  /\ (leading_system h = false -> count_system w = 0%nat)
  /\ (Z.of_nat (length (conversation_part h)) > N ->
      w = system_part h ++ last_entries N (conversation_part h))
  /\ (h = [] -> w = []).

(** What the builder does to the conversation part. *)
Definition truncate_conversation (N : Z) (c : list message) : list message :=
  if Z.of_nat (length c) >? N then py_slice_from (- N) c else c.

(** The world after further calls have been traced. *)
Definition log_events (w : world) (evs : list event) : world :=
  World (store w) (trace w ++ evs) (ptb_application w) (ptb_bot_instance w).

(** The world after a document has been written. *)
Definition with_store (w : world) (docs : gmap string (gmap string value))
    : world :=
  World docs (trace w) (ptb_application w) (ptb_bot_instance w).

(** The answer of the store to a read of [key]: the fault the
    environment injects, else the document under that key. *)
Definition store_answer (env : environment)
    (docs : gmap string (gmap string value)) (key : string)
    : outcome (gmap string value) :=
  match read_item_fault env with
  | Some e => Raised e
  | None =>
      match docs !! key with
      | Some doc => Returned doc
      | None => Raised CosmosResourceNotFoundError
      end
  end.

(** The history field of a document, and its other fields. *)
Definition history_field (doc : gmap string value) : option value :=
  doc !! "history".

Definition other_fields (doc : gmap string value) : gmap string value :=
  delete "history" doc.

(** "First interaction", in the words of the specification. *)
Definition first_interaction (history : list message)
    (metadata : gmap string value) : bool :=
  bool_decide (history = []) && bool_decide (metadata = ∅).

(** The working history before the user turn is appended, in the words
    of the specification: a single fresh system turn on a first
    interaction or when the history is empty despite metadata. *)
Definition seeded_history (system : message) (history : list message)
    (metadata : gmap string value) : list message :=
  if first_interaction history metadata
     || (bool_decide (history = []) && negb (bool_decide (metadata = ∅)))
  then [system] else history.

(** The text the completion client hands back for an answer of the
    service. *)
Definition reply_of_completion (fallback : string)
    (answer : outcome chat_completion) : string :=
  match answer with
  | Returned (ChatCompletion (Choice (Some text) :: _)) => strip text
  | _ => fallback
  end.

Definition is_save_entry (ev : event) : bool :=
  match ev with
  | Enter_save_chat_history _ _ _ _ _ _ => true
  | _ => false
  end.

Definition no_telegram_fault (env : environment) : Prop :=
  forall n, telegram_fault env n = None.

(** What a read hands to the orchestrator, given the answer of the
    store. *)
Definition loaded (answer : outcome (gmap string value))
    : list message * gmap string value :=
  match answer with
  | Returned doc =>
      (match history_field doc with Some (VList items) => items | _ => [] end,
       other_fields doc)
  | Raised _ => ([], ∅)
  end.

(** The name stored for an interactor. *)
Definition stored_username (interacting_username : option string) : string :=
  if opt_str_truthy interacting_username
  then default "" interacting_username else "N/A".

(** An environment in which nothing fails, and a document written
    before the creator fields existed. *)
Definition no_faults : environment :=
  Environment "2025-01-01T00:00:00+00:00" None None
    (fun _ _ => Returned (ChatCompletion [Choice (Some "hi")]))
    (fun _ => None) [] None (fun _ => Returned None)
    (fun _ w => (Returned tt, w)).

Definition legacy_document : gmap string value :=
  <["history" := VList [Message "system" ""; Message "user" "hello"]]>
  (<["chat_id" := VStr "1"]> (<["id" := VStr "1"]> ∅)).

(** An environment whose completion service is down, and the globals
    of a worker that started with all its secrets. *)
Definition failing_completion : environment :=
  Environment "2025-01-01T00:00:00+00:00" None None
    (fun _ _ => Raised (OtherException "connection reset"))
    (fun _ => None) [] None (fun _ => Returned None)
    (fun _ w => (Returned tt, w)).

Definition ready_globals : Webhook.globals :=
  Webhook.Globals
    (Webhook.Secrets (Some "token") (Some "key") (Some "uri") (Some "dbkey"))
    true true false.

(** The calls traced between two worlds of one run, and among them the
    entries of the save. *)
Definition new_events (before after : world) : list event :=
  drop (length (trace before)) (trace after).

Definition save_entries (evs : list event) : list event :=
  filter (fun e => is_save_entry e = true) evs.

Definition new_save_entries (before after : world) : list event :=
  save_entries (new_events before after).

(** The history field of a document is missing or is not a list. *)
Definition history_malformed (doc : gmap string value) : Prop :=
  match history_field doc with
  | Some v => isinstance_list v = false
  | None => True
  end.

(** The world in which [main] parses the request: the one it was
    called in, after the lazy initialization if no application was
    there. *)
Definition after_lazy_init (g : Webhook.globals) (env : environment)
    (w : world) : world :=
  if Webhook.is_none (ptb_application w)
  then (Webhook.initialize_ptb_application g env w).2 else w.

(** The application and its bot are set together. *)
Definition ptb_consistent (w : world) : Prop :=
  Webhook.is_none (ptb_application w) = Webhook.is_none (ptb_bot_instance w).

Definition some_secret_missing (s : Webhook.secrets) : bool :=
  negb (opt_str_truthy (Webhook.TELEGRAM_BOT_TOKEN s))
  || negb (opt_str_truthy (Webhook.OPENROUTER_API_KEY s))
  || negb (opt_str_truthy (Webhook.COSMOS_DB_URI s))
  || negb (opt_str_truthy (Webhook.COSMOS_DB_KEY s)).

(** Further sample inputs: a document whose history is no list, a store
    that refuses every call, and a short text message. *)
Definition corrupt_document : gmap string value :=
  <["history" := VStr "oops"]>
  (<["creator_user_id" := VStr "7"]> (<["id" := VStr "1"]> ∅)).

Definition failing_store : environment :=
  Environment "2025-01-01T00:00:00+00:00"
    (Some CosmosHttpResponseError) (Some CosmosHttpResponseError)
    (fun _ _ => Returned (ChatCompletion [Choice (Some " hi ")]))
    (fun _ => None) [] None (fun _ => Returned None)
    (fun _ w => (Returned tt, w)).

Definition hello_update : update := Update (Some "hello") 1 7 (Some "bob") "bob".


(** A text of [n] characters, and an environment of the webhook in
    which the body decodes to [hello_update] and is processed. *)
Fixpoint text_of_length (n : nat) : string :=
  match n with
  | O => ""
  | S n => String "a" (text_of_length n)
  end.

Definition text_update (n : nat) : update :=
  Update (Some (text_of_length n)) 1 7 (Some "bob") "bob".

Definition decoding : environment :=
  Environment "2025-01-01T00:00:00+00:00" None None
    (fun _ _ => Returned (ChatCompletion [Choice (Some "hi")]))
    (fun _ => None) [] None (fun _ => Returned (Some hello_update))
    (fun _ w => (Returned tt, w)).


(** A string of white space only; the first and the last character of
    a string. *)
Fixpoint all_space (s : string) : bool :=
  match s with
  | String c s' => py_isspace c && all_space s'
  | EmptyString => true
  end.

Definition first_char (s : string) : option ascii :=
  match s with
  | String c _ => Some c
  | EmptyString => None
  end.

Fixpoint last_char (s : string) : option ascii :=
  match s with
  | String c EmptyString => Some c
  | String _ s' => last_char s'
  | EmptyString => None
  end.

Definition not_space (c : option ascii) : Prop :=
  match c with
  | Some c => py_isspace c = false
  | None => True
  end.

(** What the log preview of the completion client needs of an entry: a
    role, and a content that can be sliced. *)
Definition has_role_and_text (msg : entry) : Prop :=
  (exists r, msg !! "role" = Some r)
  /\ (exists c, msg !! "content" = Some c /\ can_slice c = true).

(** The completion client as the specification words it, for a message
    list [h]: whatever the service does, the call returns a text. *)
Definition never_propagates_as_stated (g : Webhook.globals) (h : list entry)
    : Prop :=
  forall model env w,
    (exists text w',
       Bot.get_llm_response_from_openrouter h model env w = (Returned text, w'))
    /\ (exists text w',
         Webhook.get_llm_response_from_openrouter g h model env w
         = (Returned text, w')).

(** A message list whose only entry has a role and no content. *)
Definition entry_without_content : list entry :=
  [{["role" := VStr "user"]}].

(** ** Vocabulary of the further properties *)

(** The fields a written document can have, and the six of them that
    every save sets afresh. *)
Definition DOCUMENT_FIELDS : list string :=
  ["id"; "chat_id"; "history"; "last_interactor_user_id";
   "last_interactor_username"; "last_updated_timestamp";
   "creator_user_id"; "creator_username"].

Definition carries_fresh_fields (body : gmap string value) (cid : Z)
    (h : list message) (uid : Z) (uname : option string) (now : string)
    : Prop :=
  body !! "id" = Some (VStr (str cid))
  /\ body !! "chat_id" = Some (VStr (str cid))
  /\ body !! "history" = Some (VList h)
  /\ body !! "last_interactor_user_id" = Some (VStr (str uid))
  /\ body !! "last_interactor_username" = Some (VStr (stored_username uname))
  /\ body !! "last_updated_timestamp" = Some (VStr now).

(** The pieces of one accepted turn, for the pair [l] the load handed
    over and the text [t]: the working history with the user turn, the
    window built from it, and the prior metadata handed to the save. *)
Definition turn_history (system : message)
    (l : list message * gmap string value) (t : string) : list message :=
  seeded_history system l.1 l.2 ++ [Message "user" t].

Definition turn_window (system : message)
    (l : list message * gmap string value) (t : string) (cid : Z)
    : list message :=
  _prepare_and_truncate_history_for_llm (turn_history system l t)
    MAX_CONVERSATION_MESSAGES cid.

Definition turn_prior (l : list message * gmap string value)
    : option (gmap string value) :=
  if first_interaction l.1 l.2 then None else Some l.2.

(** The reply of the turn and the document its save writes, in bot.py
    and in the webhook. *)
Definition bot_turn_reply (sys : string) (env : environment)
    (l : list message * gmap string value) (t : string) (cid : Z) : string :=
  reply_of_completion Bot.FALLBACK_REPLY
    (completions_create env Bot.DEFAULT_MODEL
       (entries (turn_window (Bot.SYSTEM_MESSAGE sys) l t cid))).

Definition bot_turn_document (sys : string) (env : environment)
    (l : list message * gmap string value) (u : update) (t : string)
    : gmap string value :=
  Bot.item_body (message_chat_id u)
    (turn_history (Bot.SYSTEM_MESSAGE sys) l t
     ++ [Message "assistant" (bot_turn_reply sys env l t (message_chat_id u))])
    (effective_user_id u) (effective_user_username u)
    (first_interaction l.1 l.2) (turn_prior l) (utc_now_isoformat env).

Definition webhook_turn_reply (g : Webhook.globals) (env : environment)
    (l : list message * gmap string value) (t : string) (cid : Z) : string :=
  if Webhook.openrouter_client g then
    reply_of_completion Webhook.FALLBACK_REPLY
      (completions_create env Webhook.DEFAULT_MODEL
         (entries (turn_window Webhook.SYSTEM_MESSAGE l t cid)))
  else Webhook.CLIENT_ERROR_REPLY.

Definition webhook_turn_document (g : Webhook.globals) (env : environment)
    (l : list message * gmap string value) (u : update) (t : string)
    : gmap string value :=
  Webhook.item_body (message_chat_id u)
    (turn_history Webhook.SYSTEM_MESSAGE l t
     ++ [Message "assistant" (webhook_turn_reply g env l t (message_chat_id u))])
    (effective_user_id u) (effective_user_username u)
    (first_interaction l.1 l.2) (turn_prior l) (utc_now_isoformat env).

(** An accepted text message: it has text, and no more of it than the
    limit. *)
Definition accepted_text (u : update) (t : string) : Prop :=
  message_text u = Some t /\ t <> ""
  /\ Z.of_nat (String.length t) <= MAX_USER_MESSAGE_LENGTH.

Definition is_completion_call (ev : event) : bool :=
  match ev with
  | CompletionsCreate _ _ _ _ => true
  | _ => false
  end.

Definition completion_calls (evs : list event) : list event :=
  filter (fun e => is_completion_call e = true) evs.

(** A document whose creator is user 3. *)
Definition creator_document : gmap string value :=
  <["creator_username" := VStr "alice"]>
  (<["creator_user_id" := VStr "3"]> legacy_document).

(** The replies of [/start] and [/clear], and the document both
    commands write. *)
Definition START_REPLY (u : update) : event :=
  ReplyHtml (message_chat_id u)
    ("Hey " +:+ effective_user_mention u +:+ "! What's up?").

Definition CLEAR_REPLY (u : update) : event :=
  ReplyText (message_chat_id u) "Aight, memory wiped. Fresh start!".

Definition bot_reset_document (sys : string) (env : environment) (u : update)
    : gmap string value :=
  Bot.item_body (message_chat_id u) [Bot.SYSTEM_MESSAGE sys]
    (effective_user_id u) (effective_user_username u) true None
    (utc_now_isoformat env).

Definition webhook_reset_document (env : environment) (u : update)
    : gmap string value :=
  Webhook.item_body (message_chat_id u) [Webhook.SYSTEM_MESSAGE]
    (effective_user_id u) (effective_user_username u) true None
    (utc_now_isoformat env).

(** The state of a chat right after a reset by the sender of [u]. *)
Definition freshly_reset (system : message) (u : update)
    (doc : gmap string value) : Prop :=
  doc !! "history" = Some (VList [system])
  /\ doc !! "creator_user_id" = Some (VStr (str (effective_user_id u)))
  /\ doc !! "creator_username"
     = Some (VStr (stored_username (effective_user_username u)))
  /\ doc !! "last_interactor_user_id"
     = Some (VStr (str (effective_user_id u))).

(** The outcome of a call that fails exactly when a fault is injected. *)
Definition outcome_of_fault (f : option exn) : outcome unit :=
  match f with
  | Some e => Raised e
  | None => Returned tt
  end.

(** Either reset command. *)
Definition bot_reset (sys : string) (start : bool) : update -> M unit :=
  if start then Bot.start_command sys else Bot.clear_command sys.

Definition webhook_reset (g : Webhook.globals) (start : bool)
    : update -> M unit :=
  if start then Webhook.start_command g else Webhook.clear_command g.

(** The chat right after the first turn that follows a reset by the
    sender of [u1]: the turn of [u2] with the text [t]. *)
Definition continued_after_reset (system : message) (u1 u2 : update)
    (t : string) (doc : gmap string value) : Prop :=
  (exists reply,
     doc !! "history"
     = Some (VList [system; Message "user" t; Message "assistant" reply]))
  /\ doc !! "creator_user_id" = Some (VStr (str (effective_user_id u1)))
  /\ doc !! "last_interactor_user_id"
     = Some (VStr (str (effective_user_id u2))).

(** A message of another user in the chat of [hello_update]. *)
Definition carol_update : update := Update (Some "hello") 1 9 None "carol".

(** No call to Telegram fails with the exception class of an expired
    wait. *)
Definition no_telegram_timeout (env : environment) : Prop :=
  forall n, telegram_fault env n <> Some TimeoutError.

(** The stop event is set in the course of round [r]. *)
Definition stop_set_in_round (r : typing_round) : Prop :=
  stop_set_at_check r = true \/ stop_set_within_wait r = true.

(** The loop goes from round [r] on to the next one when its send is
    the Telegram call of rank [n]: the wait expires with the event
    still unset, or the send raises the exception class of an expired
    wait. *)
Definition round_continues (env : environment) (r : typing_round) (n : nat)
    : Prop :=
  stop_set_at_check r = false
  /\ (telegram_fault env n = Some TimeoutError
      \/ telegram_fault env n = None /\ stop_set_within_wait r = false).

(** Every round of [rounds] continues, the first send having rank
    [n]. *)
Definition rounds_continue (env : environment) (rounds : list typing_round)
    (n : nat) : Prop :=
  forall i r, rounds !! i = Some r -> round_continues env r (n + i).

(** Calls that are all typing indicators for the chat [cid]. *)
Definition typing_events (cid : Z) (evs : list event) : Prop :=
  Forall (fun e => e = SendChatAction cid) evs.

(** An environment whose first Telegram call times out and whose second
    is refused, and a schedule in which the stop event is first seen
    in the wait of the second round. *)
Definition flaky_telegram : environment :=
  Environment "2025-01-01T00:00:00+00:00" None None
    (fun _ _ => Returned (ChatCompletion [Choice (Some "hi")]))
    (fun n => match n with
              | O => Some TimeoutError
              | 1%nat => Some (OtherException "Forbidden")
              | _ => None
              end)
    [] None (fun _ => Returned None) (fun _ w => (Returned tt, w)).

Definition two_rounds : list typing_round :=
  [TypingRound false false; TypingRound false true; TypingRound false false].





(** The four secrets with the names of their environment variables. *)
Definition SECRET_VARIABLES
    : list ((Webhook.secrets -> option string) * string) :=
  [(Webhook.TELEGRAM_BOT_TOKEN, "TELEGRAM_BOT_TOKEN");
   (Webhook.OPENROUTER_API_KEY, "OPENROUTER_API_KEY");
   (Webhook.COSMOS_DB_URI, "COSMOS_DB_URI");
   (Webhook.COSMOS_DB_KEY, "COSMOS_DB_KEY")].

(** What the key vault contributes: nothing unless its address is
    configured and it answers. *)
Definition vault_value (s : Webhook.startup)
    (field : Webhook.secrets -> option string) : option string :=
  if opt_str_truthy (Webhook.getenv s "KEY_VAULT_URI") then
    match Webhook.key_vault_secrets s with
    | Returned k => field k
    | Raised _ => None
    end
  else None.

(** The two answers of [main] about the lazy initialization. *)
Definition PTB_FAILURE : Webhook.http_response :=
  Webhook.HttpResponse "Error: Bot application failed to initialize (PTB)." 500.

Definition BOT_UNAVAILABLE : Webhook.http_response :=
  Webhook.HttpResponse "Error: Bot instance unavailable (internal error)." 500.

(** Processing an update keeps the application and its bot set
    together. *)
Definition processing_keeps_consistency (env : environment) : Prop :=
  forall u w, ptb_consistent w ->
    ptb_consistent (application_process_update env u w).2.

(** A start with a vault that holds only the token, the rest being in
    the environment; and an environment in which the initialization of
    the application fails. *)
Definition vault_startup : Webhook.startup :=
  Webhook.Startup
    (fun name =>
       if String.eqb name "KEY_VAULT_URI" then Some "https://vault"
       else if String.eqb name "TELEGRAM_BOT_TOKEN" then Some "env-token"
       else Some "env-value")
    (Returned (Webhook.Secrets (Some "vault-token") (Some "") None None))
    None.

Definition failing_initialize : environment :=
  Environment "2025-01-01T00:00:00+00:00" None None
    (fun _ _ => Returned (ChatCompletion [Choice (Some "hi")]))
    (fun _ => None) [] (Some (OtherException "network"))
    (fun _ => Returned (Some hello_update)) (fun _ w => (Returned tt, w)).

(** An answer of the completion service that carries no text: it has no
    choice, or its first choice has no content. *)
Definition answer_without_text (c : chat_completion) : Prop :=
  match choices c with
  | [] => True
  | ch :: _ => choice_content ch = None
  end.

(** * Properties *)

(** ** Python slices *)

Lemma py_slice_from_one {A} (l : list A) : py_slice_from 1 l = drop 1 l.
Proof.
  unfold py_slice_from.
  destruct (Z.ltb_spec 1 0) as [|_]; [lia|].
  destruct l as [|a l]; [by rewrite !drop_nil|].
  f_equal. rewrite length_cons. lia.
Qed.

Lemma py_slice_from_neg {A} (n : Z) (l : list A) :
  1 <= n -> py_slice_from (- n) l = last_entries n l.
Proof.
  intros Hn. unfold py_slice_from, last_entries.
  destruct (Z.ltb_spec (- n) 0) as [_|]; [|lia].
  f_equal. lia.
Qed.

Lemma py_slice_from_zero {A} (l : list A) : py_slice_from (- 0) l = l.
Proof.
  unfold py_slice_from. simpl. rewrite Z.min_l by lia. reflexivity.
Qed.

Lemma length_last_entries {A} (n : Z) (l : list A) :
  0 <= n -> Z.of_nat (length (last_entries n l)) = Z.min n (Z.of_nat (length l)).
Proof.
  intros Hn. unfold last_entries. rewrite length_drop. lia.
Qed.

Lemma last_entries_all {A} (n : Z) (l : list A) :
  Z.of_nat (length l) <= n -> last_entries n l = l.
Proof.
  intros Hn. unfold last_entries.
  replace (length l - Z.to_nat n)%nat with 0%nat by lia. reflexivity.
Qed.

Lemma last_entries_suffix {A} (n : Z) (l : list A) :
  exists dropped, l = dropped ++ last_entries n l.
Proof.
  exists (take (length l - Z.to_nat n) l).
  unfold last_entries. by rewrite take_drop.
Qed.

(** ** The context window builder *)

Lemma window_split (h : list message) :
  h = system_part h ++ conversation_part h.
Proof.
  unfold system_part, conversation_part.
  destruct (leading_system h); [by rewrite take_drop | done].
Qed.

Lemma window_unfold (h : list message) (N cid : Z) :
  _prepare_and_truncate_history_for_llm h N cid
  = system_part h ++ truncate_conversation N (conversation_part h).
Proof.
  unfold _prepare_and_truncate_history_for_llm, system_part, conversation_part,
    truncate_conversation, leading_system, is_system.
  destruct h as [|m t].
  - simpl. destruct (_ >? _); [|reflexivity].
    unfold py_slice_from. by rewrite drop_nil.
  - destruct (String.eqb (role m) "system").
    + rewrite py_slice_from_one. simpl.
      by destruct (_ >? _).
    + by destruct (_ >? _).
Qed.

Lemma truncate_conversation_last (N : Z) (c : list message) :
  1 <= N -> truncate_conversation N c = last_entries N c.
Proof.
  intros HN. unfold truncate_conversation.
  destruct (Z.gtb_spec (Z.of_nat (length c)) N).
  - by apply py_slice_from_neg.
  - symmetry. apply last_entries_all. lia.
Qed.

Lemma truncate_conversation_zero (c : list message) :
  truncate_conversation 0 c = c.
Proof.
  unfold truncate_conversation.
  destruct (_ >? _); [apply py_slice_from_zero | reflexivity].
Qed.

Lemma truncate_conversation_short (N : Z) (c : list message) :
  Z.of_nat (length c) <= N -> truncate_conversation N c = c.
Proof.
  intros H. unfold truncate_conversation.
  destruct (Z.gtb_spec (Z.of_nat (length c)) N); [lia | reflexivity].
Qed.

Lemma count_system_app (l1 l2 : list message) :
  count_system (l1 ++ l2) = (count_system l1 + count_system l2)%nat.
Proof. unfold count_system. by rewrite filter_app, length_app. Qed.

Lemma count_system_cons (m : message) (l : list message) :
  count_system (m :: l)
  = ((if is_system m then 1 else 0) + count_system l)%nat.
Proof.
  unfold count_system. rewrite filter_cons.
  destruct (decide (is_system m = true)) as [->|H]; [done|].
  by destruct (is_system m).
Qed.

Lemma count_system_drop (n : nat) (l : list message) :
  (count_system (drop n l) <= count_system l)%nat.
Proof.
  rewrite <- (take_drop n l) at 2. rewrite count_system_app. lia.
Qed.

Lemma count_system_truncate (N : Z) (c : list message) :
  (count_system (truncate_conversation N c) <= count_system c)%nat.
Proof.
  unfold truncate_conversation, py_slice_from.
  destruct (_ >? _); [apply count_system_drop | lia].
Qed.

Lemma truncate_conversation_nil (N : Z) : truncate_conversation N [] = [].
Proof.
  unfold truncate_conversation, py_slice_from.
  destruct (_ >? _); [apply drop_nil | reflexivity].
Qed.

Lemma system_part_cases (h : list message) :
  (leading_system h = true /\ exists m t, h = m :: t /\ is_system m = true
     /\ system_part h = [m] /\ conversation_part h = t)
  \/ (leading_system h = false /\ system_part h = [] /\ conversation_part h = h).
Proof.
  unfold system_part, conversation_part.
  destruct (leading_system h) eqn:E; [left|right; done].
  split; [done|]. destruct h as [|m t]; [done|].
  exists m, t. simpl in *. rewrite take_0, drop_0. done.
Qed.

(** C1, as amended.  The window of a history [h] for a bound [N]:
    an empty history gives an empty window; a leading system entry of
    [h] is the first entry of the window, and it is the only system
    entry of the window when no later entry of [h] has role system; a
    history without any system entry gives a window without one; and
    for [N >= 1] the window has at most [N + 1] entries and is the
    leading system entry, if any, followed by the last [N] entries of
    the conversation part, the oldest dropped first. *)
Theorem window_bounded_and_anchored (h : list message) (N cid : Z) :
  let w := _prepare_and_truncate_history_for_llm h N cid in
  (h = [] -> w = [])
  /\ (leading_system h = true ->
      leading_system w = true /\ take 1 w = take 1 h
      /\ (count_system (drop 1 h) = 0%nat -> count_system w = 1%nat))
  /\ (count_system h = 0%nat -> count_system w = 0%nat)
  /\ (1 <= N -> Z.of_nat (length w) <= N + 1)
  /\ (1 <= N -> w = system_part h ++ last_entries N (conversation_part h)).
Proof.
  intros w. subst w. rewrite window_unfold.
  destruct (system_part_cases h) as [(Hl & m & t & -> & Hm & -> & ->)
                                    |(Hl & -> & ->)].
  - pose proof (count_system_truncate N t) as Hc.
    refine (conj _ (conj _ (conj _ (conj _ _)))).
    + done.
    + intros _. split; [done|]. split; [done|].
      simpl. intros H0. rewrite ?drop_0 in H0.
      rewrite count_system_cons, Hm. lia.
    + intros H0. rewrite count_system_cons, Hm in H0. lia.
    + intros HN. rewrite truncate_conversation_last by done.
      simpl. pose proof (length_last_entries N t). lia.
    + intros HN. by rewrite truncate_conversation_last.
  - pose proof (count_system_truncate N h) as Hc.
    refine (conj _ (conj _ (conj _ (conj _ _)))).
    + intros ->. by rewrite truncate_conversation_nil.
    + intros H. congruence.
    + intros H0. simpl. lia.
    + intros HN. rewrite truncate_conversation_last by done.
      simpl. pose proof (length_last_entries N h). lia.
    + intros HN. by rewrite truncate_conversation_last.
Qed.

(** C1, counterexample.  The builder looks at the role of the first
    entry only.  A history with a second system entry after the leading
    one keeps both in the window, and a history that starts with a user
    entry keeps the system entry it holds further on. *)
Lemma window_property_fails_on_inner_system_entries :
  ~ window_property_as_stated
      [Message "system" "s"; Message "user" "a"; Message "system" "t"] 20
  /\ ~ window_property_as_stated
      [Message "user" "a"; Message "system" "t"] 20.
Proof.
  split; intros (_ & H1 & H2 & _).
  - destruct H1 as [H1 _]; [reflexivity|]. vm_compute in H1. discriminate.
  - specialize (H2 eq_refl). vm_compute in H2. discriminate.
Qed.

(** With the bound 0 the slice [conversation_messages[-0:]] is the whole
    list: nothing is dropped, whatever the length. *)
Lemma window_zero_bound_keeps_everything (h : list message) (cid : Z) :
  _prepare_and_truncate_history_for_llm h 0 cid = h.
Proof.
  rewrite window_unfold, truncate_conversation_zero.
  symmetry. apply window_split.
Qed.

(** C1, witness: a history of one system entry and three turns, cut
    to two turns. *)
Lemma window_bounded_and_anchored_witness :
  let h := [Message "system" "s"; Message "user" "a"; Message "assistant" "b";
            Message "user" "c"] in
  let w := _prepare_and_truncate_history_for_llm h 2 7 in
  Z.of_nat (length w) <= 2 + 1
  /\ w = [Message "system" "s"; Message "assistant" "b"; Message "user" "c"]
  /\ count_system w = 1%nat.
Proof.
  intros h w.
  destruct (window_bounded_and_anchored h 2 7) as (_ & H2 & _ & H4 & H5).
  split; [apply H4; lia|].
  split; [etransitivity; [apply H5; lia | reflexivity]|].
  apply H2; reflexivity.
Defined.

Lemma window_leading_system (h : list message) (N cid : Z) :
  leading_system h = true ->
  exists m t, h = m :: t /\ is_system m = true.
Proof.
  destruct h as [|m t]; [done|]. intros H. by exists m, t.
Qed.

(** C8.  For a bound [N >= 0], a count of messages, building the
    window of a window gives the window back. *)
Theorem window_idempotent (h : list message) (N cid cid' : Z) :
  0 <= N ->
  _prepare_and_truncate_history_for_llm
    (_prepare_and_truncate_history_for_llm h N cid) N cid'
  = _prepare_and_truncate_history_for_llm h N cid.
Proof.
  intros HN.
  destruct (Z.eq_dec N 0) as [->|HN0].
  { by rewrite !window_zero_bound_keeps_everything. }
  assert (1 <= N) as H1 by lia. clear HN HN0.
  rewrite (window_unfold h).
  destruct (system_part_cases h) as [(Hl & m & t & -> & Hm & -> & ->)
                                    |(Hl & -> & ->)].
  - rewrite window_unfold. unfold system_part, conversation_part.
    simpl. rewrite Hm. simpl. rewrite drop_0. f_equal.
    apply truncate_conversation_short.
    rewrite truncate_conversation_last by done.
    pose proof (length_last_entries N t). lia.
  - simpl. set (w := truncate_conversation N h).
    assert (Z.of_nat (length w) <= N) as Hw.
    { subst w. rewrite truncate_conversation_last by done.
      pose proof (length_last_entries N h). lia. }
    rewrite window_unfold.
    rewrite truncate_conversation_short.
    + symmetry. apply window_split.
    + rewrite (window_split w) in Hw. rewrite length_app in Hw. lia.
Qed.

(** C8, witness: a window whose first entry becomes a system entry
    only after the cut. *)
Lemma window_idempotent_witness :
  let h := [Message "user" "a"; Message "system" "s"; Message "user" "b"] in
  _prepare_and_truncate_history_for_llm
    (_prepare_and_truncate_history_for_llm h 2 7) 2 7
  = _prepare_and_truncate_history_for_llm h 2 7.
Proof. intros h. apply window_idempotent. lia. Defined.

(** A negative [max_messages] is no count: the slice then drops from
    the front, once per application. *)
Lemma window_negative_bound_not_idempotent :
  let h := [Message "system" "s"; Message "user" "a"; Message "user" "b"] in
  _prepare_and_truncate_history_for_llm h (-1) 0
    = [Message "system" "s"; Message "user" "b"]
  /\ _prepare_and_truncate_history_for_llm
      (_prepare_and_truncate_history_for_llm h (-1) 0) (-1) 0
    = [Message "system" "s"].
Proof. split; reflexivity. Qed.

(** ** Running the effects *)

Ltac run :=
  unfold bind, try_except, ret, raise, emit, ask, get_world, put_store,
    put_ptb, log_events, with_store;
  cbn [store trace ptb_application ptb_bot_instance fst snd].

Lemma log_events_nil (w : world) : log_events w [] = w.
Proof. destruct w. unfold log_events. simpl. by rewrite app_nil_r. Qed.

Lemma log_events_app (w : world) (e1 e2 : list event) :
  log_events (log_events w e1) e2 = log_events w (e1 ++ e2).
Proof. unfold log_events. simpl. by rewrite app_assoc. Qed.

Lemma read_item_run (key pk : string) (env : environment) (w : world) :
  read_item key pk env w
  = (store_answer env (store w) key, log_events w [ReadItem key pk]).
Proof.
  unfold read_item, store_answer. run.
  destruct (read_item_fault env); run; [reflexivity|].
  by destruct (store w !! key).
Qed.

Lemma upsert_item_run (body : gmap string value) (key : string)
    (env : environment) (w : world) :
  body !! "id" = Some (VStr key) ->
  upsert_item body env w
  = match upsert_item_fault env with
    | Some e => (Raised e, log_events w [UpsertItem body])
    | None => (Returned tt,
               with_store (log_events w [UpsertItem body])
                 (<[key := body]> (store w)))
    end.
Proof.
  intros Hid. unfold upsert_item. run.
  destruct (upsert_item_fault env); run; [reflexivity|].
  rewrite Hid. by run.
Qed.

Lemma telegram_call_run (ev : event) (env : environment) (w : world) :
  telegram_call ev env w
  = (match telegram_fault env (telegram_rank (trace w)) with
     | Some e => Raised e
     | None => Returned tt
     end, log_events w [ev]).
Proof.
  unfold telegram_call. run. by destruct (telegram_fault env _); run.
Qed.

Lemma chat_completions_create_run (model : string) (t mt : Z)
    (messages : list entry) (env : environment) (w : world) :
  chat_completions_create model t mt messages env w
  = (completions_create env model messages,
     log_events w [CompletionsCreate model t mt messages]).
Proof.
  unfold chat_completions_create. run.
  by destruct (completions_create env model messages); run.
Qed.

(** ** The history store adapter *)

Lemma filter_not_history (doc : gmap string value) :
  filter (fun kv : string * value => kv.1 <> "history") doc = other_fields doc.
Proof.
  unfold other_fields. apply map_eq. intros k.
  rewrite map_lookup_filter.
  destruct (decide (k = "history")) as [->|Hk].
  - rewrite lookup_delete_eq. destruct (doc !! "history"); [|done].
    reflexivity.
  - rewrite lookup_delete_ne by done. destruct (doc !! k); [|done].
    simpl. by case_guard.
Qed.

Lemma bot_get_chat_history_run (cid : Z) (env : environment) (w : world) :
  Bot.get_chat_history_from_cosmos cid env w
  = (Returned (loaded (store_answer env (store w) (str cid))),
     log_events w [Enter_get_chat_history cid; ReadItem (str cid) (str cid)]).
Proof.
  unfold Bot.get_chat_history_from_cosmos.
  unfold bind at 1. unfold emit at 1. unfold try_except, bind.
  rewrite read_item_run. unfold loaded, history_field.
  destruct (store_answer _ _ _) as [doc|e]; run.
  - rewrite filter_not_history, <- app_assoc. simpl.
    by destruct (doc !! "history") as [[]|].
  - rewrite <- app_assoc. by destruct e.
Qed.

Lemma webhook_get_chat_history_run (g : Webhook.globals) (cid : Z)
    (env : environment) (w : world) :
  Webhook.get_chat_history_from_cosmos g cid env w
  = if Webhook.async_container_client g then
      (Returned (loaded (store_answer env (store w) (str cid))),
       log_events w [Enter_get_chat_history cid; ReadItem (str cid) (str cid)])
    else (Returned ([], ∅), log_events w [Enter_get_chat_history cid]).
Proof.
  unfold Webhook.get_chat_history_from_cosmos.
  unfold bind at 1. unfold emit at 1.
  destruct (Webhook.async_container_client g); simpl; [|reflexivity].
  unfold try_except, bind.
  rewrite read_item_run. unfold loaded, history_field.
  destruct (store_answer _ _ _) as [doc|e]; run.
  - rewrite filter_not_history, <- app_assoc. simpl.
    by destruct (doc !! "history") as [[]|].
  - rewrite <- app_assoc. by destruct e.
Qed.

(** ** The save of the store adapter *)

Lemma bot_item_body_id cid h uid uname init md now :
  Bot.item_body cid h uid uname init md now !! "id" = Some (VStr (str cid)).
Proof.
  unfold Bot.item_body.
  destruct init; [by simplify_map_eq|].
  destruct (opt_dict_truthy md); [|by simplify_map_eq].
  destruct (default ∅ md !! "creator_user_id"),
           (default ∅ md !! "creator_username"); by simplify_map_eq.
Qed.

Lemma webhook_item_body_id cid h uid uname init md now :
  Webhook.item_body cid h uid uname init md now !! "id" = Some (VStr (str cid)).
Proof.
  unfold Webhook.item_body.
  destruct init; [by simplify_map_eq|].
  destruct (opt_dict_truthy md); by simplify_map_eq.
Qed.

Lemma bot_save_chat_history_run cid h uid uname init md env w :
  let body := Bot.item_body cid h uid uname init md (utc_now_isoformat env) in
  let w1 := log_events w
              [Enter_save_chat_history cid h uid uname init md; UpsertItem body] in
  Bot.save_chat_history_to_cosmos cid h uid uname init md env w
  = (Returned tt,
     match upsert_item_fault env with
     | Some _ => w1
     | None => with_store w1 (<[str cid := body]> (store w))
     end).
Proof.
  intros body w1. unfold Bot.save_chat_history_to_cosmos.
  unfold bind at 1. unfold emit at 1. unfold bind at 1. unfold ask at 1.
  unfold try_except.
  rewrite (upsert_item_run _ (str cid)) by apply bot_item_body_id.
  subst w1 body.
  destruct (upsert_item_fault env); run; by rewrite <- app_assoc.
Qed.

Lemma webhook_save_chat_history_run g cid h uid uname init md env w :
  let body := Webhook.item_body cid h uid uname init md (utc_now_isoformat env) in
  let w0 := log_events w [Enter_save_chat_history cid h uid uname init md] in
  let w1 := log_events w
              [Enter_save_chat_history cid h uid uname init md; UpsertItem body] in
  Webhook.save_chat_history_to_cosmos g cid h uid uname init md env w
  = (Returned tt,
     if Webhook.async_container_client g then
       match upsert_item_fault env with
       | Some _ => w1
       | None => with_store w1 (<[str cid := body]> (store w))
       end
     else w0).
Proof.
  intros body w0 w1. unfold Webhook.save_chat_history_to_cosmos.
  unfold bind at 1. unfold emit at 1.
  destruct (Webhook.async_container_client g); simpl; [|reflexivity].
  unfold bind at 1. unfold ask at 1.
  unfold try_except.
  rewrite (upsert_item_run _ (str cid)) by apply webhook_item_body_id.
  subst w1 body.
  destruct (upsert_item_fault env); run; by rewrite <- app_assoc.
Qed.

(** ** Creator provenance *)

(** The webhook's save keeps or stamps the creator, field by field: on
    a creation or reset both creator fields are the interactor's; else
    each field is the one of the prior metadata when it is there and the
    interactor's when it is not. *)
Lemma webhook_creator_provenance cid h uid uname init md now :
  let body := Webhook.item_body cid h uid uname init md now in
  (init = true ->
     body !! "creator_user_id" = Some (VStr (str uid))
     /\ body !! "creator_username" = Some (VStr (stored_username uname)))
  /\ (init = false ->
      body !! "creator_user_id"
        = Some (default (VStr (str uid)) (md ≫= (.!! "creator_user_id")))
      /\ body !! "creator_username"
        = Some (default (VStr (stored_username uname))
                  (md ≫= (.!! "creator_username")))).
Proof.
  intros body. subst body. unfold Webhook.item_body, stored_username.
  split; intros ->.
  - by simplify_map_eq.
  - destruct md as [m|]; simpl.
    + unfold dict_truthy. case_bool_decide as Hm; simpl.
      * subst m. by simplify_map_eq.
      * by simplify_map_eq.
    + by simplify_map_eq.
Qed.

(** bot.py agrees on a creation or reset, without prior metadata, and
    on the fields the prior metadata carries; a field the non-empty
    prior metadata lacks is left out of the written document. *)
Lemma bot_creator_provenance cid h uid uname init md now :
  let body := Bot.item_body cid h uid uname init md now in
  (init = true ->
     body !! "creator_user_id" = Some (VStr (str uid))
     /\ body !! "creator_username" = Some (VStr (stored_username uname)))
  /\ (init = false -> opt_dict_truthy md = false ->
     body !! "creator_user_id" = Some (VStr (str uid))
     /\ body !! "creator_username" = Some (VStr (stored_username uname)))
  /\ (init = false -> forall m, md = Some m -> m <> ∅ ->
       body !! "creator_user_id" = m !! "creator_user_id"
       /\ body !! "creator_username" = m !! "creator_username").
Proof.
  intros body. subst body. unfold Bot.item_body, stored_username.
  split; [|split].
  - intros ->. by simplify_map_eq.
  - intros -> ->. by simplify_map_eq.
  - intros -> m -> Hm. simpl. unfold dict_truthy.
    rewrite bool_decide_false by done. simpl.
    destruct (m !! "creator_user_id"), (m !! "creator_username");
      by simplify_map_eq.
Qed.

(** C2, at the failing input.  bot.py saves a turn of a chat whose
    document carries no creator fields: the call returns, and the
    document it writes has no creator field either, where the webhook's
    save stamps the interactor. *)
Theorem bot_save_leaves_creator_unset :
  let w := World {["1" := legacy_document]} [] None None in
  let md := other_fields legacy_document in
  let result :=
    Bot.save_chat_history_to_cosmos 1 [Message "system" ""] 7 (Some "bob")
      false (Some md) no_faults w in
  result.1 = Returned tt
  /\ (exists doc, store result.2 !! "1" = Some doc
      /\ doc !! "creator_user_id" = None
      /\ doc !! "creator_username" = None)
  /\ (Webhook.item_body 1 [Message "system" ""] 7 (Some "bob") false (Some md)
        "2025-01-01T00:00:00+00:00") !! "creator_user_id" = Some (VStr "7").
Proof.
  intros w md result. subst result.
  rewrite bot_save_chat_history_run. simpl.
  split; [reflexivity|]. split.
  - eexists. split; [apply lookup_insert_eq|].
    split; vm_compute; reflexivity.
  - vm_compute. reflexivity.
Qed.

(** ** The completion client *)

(** A dict with a role and a content that can be sliced: what the log
    preview needs of an entry. *)
Lemma preview_entry_ok (k : Z) (msg : entry) :
  has_role_and_text msg -> preview_entry k msg = Returned tt.
Proof.
  intros ((r & Hr) & c & Hc & Hs).
  unfold preview_entry, getitem, slice_prefix. by rewrite Hr, Hc, Hs.
Qed.

Lemma preview_entries_ok (k : Z) (l : list entry) :
  Forall has_role_and_text l -> preview_entries k l = Returned tt.
Proof.
  induction 1 as [|msg l Hmsg _ IH]; [done|].
  simpl. by rewrite (preview_entry_ok k msg Hmsg).
Qed.

Lemma message_entry_has_role_and_text (m : message) :
  has_role_and_text (message_entry m).
Proof.
  unfold has_role_and_text, message_entry. split.
  - exists (VStr (role m)). by simplify_map_eq.
  - exists (VStr (content m)). by simplify_map_eq.
Qed.

Lemma entries_have_role_and_text (h : list message) :
  Forall has_role_and_text (entries h).
Proof.
  unfold entries. apply Forall_fmap, Forall_forall.
  intros m _. apply message_entry_has_role_and_text.
Qed.

Lemma log_history_preview_ok (n k : Z) (h : list entry) :
  Forall has_role_and_text (py_slice_from (- n) h) ->
  log_history_preview n k h = Returned tt.
Proof. apply preview_entries_ok. Qed.

Lemma log_history_preview_entries (n k : Z) (h : list message) :
  log_history_preview n k (entries h) = Returned tt.
Proof.
  apply log_history_preview_ok. unfold py_slice_from.
  apply Forall_drop, entries_have_role_and_text.
Qed.

Lemma bot_get_llm_response_run (h : list entry) (model : string)
    (env : environment) (w : world) :
  Bot.get_llm_response_from_openrouter h model env w
  = match log_history_preview 5 30 h with
    | Raised e => (Raised e, w)
    | Returned _ =>
        (Returned (reply_of_completion Bot.FALLBACK_REPLY
                     (completions_create env model h)),
         log_events w [CompletionsCreate model 1 500 h])
    end.
Proof.
  unfold Bot.get_llm_response_from_openrouter, bind, of_outcome.
  destruct (log_history_preview 5 30 h); [|reflexivity].
  unfold try_except, bind.
  rewrite chat_completions_create_run.
  destruct (completions_create env model h) as [[[|[[text|]] rest]]|e];
    reflexivity.
Qed.

Lemma webhook_get_llm_response_run (g : Webhook.globals) (h : list entry)
    (model : string) (env : environment) (w : world) :
  Webhook.get_llm_response_from_openrouter g h model env w
  = if Webhook.openrouter_client g then
      match log_history_preview 3 20 h with
      | Raised e => (Raised e, w)
      | Returned _ =>
          (Returned (reply_of_completion Webhook.FALLBACK_REPLY
                       (completions_create env model h)),
           log_events w [CompletionsCreate model 1 500 h])
      end
    else (Returned Webhook.CLIENT_ERROR_REPLY, w).
Proof.
  unfold Webhook.get_llm_response_from_openrouter.
  destruct (Webhook.openrouter_client g); simpl; [|reflexivity].
  unfold bind, of_outcome.
  destruct (log_history_preview 3 20 h); [|reflexivity].
  unfold try_except, bind.
  rewrite chat_completions_create_run.
  destruct (completions_create env model h) as [[[|[[text|]] rest]]|e];
    reflexivity.
Qed.

(** C5, as amended.  For a message list whose last five entries (in
    the webhook: last three) each have a role and a content that can be
    sliced, [get_llm_response_from_openrouter] returns a text and
    raises nothing, whatever the completion service answers; when the
    completion call raises, the text is the fixed fallback, and when it
    delivers generated text, the text is that text stripped.  (The
    webhook makes the call only when its client exists.)  Every list of
    messages with a role and a text is such a list. *)
Theorem completion_client_never_raises (g : Webhook.globals)
    (h : list entry) (model : string) (env : environment) (w : world) :
  (Forall has_role_and_text (py_slice_from (-5) h) ->
   exists text w',
     Bot.get_llm_response_from_openrouter h model env w = (Returned text, w')
     /\ (forall e, completions_create env model h = Raised e ->
         text = Bot.FALLBACK_REPLY)
     /\ (forall generated rest,
         completions_create env model h
           = Returned (ChatCompletion (Choice (Some generated) :: rest)) ->
         text = strip generated))
  /\ (Forall has_role_and_text (py_slice_from (-3) h) ->
      exists text w',
        Webhook.get_llm_response_from_openrouter g h model env w
          = (Returned text, w')
        /\ (Webhook.openrouter_client g = true ->
            forall e, completions_create env model h = Raised e ->
            text = Webhook.FALLBACK_REPLY)
        /\ (Webhook.openrouter_client g = true ->
            forall generated rest,
            completions_create env model h
              = Returned (ChatCompletion (Choice (Some generated) :: rest)) ->
            text = strip generated))
  /\ (forall (l : list message) (n : Z),
      Forall has_role_and_text (py_slice_from n (entries l))).
Proof.
  split; [|split].
  - intros Hok. rewrite bot_get_llm_response_run.
    rewrite (log_history_preview_ok 5 30 h Hok).
    eexists _, _. split; [reflexivity|].
    split; [intros e ->|intros generated rest ->]; reflexivity.
  - intros Hok. rewrite webhook_get_llm_response_run.
    rewrite (log_history_preview_ok 3 20 h Hok).
    destruct (Webhook.openrouter_client g).
    + eexists _, _. split; [reflexivity|].
      split; intros _; [intros e ->|intros generated rest ->]; reflexivity.
    + eexists _, _. split; [reflexivity|]. split; intros ?; discriminate.
  - intros l n. unfold py_slice_from.
    apply Forall_drop, entries_have_role_and_text.
Qed.

(** C5, counterexample: handed a list whose entry has no content, the
    client raises [KeyError] while it builds its log preview, before it
    has entered the [try]: in bot.py, and in the webhook when it has
    its client. *)
Lemma completion_client_raises_on_entry_without_content :
  Bot.get_llm_response_from_openrouter entry_without_content "m" no_faults
    (World ∅ [] None None)
  = (Raised KeyError, World ∅ [] None None)
  /\ Webhook.get_llm_response_from_openrouter ready_globals
       entry_without_content "m" no_faults (World ∅ [] None None)
     = (Raised KeyError, World ∅ [] None None)
  /\ ~ never_propagates_as_stated ready_globals entry_without_content.
Proof.
  assert (Bot.get_llm_response_from_openrouter entry_without_content "m"
            no_faults (World ∅ [] None None)
          = (Raised KeyError, World ∅ [] None None)) as Hrun
    by (vm_compute; reflexivity).
  split; [exact Hrun|]. split; [vm_compute; reflexivity|].
  intros Hstated.
  destruct (Hstated "m" no_faults (World ∅ [] None None))
    as [(text & w' & Hret) _].
  rewrite Hrun in Hret. discriminate Hret.
Qed.

(** C5, witness: a service that is down, and one that answers. *)
Lemma completion_client_never_raises_witness :
  let w := World ∅ [] None None in
  let h := entries [Message "system" ""; Message "user" "hello"] in
  (Webhook.get_llm_response_from_openrouter ready_globals h "m"
     failing_completion w).1 = Returned Webhook.FALLBACK_REPLY
  /\ (Webhook.get_llm_response_from_openrouter ready_globals h "m"
     no_faults w).1 = Returned "hi".
Proof.
  intros w h.
  assert (Forall has_role_and_text (py_slice_from (-3) h)) as Hok
    by (apply Forall_drop, entries_have_role_and_text).
  split.
  - destruct (completion_client_never_raises ready_globals h "m"
                failing_completion w)
      as (_ & Hweb & _).
    destruct (Hweb Hok) as (text & w' & -> & Hf & _).
    simpl. f_equal. exact (Hf eq_refl _ eq_refl).
  - destruct (completion_client_never_raises ready_globals h "m" no_faults w)
      as (_ & Hweb & _).
    destruct (Hweb Hok) as (text & w' & -> & _ & Hs).
    simpl. f_equal. exact (Hs eq_refl "hi" [] eq_refl).
Defined.

(** [strip] removes white space at both ends and nothing else. *)
Lemma strip_examples :
  strip "  hello world
 " = "hello world" /\ strip "" = "" /\ strip "   " = "" /\ strip "a b" = "a b".
Proof. repeat split. Qed.

(** ** The turn orchestrator *)

Lemma telegram_rank_app (t1 t2 : list event) :
  telegram_rank (t1 ++ t2) = (telegram_rank t1 + telegram_rank t2)%nat.
Proof. unfold telegram_rank. by rewrite filter_app, length_app. Qed.

Lemma telegram_rank_cons (e : event) (l : list event) :
  telegram_rank (e :: l)
  = ((if is_telegram_call e then 1 else 0) + telegram_rank l)%nat.
Proof.
  unfold telegram_rank. rewrite filter_cons.
  destruct (decide (is_telegram_call e = true)) as [->|H]; [done|].
  by destruct (is_telegram_call e).
Qed.

Lemma telegram_rank_nil : telegram_rank [] = 0%nat.
Proof. reflexivity. Qed.

Lemma log_events_with_store (w : world) docs (evs : list event) :
  log_events (with_store w docs) evs = with_store (log_events w evs) docs.
Proof. reflexivity. Qed.

Lemma trace_log_events (w : world) (evs : list event) :
  trace (log_events w evs) = trace w ++ evs.
Proof. reflexivity. Qed.

Lemma store_log_events (w : world) (evs : list event) :
  store (log_events w evs) = store w.
Proof. reflexivity. Qed.

Ltac rank :=
  rewrite ?trace_log_events, ?telegram_rank_app, ?telegram_rank_cons,
    ?telegram_rank_nil;
  cbn [is_telegram_call Nat.add].

Lemma str_truthy_nonempty (t : string) : t <> "" -> str_truthy t = true.
Proof.
  intros H. unfold str_truthy. destruct (String.eqb_spec t ""); done.
Qed.

Lemma first_interaction_code (h : list message) (md : gmap string value) :
  negb (negb (bool_decide (h = []))) && negb (dict_truthy md)
  = first_interaction h md.
Proof.
  unfold first_interaction, dict_truthy. by rewrite !negb_involutive.
Qed.

Lemma seeded_history_code (system : message) (h : list message)
    (md : gmap string value) :
  (if first_interaction h md then [system]
   else if bool_decide (h = []) && dict_truthy md then [system] else h)
  = seeded_history system h md.
Proof.
  unfold seeded_history, first_interaction, dict_truthy.
  by destruct (bool_decide (h = [])), (bool_decide (md = ∅)).
Qed.

Lemma seeded_history_empty (system : message) (h : list message)
    (md : gmap string value) :
  seeded_history system h md = if bool_decide (h = []) then [system] else h.
Proof.
  unfold seeded_history, first_interaction.
  by destruct (bool_decide (h = [])), (bool_decide (md = ∅)).
Qed.

(** *** One turn of bot.py *)

Section BotTurn.

Variable sys : string.
Variable u : update.
Variable t : string.
Variable env : environment.
Variable w : world.

Hypothesis Htext : message_text u = Some t.
Hypothesis Hnonempty : t <> "".

Let cid := message_chat_id u.
Let uid := effective_user_id u.
Let uname := effective_user_username u.
Let key := str cid.
Let n := telegram_rank (trace w).

Lemma bot_handler_rejects :
  Z.of_nat (String.length t) > MAX_USER_MESSAGE_LENGTH ->
  Bot.llm_message_handler sys u env w
  = (match telegram_fault env n with
     | Some e => Raised e
     | None => Returned tt
     end, log_events w [ReplyText cid Bot.REJECTION_NOTICE]).
Proof.
  intros Hlen. unfold Bot.llm_message_handler. rewrite Htext.
  rewrite str_truthy_nonempty by done. cbn [negb].
  destruct (Z.gtb_spec (Z.of_nat (String.length t)) MAX_USER_MESSAGE_LENGTH);
    [|lia].
  apply telegram_call_run.
Qed.

Let h := (loaded (store_answer env (store w) key)).1.
Let md := (loaded (store_answer env (store w) key)).2.
Let first := first_interaction h md.
Let cur := seeded_history (Bot.SYSTEM_MESSAGE sys) h md ++ [Message "user" t].
Let window :=
  _prepare_and_truncate_history_for_llm cur MAX_CONVERSATION_MESSAGES cid.
Let reply :=
  reply_of_completion Bot.FALLBACK_REPLY
    (completions_create env Bot.DEFAULT_MODEL (entries window)).
Let saved := cur ++ [Message "assistant" reply].
Let prior := if first then None else Some md.
Let body :=
  Bot.item_body cid saved uid uname first prior (utc_now_isoformat env).

Lemma bot_handler_accepts :
  Z.of_nat (String.length t) <= MAX_USER_MESSAGE_LENGTH ->
  Bot.llm_message_handler sys u env w
  = match telegram_fault env n with
    | Some e =>
        (Raised e,
         log_events w [Enter_get_chat_history cid; ReadItem key key;
                       ReplyText cid Bot.THINKING_NOTICE])
    | None =>
        let evs :=
          [Enter_get_chat_history cid; ReadItem key key;
           ReplyText cid Bot.THINKING_NOTICE;
           CompletionsCreate Bot.DEFAULT_MODEL 1 500 (entries window);
           Enter_save_chat_history cid saved uid uname first prior;
           UpsertItem body;
           EditText cid reply] in
        (match telegram_fault env (S n) with
         | Some e => Raised e
         | None => Returned tt
         end,
         match upsert_item_fault env with
         | Some _ => log_events w evs
         | None => with_store (log_events w evs) (<[key := body]> (store w))
         end)
    end.
Proof.
  intros Hlen. unfold Bot.llm_message_handler. rewrite Htext.
  rewrite str_truthy_nonempty by done. cbn [negb].
  destruct (Z.gtb_spec (Z.of_nat (String.length t)) MAX_USER_MESSAGE_LENGTH);
    [lia|].
  cbv zeta. unfold bind at 1. rewrite bot_get_chat_history_run.
  fold cid key. cbv beta iota zeta.
  fold h md. rewrite first_interaction_code, seeded_history_code.
  fold first. fold cur. fold window.
  unfold bind at 1. rewrite telegram_call_run. rank.
  rewrite Nat.add_0_r. fold n. rewrite log_events_app.
  destruct (telegram_fault env n) as [e|]; [reflexivity|].
  unfold bind at 1.
  rewrite bot_get_llm_response_run, log_history_preview_entries. fold reply.
  rewrite log_events_app. fold saved.
  replace (if negb first then Some md else None) with prior
    by (subst prior; by destruct first).
  unfold bind at 1. rewrite bot_save_chat_history_run. fold uid uname body.
  rewrite log_events_app, store_log_events.
  destruct (upsert_item_fault env) as [e|].
  - rewrite telegram_call_run, log_events_app. rank. fold n.
    by replace (n + 1)%nat with (S n) by lia.
  - rewrite telegram_call_run. unfold with_store at 1. cbn [trace].
    rank. fold n.
    rewrite log_events_with_store, log_events_app.
    by replace (n + 1)%nat with (S n) by lia.
Qed.

End BotTurn.

(** ** The liveness signaler *)

Lemma typing_round_body_run (cb : bool) (cid : Z) (r : typing_round)
    (env : environment) (w : world) :
  Webhook.typing_round_body cb cid r env w
  = if cb then
      (Returned
         match telegram_fault env (telegram_rank (trace w)) with
         | Some TimeoutError => Webhook.Continue
         | Some _ => Webhook.Break
         | None =>
             if stop_set_within_wait r then Webhook.Break
             else Webhook.Continue
         end,
       log_events w [SendChatAction cid])
    else (Returned Webhook.Break, w).
Proof.
  unfold Webhook.typing_round_body, try_except.
  destruct cb; [|reflexivity].
  unfold bind at 1. rewrite telegram_call_run.
  destruct (telegram_fault env _) as [e|].
  - by destruct e.
  - by destruct (stop_set_within_wait r).
Qed.

Lemma send_typing_periodically_run (cb : bool) (cid : Z)
    (schedule : list typing_round) (env : environment) (w : world) :
  exists r evs,
    Webhook.send_typing_periodically cb cid schedule env w
      = (Returned r, log_events w evs)
    /\ Forall (fun e => e = SendChatAction cid) evs.
Proof.
  revert w. induction schedule as [|r rest IH]; intros w.
  - exists None, []. by rewrite log_events_nil.
  - simpl. destruct (stop_set_at_check r).
    + exists (Some tt), []. by rewrite log_events_nil.
    + unfold bind. rewrite typing_round_body_run.
      destruct cb.
      * set (c := match telegram_fault env _ with Some TimeoutError => _ | _ => _ end).
        destruct c.
        -- exists (Some tt), [SendChatAction cid]. split; [done|].
           by repeat constructor.
        -- destruct (IH (log_events w [SendChatAction cid])) as (r' & evs & -> & Hevs).
           exists r', (SendChatAction cid :: evs). rewrite log_events_app.
           split; [done|]. by constructor.
      * exists (Some tt), []. by rewrite log_events_nil.
Qed.

Lemma telegram_rank_typing (cid : Z) (evs : list event) :
  Forall (fun e => e = SendChatAction cid) evs ->
  telegram_rank evs = length evs.
Proof.
  induction 1 as [|e evs -> _ IH]; [done|].
  rewrite telegram_rank_cons, IH. reflexivity.
Qed.

(** *** One turn of the webhook *)

Section WebhookTurn.

Variable g : Webhook.globals.
Variable cb : bool.
Variable u : update.
Variable t : string.
Variable env : environment.
Variable w : world.

Hypothesis Htext : message_text u = Some t.
Hypothesis Hnonempty : t <> "".

Let cid := message_chat_id u.
Let uid := effective_user_id u.
Let uname := effective_user_username u.
Let key := str cid.
Let n := telegram_rank (trace w).
Let initial : list event := if cb then [SendChatAction cid] else [].

Lemma webhook_initial_typing_run :
  try_except
    (if cb then telegram_call (SendChatAction cid) else ret tt)
    (fun _ => ret tt) env w
  = (Returned tt, log_events w initial).
Proof.
  unfold try_except. subst initial. destruct cb.
  - rewrite telegram_call_run. by destruct (telegram_fault env _).
  - unfold ret. by rewrite log_events_nil.
Qed.

Lemma webhook_handler_rejects :
  Z.of_nat (String.length t) > MAX_USER_MESSAGE_LENGTH ->
  Webhook.llm_message_handler g cb u env w
  = (match telegram_fault env (n + length initial) with
     | Some e => Raised e
     | None => Returned tt
     end, log_events w (initial ++ [ReplyText cid Webhook.REJECTION_NOTICE])).
Proof.
  intros Hlen. unfold Webhook.llm_message_handler. rewrite Htext.
  rewrite str_truthy_nonempty by done. cbn [negb]. cbv zeta.
  unfold bind at 1. fold cid. rewrite webhook_initial_typing_run.
  destruct (Z.gtb_spec (Z.of_nat (String.length t)) MAX_USER_MESSAGE_LENGTH);
    [|lia].
  rewrite telegram_call_run, log_events_app. rank. fold n.
  replace (telegram_rank initial) with (length initial); [done|].
  subst initial. by destruct cb.
Qed.

Let answer : list message * gmap string value :=
  if Webhook.async_container_client g
  then loaded (store_answer env (store w) key) else ([], ∅).
Let h := answer.1.
Let md := answer.2.
Let first := first_interaction h md.
Let cur := seeded_history Webhook.SYSTEM_MESSAGE h md ++ [Message "user" t].
Let window :=
  _prepare_and_truncate_history_for_llm cur MAX_CONVERSATION_MESSAGES cid.
Let reply :=
  if Webhook.openrouter_client g then
    reply_of_completion Webhook.FALLBACK_REPLY
      (completions_create env Webhook.DEFAULT_MODEL (entries window))
  else Webhook.CLIENT_ERROR_REPLY.
Let saved := cur ++ [Message "assistant" reply].
Let prior := if first then None else Some md.
Let body :=
  Webhook.item_body cid saved uid uname first prior (utc_now_isoformat env).
Let reads : list event :=
  if Webhook.async_container_client g then [ReadItem key key] else [].
Let completions : list event :=
  if Webhook.openrouter_client g
  then [CompletionsCreate Webhook.DEFAULT_MODEL 1 500 (entries window)]
  else [].
Let writes : list event :=
  if Webhook.async_container_client g then [UpsertItem body] else [].

Lemma webhook_handler_accepts :
  Z.of_nat (String.length t) <= MAX_USER_MESSAGE_LENGTH ->
  exists typing,
    Forall (fun e => e = SendChatAction cid) typing
    /\ let evs :=
         initial ++ [Enter_get_chat_history cid] ++ reads ++ typing
         ++ completions
         ++ [Enter_save_chat_history cid saved uid uname first prior]
         ++ writes ++ [ReplyText cid reply] in
       Webhook.llm_message_handler g cb u env w
       = (match telegram_fault env (n + length initial + length typing) with
          | Some e => Raised e
          | None => Returned tt
          end,
          if Webhook.async_container_client g then
            match upsert_item_fault env with
            | Some _ => log_events w evs
            | None => with_store (log_events w evs) (<[key := body]> (store w))
            end
          else log_events w evs).
Proof.
  intros Hlen.
  destruct (send_typing_periodically_run cb cid (stop_event_schedule env) env
              (log_events w (initial ++ [Enter_get_chat_history cid] ++ reads)))
    as (r & typing & Htyping & Hall).
  exists typing. split; [done|]. intros evs.
  unfold Webhook.llm_message_handler. rewrite Htext.
  rewrite str_truthy_nonempty by done. cbn [negb]. cbv zeta.
  unfold bind at 1. fold cid. rewrite webhook_initial_typing_run.
  destruct (Z.gtb_spec (Z.of_nat (String.length t)) MAX_USER_MESSAGE_LENGTH);
    [lia|].
  unfold bind at 1. rewrite webhook_get_chat_history_run. fold key.
  replace (if Webhook.async_container_client g
           then (Returned (loaded (store_answer env (store (log_events w initial)) key)),
                 log_events (log_events w initial)
                   [Enter_get_chat_history cid; ReadItem key key])
           else (Returned ([], ∅),
                 log_events (log_events w initial) [Enter_get_chat_history cid]))
    with (Returned answer,
          log_events w (initial ++ [Enter_get_chat_history cid] ++ reads)).
  2: { subst answer reads. rewrite store_log_events.
       by destruct (Webhook.async_container_client g);
         rewrite log_events_app. }
  cbv beta iota. fold h md.
  rewrite first_interaction_code, seeded_history_code.
  fold first. fold cur. fold window.
  unfold bind at 1. unfold try_except at 1. unfold bind at 1.
  unfold ask at 1. unfold bind at 1. unfold try_except at 1.
  unfold bind at 1. rewrite Htyping. unfold ret at 1.
  rewrite webhook_get_llm_response_run, log_history_preview_entries.
  rewrite !log_events_app.
  replace (if Webhook.openrouter_client g
           then (Returned (reply_of_completion Webhook.FALLBACK_REPLY
                   (completions_create env Webhook.DEFAULT_MODEL
                      (entries window))),
                 log_events w
                   ((initial ++ [Enter_get_chat_history cid] ++ reads) ++ typing
                    ++ [CompletionsCreate Webhook.DEFAULT_MODEL 1 500
                          (entries window)]))
           else (Returned Webhook.CLIENT_ERROR_REPLY,
                 log_events w
                   ((initial ++ [Enter_get_chat_history cid] ++ reads) ++ typing)))
    with (Returned reply,
          log_events w
            ((initial ++ [Enter_get_chat_history cid] ++ reads) ++ typing
             ++ completions)).
  2: { subst reply completions. destruct (Webhook.openrouter_client g).
       - reflexivity.
       - by rewrite app_nil_r. }
  fold saved.
  replace (if negb first then Some md else None) with prior
    by (subst prior; by destruct first).
  cbv beta iota. unfold bind at 1. rewrite webhook_save_chat_history_run.
  fold uid uname body. rewrite !log_events_app, store_log_events.
  assert (forall x,
            telegram_rank (trace w ++
              ((initial ++ [Enter_get_chat_history cid] ++ reads) ++ typing
                ++ completions)
              ++ Enter_save_chat_history cid saved uid uname first prior :: x)
            = (n + length initial + length typing + telegram_rank x)%nat)
    as Hrank.
  { intros x. subst initial reads completions.
    destruct cb, (Webhook.async_container_client g),
      (Webhook.openrouter_client g); rank;
      rewrite (telegram_rank_typing cid typing) by done; fold n; simpl; lia. }
  assert (forall x : list event,
            ((initial ++ [Enter_get_chat_history cid] ++ reads) ++ typing
              ++ completions) ++ x
            = initial ++ [Enter_get_chat_history cid] ++ reads ++ typing
              ++ completions ++ x) as Hassoc.
  { intros x. by rewrite <- !app_assoc. }
  subst evs writes.
  destruct (Webhook.async_container_client g);
    [destruct (upsert_item_fault env) as [e|]|];
    rewrite telegram_call_run;
    unfold with_store, log_events;
    cbn [trace store ptb_application ptb_bot_instance app];
    rewrite Hrank; rank; rewrite Nat.add_0_r;
    rewrite <- ?app_assoc; cbn [app]; rewrite <- ?app_assoc.
  all: reflexivity.
Qed.

End WebhookTurn.

(** ** Properties of the store adapter *)

Lemma other_fields_lookup (doc : gmap string value) (k : string) :
  other_fields doc !! k = if decide (k = "history") then None else doc !! k.
Proof.
  unfold other_fields. destruct (decide (k = "history")) as [->|Hk].
  - apply lookup_delete_eq.
  - by apply lookup_delete_ne.
Qed.

Lemma loaded_malformed (doc : gmap string value) :
  history_malformed doc -> loaded (Returned doc) = ([], other_fields doc).
Proof.
  unfold history_malformed, loaded.
  destruct (history_field doc) as [[]|]; simpl; done.
Qed.

(** C10.  When the read delivers a document whose history field is
    missing or is no list, the load returns the empty history together
    with all the other fields of the document as metadata, in bot.py and,
    with its store client in place, in the webhook. *)
Theorem load_tolerates_malformed_history (g : Webhook.globals) (cid : Z)
    (env : environment) (w : world) (doc : gmap string value) :
  read_item_fault env = None ->
  store w !! str cid = Some doc ->
  history_malformed doc ->
  (Bot.get_chat_history_from_cosmos cid env w).1
    = Returned ([], other_fields doc)
  /\ (Webhook.async_container_client g = true ->
      (Webhook.get_chat_history_from_cosmos g cid env w).1
        = Returned ([], other_fields doc))
  /\ other_fields doc !! "history" = None
  /\ (forall k, k <> "history" -> other_fields doc !! k = doc !! k).
Proof.
  intros Hfault Hdoc Hbad.
  assert (store_answer env (store w) (str cid) = Returned doc) as Hans.
  { unfold store_answer. by rewrite Hfault, Hdoc. }
  split; [|split; [|split]].
  - rewrite bot_get_chat_history_run, Hans. simpl. f_equal.
    by apply loaded_malformed.
  - intros Hclient. rewrite webhook_get_chat_history_run, Hclient, Hans.
    simpl. f_equal. by apply loaded_malformed.
  - by rewrite other_fields_lookup.
  - intros k Hk. rewrite other_fields_lookup. by rewrite decide_False.
Qed.

(** C10, witness: a document whose history is a string. *)
Lemma load_tolerates_malformed_history_witness :
  let w := World {["1" := corrupt_document]} [] None None in
  (Bot.get_chat_history_from_cosmos 1 no_faults w).1
    = Returned ([], other_fields corrupt_document)
  /\ other_fields corrupt_document !! "creator_user_id" = Some (VStr "7").
Proof.
  intros w.
  destruct (load_tolerates_malformed_history ready_globals 1 no_faults w
              corrupt_document) as (H1 & _ & _ & H4);
    [reflexivity | reflexivity | exact eq_refl |].
  split; [exact H1|]. rewrite H4 by done. reflexivity.
Defined.

Lemma new_events_log (w : world) (evs : list event) :
  new_events w (log_events w evs) = evs.
Proof. unfold new_events. simpl. by rewrite drop_app_length. Qed.

Lemma new_events_with_store (w : world) docs (evs : list event) :
  new_events w (with_store (log_events w evs) docs) = evs.
Proof. unfold new_events. simpl. by rewrite drop_app_length. Qed.

Lemma last_log_events (w : world) (l : list event) (x : event) :
  last (trace (log_events w (l ++ [x]))) = Some x.
Proof.
  unfold log_events. cbn [trace]. rewrite app_assoc. apply last_snoc.
Qed.

Lemma loaded_raised (e : exn) : loaded (Raised e) = ([], ∅).
Proof. reflexivity. Qed.

(** C7.  In both entry points the load returns and raises nothing, the
    store unchanged, and it returns the empty pair when the store
    answers a read with "not found" or with any other error; the save
    returns and raises nothing, and leaves the store as it was when the
    write fails; and a turn whose save fails still ends with the reply
    to the user. *)
Theorem store_adapter_never_raises (sys : string) (g : Webhook.globals)
    (cb : bool) (env : environment) (w : world) :
  (forall cid,
     (exists r w', Bot.get_chat_history_from_cosmos cid env w = (Returned r, w')
        /\ store w' = store w
        /\ (forall e, store_answer env (store w) (str cid) = Raised e ->
            r = ([], ∅)))
     /\ (exists r w',
         Webhook.get_chat_history_from_cosmos g cid env w = (Returned r, w')
         /\ store w' = store w
         /\ (forall e, store_answer env (store w) (str cid) = Raised e ->
             r = ([], ∅))))
  /\ (forall cid h uid uname init md,
     (exists w',
        Bot.save_chat_history_to_cosmos cid h uid uname init md env w
          = (Returned tt, w')
        /\ (forall e, upsert_item_fault env = Some e -> store w' = store w))
     /\ (exists w',
        Webhook.save_chat_history_to_cosmos g cid h uid uname init md env w
          = (Returned tt, w')
        /\ (forall e, upsert_item_fault env = Some e -> store w' = store w)))
  /\ (forall u t e,
     message_text u = Some t -> t <> "" ->
     Z.of_nat (String.length t) <= MAX_USER_MESSAGE_LENGTH ->
     upsert_item_fault env = Some e ->
     no_telegram_fault env ->
     (exists reply w',
        Bot.llm_message_handler sys u env w = (Returned tt, w')
        /\ last (trace w') = Some (EditText (message_chat_id u) reply))
     /\ (exists reply w',
        Webhook.llm_message_handler g cb u env w = (Returned tt, w')
        /\ last (trace w') = Some (ReplyText (message_chat_id u) reply))).
Proof.
  split; [|split].
  - intros cid. split.
    + rewrite bot_get_chat_history_run. eexists _, _.
      split; [reflexivity|]. split; [reflexivity|]. by intros e ->.
    + rewrite webhook_get_chat_history_run.
      destruct (Webhook.async_container_client g); eexists _, _;
        (split; [reflexivity|]); (split; [reflexivity|]); [by intros e ->|done].
  - intros cid h uid uname init md. split.
    + rewrite bot_save_chat_history_run. eexists. split; [reflexivity|].
      by intros e ->.
    + rewrite webhook_save_chat_history_run. eexists. split; [reflexivity|].
      intros e ->. by destruct (Webhook.async_container_client g).
  - intros u t e Htext Hne Hlen Hup Htg. split.
    + rewrite (bot_handler_accepts sys u t env w Htext Hne Hlen).
      rewrite !Htg, Hup. cbv zeta. eexists _, _. split; [reflexivity|].
      exact (last_log_events w [_; _; _; _; _; _] _).
    + destruct (webhook_handler_accepts g cb u t env w Htext Hne Hlen)
        as (typing & _ & ->).
      rewrite Htg, Hup.
      destruct (Webhook.async_container_client g);
        (eexists _, _; split; [reflexivity|]);
        rewrite !app_assoc; apply last_log_events.
Qed.

(** C7, witness: a store that refuses the read and the write. *)
Lemma store_adapter_never_raises_witness :
  let w := World {["1" := legacy_document]} [] None None in
  (Bot.get_chat_history_from_cosmos 1 failing_store w).1 = Returned ([], ∅)
  /\ (Bot.llm_message_handler "" hello_update failing_store w).1 = Returned tt
  /\ last (trace (Webhook.llm_message_handler ready_globals true hello_update
                    failing_store w).2)
     = Some (ReplyText 1 "hi").
Proof.
  intros w.
  destruct (store_adapter_never_raises "" ready_globals true failing_store w)
    as (Hget & _ & Hturn).
  destruct (Hget 1) as ((r & w1 & -> & _ & Hr) & _).
  destruct (Hturn hello_update "hello" CosmosHttpResponseError)
    as ((reply & w2 & -> & _) & (reply' & w3 & H3 & Hlast));
    [reflexivity | discriminate | vm_compute; discriminate | reflexivity
    | intros n; reflexivity |].
  split; [simpl; f_equal; exact (Hr _ eq_refl)|].
  split; [reflexivity|].
  reflexivity.
Defined.

(** ** The input-length guard *)

Lemma new_events_webhook_world (b : bool) (f : option exn) (w : world)
    (evs : list event) docs :
  new_events w
    (if b then
       match f with
       | Some _ => log_events w evs
       | None => with_store (log_events w evs) docs
       end
     else log_events w evs) = evs.
Proof.
  destruct b; [destruct f|];
    rewrite ?new_events_log, ?new_events_with_store; reflexivity.
Qed.

(** C3.  A text longer than [MAX_USER_MESSAGE_LENGTH]: the only calls
    the handler makes are the rejection notice (in the webhook after the
    initial typing action); the store adapter is not entered and the
    store is unchanged.  A text of exactly that length: the handler
    enters the load, and, Telegram delivering, completes the turn: it
    saves a history that ends with the user turn and the assistant turn
    and ends with the reply. *)
Theorem oversized_message_leaves_store_untouched (sys : string)
    (g : Webhook.globals) (cb : bool) (u : update) (t : string)
    (env : environment) (w : world) :
  message_text u = Some t ->
  let cid := message_chat_id u in
  let bot_run := Bot.llm_message_handler sys u env w in
  let web_run := Webhook.llm_message_handler g cb u env w in
  (Z.of_nat (String.length t) > MAX_USER_MESSAGE_LENGTH ->
     store bot_run.2 = store w
     /\ new_events w bot_run.2 = [ReplyText cid Bot.REJECTION_NOTICE]
     /\ store web_run.2 = store w
     /\ new_events w web_run.2
        = (if cb then [SendChatAction cid] else [])
          ++ [ReplyText cid Webhook.REJECTION_NOTICE]
     /\ (no_telegram_fault env ->
         bot_run.1 = Returned tt /\ web_run.1 = Returned tt))
  /\ (Z.of_nat (String.length t) = MAX_USER_MESSAGE_LENGTH ->
     (exists rest,
        new_events w bot_run.2
          = [Enter_get_chat_history cid; ReadItem (str cid) (str cid)] ++ rest
        /\ (no_telegram_fault env ->
            bot_run.1 = Returned tt
            /\ exists reply history init prior,
                 Enter_save_chat_history cid
                   (history ++ [Message "user" t; Message "assistant" reply])
                   (effective_user_id u) (effective_user_username u)
                   init prior ∈ rest
                 /\ last rest = Some (EditText cid reply)))
     /\ (exists rest,
        new_events w web_run.2
          = (if cb then [SendChatAction cid] else [])
            ++ [Enter_get_chat_history cid] ++ rest
        /\ (no_telegram_fault env ->
            web_run.1 = Returned tt
            /\ exists reply history init prior,
                 Enter_save_chat_history cid
                   (history ++ [Message "user" t; Message "assistant" reply])
                   (effective_user_id u) (effective_user_username u)
                   init prior ∈ rest
                 /\ last rest = Some (ReplyText cid reply)))).
Proof.
  intros Htext cid bot_run web_run. split.
  - intros Hlen.
    assert (t <> "") as Hne
      by (intros ->; vm_compute in Hlen; discriminate).
    subst bot_run web_run.
    rewrite (bot_handler_rejects sys u t env w Htext Hne Hlen).
    rewrite (webhook_handler_rejects g cb u t env w Htext Hne Hlen).
    cbn [fst snd]. rewrite !new_events_log.
    do 4 (split; [reflexivity|]).
    intros Htg. by rewrite !Htg.
  - intros Hlen.
    assert (t <> "") as Hne
      by (intros ->; vm_compute in Hlen; discriminate).
    assert (Z.of_nat (String.length t) <= MAX_USER_MESSAGE_LENGTH) as Hle by lia.
    subst bot_run web_run. split.
    + rewrite (bot_handler_accepts sys u t env w Htext Hne Hle).
      destruct (telegram_fault env (telegram_rank (trace w))) as [e|] eqn:Hf.
      * cbn [fst snd]. rewrite new_events_log. eexists. split; [reflexivity|].
        intros Htg. rewrite Htg in Hf. discriminate.
      * cbv zeta. cbn [fst snd].
        eexists. split.
        { destruct (upsert_item_fault env);
            [rewrite new_events_log | rewrite new_events_with_store];
            reflexivity. }
        intros Htg. rewrite Htg. split; [reflexivity|].
        lazymatch goal with
        | |- context [Enter_save_chat_history _
                        ((?h ++ [_]) ++ [Message "assistant" ?r]) _ _ ?i ?p] =>
            exists r, h, i, p
        end.
        split; [|reflexivity].
        rewrite <- app_assoc. do 2 apply list_elem_of_further.
        apply list_elem_of_here.
    + destruct (webhook_handler_accepts g cb u t env w Htext Hne Hle)
        as (typing & Htyping & ->).
      cbn [fst snd]. rewrite new_events_webhook_world.
      eexists. split; [reflexivity|].
      intros Htg. rewrite Htg. split; [reflexivity|].
      lazymatch goal with
      | |- context [Enter_save_chat_history _
                      ((?h ++ [_]) ++ [Message "assistant" ?r]) _ _ ?i ?p] =>
          exists r, h, i, p
      end.
      split.
      * rewrite <- (app_assoc _ [_] [_]). rewrite !elem_of_app.
        do 3 right. left. apply list_elem_of_here.
      * rewrite !app_assoc. apply last_snoc.
Qed.

(** ** First interaction and the arguments of the save *)

Lemma save_entries_app (l1 l2 : list event) :
  save_entries (l1 ++ l2) = save_entries l1 ++ save_entries l2.
Proof. apply filter_app. Qed.

Lemma save_entries_cons (e : event) (l : list event) :
  save_entries (e :: l)
  = if is_save_entry e then e :: save_entries l else save_entries l.
Proof.
  unfold save_entries. rewrite filter_cons.
  destruct (decide (is_save_entry e = true)) as [->|H]; [done|].
  by destruct (is_save_entry e).
Qed.

Lemma save_entries_typing (cid : Z) (evs : list event) :
  Forall (fun e => e = SendChatAction cid) evs -> save_entries evs = [].
Proof.
  induction 1 as [|e evs -> _ IH]; [done|].
  by rewrite save_entries_cons.
Qed.

Lemma first_interaction_iff (h : list message) (md : gmap string value) :
  first_interaction h md = true <-> h = [] /\ md = ∅.
Proof.
  unfold first_interaction. rewrite andb_true_iff, !bool_decide_eq_true.
  reflexivity.
Qed.

Lemma seeded_history_iff (system : message) (h : list message)
    (md : gmap string value) :
  (first_interaction h md = true \/ (h = [] /\ md <> ∅) ->
   seeded_history system h md = [system])
  /\ (~ (first_interaction h md = true \/ (h = [] /\ md <> ∅)) ->
      seeded_history system h md = h).
Proof.
  rewrite first_interaction_iff. rewrite seeded_history_empty.
  split.
  - intros [[-> _]|[-> _]]; reflexivity.
  - intros Hn. rewrite bool_decide_false; [reflexivity|].
    intros ->. apply Hn. destruct (decide (md = ∅)); [left|right]; done.
Qed.

(** C4.  For an accepted text, with [stored] the pair the load returns:
    the handler enters the save exactly once (in bot.py provided the
    placeholder reply was delivered), with the history seeded by
    [seeded_history] and extended by the user and assistant turns, with
    [is_initial_creation_or_reset] the first-interaction flag, and with
    the prior metadata exactly when the flag is false.  The flag holds
    exactly when history and metadata are both empty, and the history is
    seeded with the single system turn exactly on a first interaction or
    on an empty history with metadata. *)
Theorem save_follows_first_interaction (sys : string) (g : Webhook.globals)
    (cb : bool) (u : update) (t : string) (env : environment) (w : world) :
  message_text u = Some t ->
  t <> "" ->
  Z.of_nat (String.length t) <= MAX_USER_MESSAGE_LENGTH ->
  let cid := message_chat_id u in
  let stored := loaded (store_answer env (store w) (str cid)) in
  let seen :=
    if Webhook.async_container_client g then stored else ([], ∅) in
  let entry (system : message) (l : list message * gmap string value)
      (reply : string) :=
    Enter_save_chat_history cid
      (seeded_history system l.1 l.2
       ++ [Message "user" t; Message "assistant" reply])
      (effective_user_id u) (effective_user_username u)
      (first_interaction l.1 l.2)
      (if first_interaction l.1 l.2 then None else Some l.2) in
  (Bot.get_chat_history_from_cosmos cid env w).1 = Returned stored
  /\ (telegram_fault env (telegram_rank (trace w)) = None ->
      exists reply,
        new_save_entries w (Bot.llm_message_handler sys u env w).2
        = [entry (Bot.SYSTEM_MESSAGE sys) stored reply])
  /\ (exists reply,
        new_save_entries w (Webhook.llm_message_handler g cb u env w).2
        = [entry Webhook.SYSTEM_MESSAGE seen reply])
  /\ (forall l : list message * gmap string value,
        (first_interaction l.1 l.2 = true <-> l.1 = [] /\ l.2 = ∅)
        /\ (first_interaction l.1 l.2 = true \/ (l.1 = [] /\ l.2 <> ∅) ->
            forall s, seeded_history s l.1 l.2 = [s])
        /\ (~ (first_interaction l.1 l.2 = true \/ (l.1 = [] /\ l.2 <> ∅)) ->
            forall s, seeded_history s l.1 l.2 = l.1)).
Proof.
  intros Htext Hne Hlen cid stored seen entry.
  split; [by rewrite bot_get_chat_history_run|].
  split; [|split].
  - intros Hf.
    rewrite (bot_handler_accepts sys u t env w Htext Hne Hlen), Hf.
    cbv zeta. cbn [snd]. unfold new_save_entries.
    destruct (upsert_item_fault env);
      rewrite ?new_events_log, ?new_events_with_store;
      rewrite !save_entries_cons; cbn [is_save_entry];
      eexists; subst entry; cbv beta; rewrite <- app_assoc; reflexivity.
  - destruct (webhook_handler_accepts g cb u t env w Htext Hne Hlen)
      as (typing & Htyping & ->).
    cbn [snd]. unfold new_save_entries. rewrite new_events_webhook_world.
    rewrite !save_entries_app, (save_entries_typing cid typing Htyping).
    subst entry seen.
    destruct cb, (Webhook.async_container_client g),
      (Webhook.openrouter_client g);
      rewrite ?save_entries_cons; cbn [is_save_entry app];
      eexists; cbv beta iota; rewrite <- app_assoc; reflexivity.
  - intros l. split; [apply first_interaction_iff|].
    split; intros H s; by apply seeded_history_iff.
Qed.

(** ** The HTTP entry point *)

Lemma initialize_ptb_application_run (g : Webhook.globals) (env : environment)
    (w : world) :
  Webhook.initialize_ptb_application g env w
  = (Returned tt,
     if opt_str_truthy (Webhook.TELEGRAM_BOT_TOKEN (Webhook.global_secrets g))
     then
       match application_initialize_fault env with
       | Some _ => World (store w) (trace w) None None
       | None =>
           let token :=
             default "" (Webhook.TELEGRAM_BOT_TOKEN (Webhook.global_secrets g)) in
           World (store w) (trace w) (Some (Application token)) (Some (Bot token))
       end
     else w).
Proof.
  unfold Webhook.initialize_ptb_application.
  destruct (opt_str_truthy _); [|reflexivity].
  unfold try_except, bind, ask.
  by destruct (application_initialize_fault env).
Qed.

Lemma initialize_ptb_application_consistent (g : Webhook.globals)
    (env : environment) (w : world) :
  ptb_consistent w ->
  ptb_consistent (Webhook.initialize_ptb_application g env w).2.
Proof.
  intros Hw. rewrite initialize_ptb_application_run. cbn [snd].
  destruct (opt_str_truthy _); [|done].
  by destruct (application_initialize_fault env).
Qed.

Lemma initial_world_consistent docs : ptb_consistent (Webhook.initial_world docs).
Proof. reflexivity. Qed.

Lemma global_initialization_flag (s : Webhook.startup) :
  let g := Webhook.global_initialization s in
  Webhook.critical_secrets_missing g
  = some_secret_missing (Webhook.global_secrets g)
    || negb (Webhook.is_none (Webhook.client_constructor_fault s)).
Proof.
  unfold Webhook.global_initialization, some_secret_missing.
  set (loaded := if opt_str_truthy _ then _ else _).
  set (resolved := Webhook.Secrets _ _ _ _).
  cbv zeta.
  destruct (negb (opt_str_truthy (Webhook.TELEGRAM_BOT_TOKEN resolved))
            || negb (opt_str_truthy (Webhook.OPENROUTER_API_KEY resolved))
            || negb (opt_str_truthy (Webhook.COSMOS_DB_URI resolved))
            || negb (opt_str_truthy (Webhook.COSMOS_DB_KEY resolved))) eqn:E;
    cbn [negb].
  - cbn [Webhook.critical_secrets_missing Webhook.global_secrets]. by rewrite E.
  - destruct (Webhook.client_constructor_fault s);
      cbn [Webhook.critical_secrets_missing Webhook.global_secrets];
      by rewrite E.
Qed.

Ltac main_red :=
  cbn [ptb_application ptb_bot_instance store trace Webhook.is_none andb orb
       fst snd].

Lemma main_run (g : Webhook.globals) (req : Webhook.http_request)
    (env : environment) (w : world) :
  Webhook.critical_secrets_missing g = false ->
  let w2 := after_lazy_init g env w in
  Webhook.main g req env w
  = if Webhook.is_none (ptb_application w)
       && (Webhook.is_none (ptb_application w2)
           || Webhook.is_none (ptb_bot_instance w2))
    then (Returned (Webhook.HttpResponse
            "Error: Bot application failed to initialize (PTB)." 500), w2)
    else
      match Webhook.request_json req with
      | None =>
          (Returned (Webhook.HttpResponse "Please pass valid JSON" 400), w2)
      | Some request_body =>
          if Webhook.is_none (ptb_bot_instance w2) then
            (Returned (Webhook.HttpResponse
               "Error: Bot instance unavailable (internal error)." 500), w2)
          else
            match update_de_json env request_body with
            | Returned (Some u) =>
                if Webhook.is_none (ptb_application w2) then
                  (Returned (Webhook.HttpResponse
                     "Internal error processing update." 200), w2)
                else
                  match application_process_update env u w2 with
                  | (Returned _, w3) =>
                      (Returned (Webhook.HttpResponse
                         "Update processed by function." 200), w3)
                  | (Raised _, w3) =>
                      (Returned (Webhook.HttpResponse
                         "Internal error processing update." 200), w3)
                  end
            | _ =>
                (Returned (Webhook.HttpResponse
                   "Internal error processing update." 200), w2)
            end
      end.
Proof.
  intros Hc w2. subst w2. unfold after_lazy_init, Webhook.main. rewrite Hc.
  unfold Webhook.get_json.
  unfold bind, try_except, ret, raise, get_world, ask.
  destruct (ptb_application w) as [a|] eqn:Happ; main_red.
  - rewrite Happ. main_red.
    destruct (Webhook.request_json req) as [request_body|]; [|reflexivity].
    destruct (ptb_bot_instance w); main_red; [|reflexivity].
    destruct (update_de_json env request_body) as [[u|]|e]; try reflexivity.
    rewrite Happ.
    by destruct (application_process_update env u w) as [[[]|e] w3].
  - rewrite Happ. main_red.
    rewrite (initialize_ptb_application_run g env w).
    destruct (opt_str_truthy _); [destruct (application_initialize_fault env)|];
      main_red; rewrite ?Happ; main_red; try reflexivity.
    destruct (Webhook.request_json req) as [request_body|]; [|reflexivity].
    main_red.
    destruct (update_de_json env request_body) as [[u|]|e]; try reflexivity.
    main_red.
    match goal with
    | |- context [application_process_update env u ?w0] =>
        by destruct (application_process_update env u w0) as [[[]|e] w3]
    end.
Qed.


(** ** Witnesses of the orchestrator properties *)

(** C3, witness: texts of 2001 and of 2000 characters. *)
Lemma oversized_message_leaves_store_untouched_witness :
  let w := World {["1" := legacy_document]} [] None None in
  (new_events w (Bot.llm_message_handler "" (text_update 2001) no_faults w).2
     = [ReplyText 1 Bot.REJECTION_NOTICE]
   /\ store (Webhook.llm_message_handler ready_globals true (text_update 2001)
               no_faults w).2 = store w)
  /\ exists rest,
       new_events w (Bot.llm_message_handler "" (text_update 2000) no_faults w).2
       = [Enter_get_chat_history 1; ReadItem "1" "1"] ++ rest.
Proof.
  intros w. split.
  - destruct (oversized_message_leaves_store_untouched "" ready_globals true
                (text_update 2001) (text_of_length 2001) no_faults w eq_refl)
      as [Hreject _].
    destruct Hreject as (_ & H2 & H3 & _); [vm_compute; reflexivity|].
    split; [exact H2 | exact H3].
  - destruct (oversized_message_leaves_store_untouched "" ready_globals true
                (text_update 2000) (text_of_length 2000) no_faults w eq_refl)
      as [_ Haccept].
    destruct Haccept as ((rest & Hrest & _) & _); [vm_compute; reflexivity|].
    exists rest. exact Hrest.
Defined.

(** C4, witness: the first message of a chat without a document. *)
Lemma save_follows_first_interaction_witness :
  let w := World ∅ [] None None in
  exists reply,
    new_save_entries w (Bot.llm_message_handler "" hello_update no_faults w).2
    = [Enter_save_chat_history 1
         [Message "system" ""; Message "user" "hello";
          Message "assistant" reply] 7 (Some "bob") true None].
Proof.
  intros w.
  destruct (save_follows_first_interaction "" ready_globals true hello_update
              "hello" no_faults w eq_refl)
    as (_ & Hbot & _); [discriminate | vm_compute; discriminate |].
  destruct (Hbot eq_refl) as (reply & Hreply).
  exists reply. exact Hreply.
Defined.


(** ** [str.strip]

    The model of [strip] takes white space off both ends and nothing
    else: what is left neither starts nor ends with white space. *)

Lemma append_cons (c : ascii) (s1 s2 : string) :
  String c s1 +:+ s2 = String c (s1 +:+ s2).
Proof. reflexivity. Qed.

Lemma lstrip_spec (s : string) :
  exists pre, s = pre +:+ lstrip s /\ all_space pre = true
              /\ not_space (first_char (lstrip s)).
Proof.
  induction s as [|c s IH].
  - by exists "".
  - simpl. destruct (py_isspace c) eqn:Hc.
    + destruct IH as (pre & Hs & Hpre & Hfirst).
      exists (String c pre). split; [rewrite ?append_cons; by f_equal|].
      split; [simpl; by rewrite Hc|done].
    + exists "". split; [reflexivity|]. split; [reflexivity|exact Hc].
Qed.

Lemma rstrip_spec (s : string) :
  exists post, s = rstrip s +:+ post /\ all_space post = true
               /\ not_space (last_char (rstrip s))
               /\ (not_space (first_char s) ->
                   first_char (rstrip s) = first_char s).
Proof.
  induction s as [|c s IH].
  - by exists "".
  - destruct IH as (post & Hs & Hpost & Hlast & _). simpl.
    destruct (rstrip s) as [|c' r] eqn:Hr.
    + destruct (py_isspace c) eqn:Hc.
      * exists (String c post). change (s = post) in Hs. subst s.
        split; [reflexivity|].
        split; [simpl; by rewrite Hc|].
        split; [done|]. simpl. congruence.
      * exists post. change (s = post) in Hs. subst s.
        split; [reflexivity|].
        split; [done|]. split; [exact Hc|done].
    + exists post.
      split; [rewrite ?append_cons; f_equal; exact Hs|].
      split; [done|].
      split; [clear -Hlast; by destruct r|done].
Qed.

Lemma strip_spec (s : string) :
  exists pre post,
    s = pre +:+ (strip s +:+ post)
    /\ all_space pre = true /\ all_space post = true
    /\ not_space (first_char (strip s)) /\ not_space (last_char (strip s)).
Proof.
  unfold strip.
  destruct (lstrip_spec s) as (pre & Hs & Hpre & Hfirst).
  destruct (rstrip_spec (lstrip s)) as (post & Hl & Hpost & Hlast & Hkeep).
  exists pre, post. rewrite <- Hl.
  split; [done|]. split; [done|]. split; [done|].
  split; [by rewrite (Hkeep Hfirst)|done].
Qed.

(** ** The liveness loop, round by round *)

(** The loop returns at once when the stop event is set at its test. *)
Lemma typing_loop_stops_at_check (cb : bool) (cid : Z) (r : typing_round)
    (rest : list typing_round) (env : environment) (w : world) :
  stop_set_at_check r = true ->
  Webhook.send_typing_periodically cb cid (r :: rest) env w
  = (Returned (Some tt), w).
Proof. intros H. simpl. by rewrite H. Qed.

(** The loop returns after one indicator when the stop event is set
    before the wait is over. *)
Lemma typing_loop_stops_within_wait (cid : Z) (r : typing_round)
    (rest : list typing_round) (env : environment) (w : world) :
  stop_set_at_check r = false ->
  stop_set_within_wait r = true ->
  telegram_fault env (telegram_rank (trace w)) = None ->
  Webhook.send_typing_periodically true cid (r :: rest) env w
  = (Returned (Some tt), log_events w [SendChatAction cid]).
Proof.
  intros H1 H2 H3. simpl. rewrite H1. unfold bind.
  rewrite typing_round_body_run, H3, H2. reflexivity.
Qed.

(** A delivery error of any class but the one of an expired wait ends
    the loop, which returns. *)
Lemma typing_loop_stops_on_delivery_error (cid : Z) (r : typing_round)
    (rest : list typing_round) (env : environment) (w : world) (e : exn) :
  stop_set_at_check r = false ->
  telegram_fault env (telegram_rank (trace w)) = Some e ->
  e <> TimeoutError ->
  Webhook.send_typing_periodically true cid (r :: rest) env w
  = (Returned (Some tt), log_events w [SendChatAction cid]).
Proof.
  intros H1 H2 H3. simpl. rewrite H1. unfold bind.
  rewrite typing_round_body_run, H2. by destruct e.
Qed.

(** ** A turn on a document without creator fields *)

(** A turn of bot.py on a chat whose document has no creator fields
    writes a document without them. *)
Lemma bot_turn_leaves_creator_unset :
  let w := World {["1" := legacy_document]} [] None None in
  let w' := (Bot.llm_message_handler "" hello_update no_faults w).2 in
  exists doc,
    store w' !! "1" = Some doc
    /\ doc !! "creator_user_id" = None
    /\ doc !! "last_interactor_user_id" = Some (VStr "7").
Proof.
  intros w w'. subst w'.
  rewrite (bot_handler_accepts "" hello_update "hello" no_faults w eq_refl);
    [|discriminate|vm_compute; discriminate].
  cbv zeta. cbn [snd telegram_fault no_faults upsert_item_fault with_store store].
  eexists. split; [apply lookup_insert_eq|].
  split; vm_compute; reflexivity.
Qed.

(** ** Save, then load *)

Lemma bot_item_body_history cid h uid uname init md now :
  Bot.item_body cid h uid uname init md now !! "history" = Some (VList h).
Proof.
  unfold Bot.item_body.
  destruct init; [by simplify_map_eq|].
  destruct (opt_dict_truthy md); [|by simplify_map_eq].
  destruct (default ∅ md !! "creator_user_id"),
           (default ∅ md !! "creator_username"); by simplify_map_eq.
Qed.

Lemma webhook_item_body_history cid h uid uname init md now :
  Webhook.item_body cid h uid uname init md now !! "history" = Some (VList h).
Proof.
  unfold Webhook.item_body.
  destruct init; [by simplify_map_eq|].
  destruct (opt_dict_truthy md); by simplify_map_eq.
Qed.

(** A history that was saved is the history the next load returns, in
    order, when the store takes the write and answers the read. *)
Lemma save_then_load (g : Webhook.globals) cid h uid uname init md
    (env : environment) (w : world) :
  upsert_item_fault env = None ->
  read_item_fault env = None ->
  (exists metadata,
     (Bot.get_chat_history_from_cosmos cid env
        (Bot.save_chat_history_to_cosmos cid h uid uname init md env w).2).1
     = Returned (h, metadata))
  /\ (Webhook.async_container_client g = true ->
      exists metadata,
        (Webhook.get_chat_history_from_cosmos g cid env
           (Webhook.save_chat_history_to_cosmos g cid h uid uname init md
              env w).2).1
        = Returned (h, metadata)).
Proof.
  intros Hup Hread. split.
  - rewrite bot_save_chat_history_run, Hup. cbn [snd].
    rewrite bot_get_chat_history_run. cbn [fst].
    unfold store_answer. rewrite Hread. cbn [with_store store].
    rewrite lookup_insert_eq. unfold loaded, history_field.
    rewrite bot_item_body_history. by eexists.
  - intros Hclient.
    rewrite webhook_save_chat_history_run, Hclient, Hup. cbn [snd].
    rewrite webhook_get_chat_history_run, Hclient. cbn [fst].
    unfold store_answer. rewrite Hread. cbn [with_store store].
    rewrite lookup_insert_eq. unfold loaded, history_field.
    rewrite webhook_item_body_history. by eexists.
Qed.

(** * Further properties *)

(** ** The context window builder, continued *)

(** X1.  The window of a history whose conversation part has no more
    than [max_messages] entries is the history itself: nothing is
    dropped, reordered or added. *)
Theorem window_of_short_history (h : list message) (N cid : Z) :
  Z.of_nat (length (conversation_part h)) <= N ->
  _prepare_and_truncate_history_for_llm h N cid = h.
Proof.
  intros Hshort. rewrite window_unfold.
  rewrite truncate_conversation_short by done.
  symmetry. apply window_split.
Qed.

(** X1, witness: a system turn and two others under a bound of two. *)
Lemma window_of_short_history_witness :
  let h := [Message "system" "s"; Message "user" "a"; Message "assistant" "b"] in
  _prepare_and_truncate_history_for_llm h 2 7 = h.
Proof. intros h. apply window_of_short_history. simpl. lia. Defined.

Lemma truncate_conversation_suffix (N : Z) (c : list message) :
  exists dropped, c = dropped ++ truncate_conversation N c.
Proof.
  unfold truncate_conversation, py_slice_from.
  destruct (_ >? _).
  - eexists. symmetry. apply take_drop.
  - by exists [].
Qed.

(** X2.  Whatever the bound, the window is the history with one
    contiguous block removed right after the leading system entry (if
    there is one): the entries kept are a suffix of the conversation
    part, in their order. *)
Theorem window_drops_one_block (h : list message) (N cid : Z) :
  exists dropped kept,
    h = system_part h ++ dropped ++ kept
    /\ _prepare_and_truncate_history_for_llm h N cid = system_part h ++ kept.
Proof.
  destruct (truncate_conversation_suffix N (conversation_part h))
    as (dropped & Hc).
  exists dropped, (truncate_conversation N (conversation_part h)).
  split; [|apply window_unfold].
  rewrite <- Hc. apply window_split.
Qed.

Lemma window_last_entry (h : list message) (N cid : Z) :
  1 <= N ->
  last (_prepare_and_truncate_history_for_llm h N cid) = last h.
Proof.
  intros HN. rewrite window_unfold, truncate_conversation_last by done.
  rewrite (window_split h) at 3.
  destruct (decide (conversation_part h = [])) as [Hc|Hc].
  - rewrite Hc. reflexivity.
  - assert (last_entries N (conversation_part h) <> []) as Hk.
    { intros Hnil. apply (f_equal length) in Hnil.
      pose proof (length_last_entries N (conversation_part h)) as Hlen.
      destruct (conversation_part h); [done|]. simpl in *. lia. }
    rewrite !last_app.
    destruct (last_entries_suffix N (conversation_part h)) as (d & Hd).
    rewrite Hd at 2. rewrite last_app.
    destruct (last (last_entries N (conversation_part h))) eqn:E; [done|].
    apply last_None in E. done.
Qed.

Lemma window_length_bound (h : list message) (N cid : Z) :
  1 <= N ->
  Z.of_nat (length (_prepare_and_truncate_history_for_llm h N cid)) <= N + 1.
Proof.
  intros HN. rewrite window_unfold, truncate_conversation_last by done.
  rewrite length_app.
  pose proof (length_last_entries N (conversation_part h)) as Hlen.
  assert (length (system_part h) <= 1)%nat as Hs.
  { unfold system_part. destruct (leading_system h); [|simpl; lia].
    rewrite length_take. lia. }
  lia.
Qed.

(** X3.  For a bound of at least one the last entry of the window is
    the last entry of the history, so the turn the user has just sent
    always reaches the model. *)
Theorem window_keeps_newest (h : list message) (N cid : Z) :
  1 <= N ->
  last (_prepare_and_truncate_history_for_llm h N cid) = last h.
Proof. apply window_last_entry. Qed.

(** X3, witness: a bound of one keeps the last message. *)
Lemma window_keeps_newest_witness :
  let h := [Message "system" "s"; Message "user" "a"; Message "assistant" "b";
            Message "user" "c"] in
  last (_prepare_and_truncate_history_for_llm h 1 7) = Some (Message "user" "c").
Proof. intros h. rewrite window_keeps_newest by lia. reflexivity. Defined.

(** X4.  The bounds below one.  With [max_messages = 0] the slice
    [conversation_messages[-0:]] is the whole list, so the window is the
    whole history; with a negative bound [-k] the slice [[k:]] drops the
    first [k] entries of the conversation part. *)
Theorem window_nonpositive_bound (h : list message) (N cid : Z) :
  (N = 0 -> _prepare_and_truncate_history_for_llm h N cid = h)
  /\ (N < 0 ->
      _prepare_and_truncate_history_for_llm h N cid
      = system_part h ++ drop (Z.to_nat (- N)) (conversation_part h)).
Proof.
  rewrite window_unfold. split.
  - intros ->. rewrite truncate_conversation_zero. symmetry. apply window_split.
  - intros HN. f_equal. unfold truncate_conversation, py_slice_from.
    destruct (Z.gtb_spec (Z.of_nat (length (conversation_part h))) N); [|lia].
    destruct (Z.ltb_spec (- N) 0); [lia|].
    destruct (Z.le_gt_cases (- N) (Z.of_nat (length (conversation_part h)))).
    + by rewrite Z.min_l.
    + rewrite Z.min_r by lia. rewrite Nat2Z.id.
      rewrite drop_all. symmetry. apply drop_ge. lia.
Qed.

(** X4, witness: the bounds 0 and -1 on a history of three. *)
Lemma window_nonpositive_bound_witness :
  let h := [Message "system" "s"; Message "user" "a"; Message "assistant" "b"] in
  _prepare_and_truncate_history_for_llm h 0 7 = h
  /\ _prepare_and_truncate_history_for_llm h (-1) 7
     = [Message "system" "s"; Message "assistant" "b"].
Proof.
  intros h. destruct (window_nonpositive_bound h 0 7) as [H0 _].
  destruct (window_nonpositive_bound h (-1) 7) as [_ H1].
  split; [apply H0; reflexivity|]. rewrite H1 by lia. reflexivity.
Defined.

(** ** The written document *)

Ltac item_body_cases init md :=
  destruct init;
  [|destruct (opt_dict_truthy md);
    [try (destruct (default ∅ md !! "creator_user_id"),
                   (default ∅ md !! "creator_username"))|]].

Lemma bot_item_body_fresh cid h uid uname init md now :
  carries_fresh_fields (Bot.item_body cid h uid uname init md now)
    cid h uid uname now.
Proof.
  unfold carries_fresh_fields, Bot.item_body, stored_username.
  item_body_cases init md; by simplify_map_eq.
Qed.

Lemma webhook_item_body_fresh cid h uid uname init md now :
  carries_fresh_fields (Webhook.item_body cid h uid uname init md now)
    cid h uid uname now.
Proof.
  unfold carries_fresh_fields, Webhook.item_body, stored_username.
  item_body_cases init md; by simplify_map_eq.
Qed.

Lemma bot_item_body_fields cid h uid uname init md now (k : string) :
  k ∉ DOCUMENT_FIELDS -> Bot.item_body cid h uid uname init md now !! k = None.
Proof.
  unfold DOCUMENT_FIELDS. rewrite !not_elem_of_cons.
  intros (? & ? & ? & ? & ? & ? & ? & ? & _).
  unfold Bot.item_body.
  item_body_cases init md; rewrite ?lookup_insert_ne by congruence; done.
Qed.

Lemma webhook_item_body_fields cid h uid uname init md now (k : string) :
  k ∉ DOCUMENT_FIELDS ->
  Webhook.item_body cid h uid uname init md now !! k = None.
Proof.
  unfold DOCUMENT_FIELDS. rewrite !not_elem_of_cons.
  intros (? & ? & ? & ? & ? & ? & ? & ? & _).
  unfold Webhook.item_body.
  item_body_cases init md; rewrite ?lookup_insert_ne by congruence; done.
Qed.

(** X5.  The document a save writes always carries the chat id (as
    [id] and [chat_id]), the history handed in, the interacting user as
    last interactor and the time of the save; and it has no field
    beyond the eight of [DOCUMENT_FIELDS]: of the existing metadata only
    the two creator fields can survive. *)
Theorem saved_document_replaces_metadata cid h uid uname init md now :
  let bot_body := Bot.item_body cid h uid uname init md now in
  let web_body := Webhook.item_body cid h uid uname init md now in
  carries_fresh_fields bot_body cid h uid uname now
  /\ carries_fresh_fields web_body cid h uid uname now
  /\ (forall k, k ∉ DOCUMENT_FIELDS ->
      bot_body !! k = None /\ web_body !! k = None).
Proof.
  intros bot_body web_body.
  split; [apply bot_item_body_fresh|].
  split; [apply webhook_item_body_fresh|].
  intros k Hk. split;
    [by apply bot_item_body_fields | by apply webhook_item_body_fields].
Qed.

(** X5, witness: metadata with an [_etag] and a stale last interactor. *)
Lemma saved_document_replaces_metadata_witness :
  let md : gmap string value :=
    <["last_interactor_user_id" := VStr "3"]>
    (<["_etag" := VStr "x"]> (<["creator_user_id" := VStr "3"]> ∅)) in
  let body := Webhook.item_body 1 [] 7 None false (Some md) "now" in
  body !! "_etag" = None
  /\ body !! "last_interactor_user_id" = Some (VStr "7")
  /\ body !! "last_interactor_username" = Some (VStr "N/A").
Proof.
  intros md body.
  destruct (saved_document_replaces_metadata 1 [] 7 None false (Some md) "now")
    as (_ & (_ & _ & _ & Hid & Hname & _) & Hother).
  split; [|split].
  - apply Hother. clear. unfold DOCUMENT_FIELDS. rewrite !not_elem_of_cons.
    repeat split; try (intros [=]). apply not_elem_of_nil.
  - etransitivity; [exact Hid | vm_compute; reflexivity].
  - etransitivity; [exact Hname | vm_compute; reflexivity].
Defined.

(** ** Save, then load, with the metadata *)

(** X6.  Save, then load.  When neither the write nor the read fails,
    loading a chat right after saving it returns the saved history,
    and a metadata that holds every other field of the written
    document with the value written (in the webhook: when the store
    client exists).  Nothing is said of further fields of the metadata,
    such as the system properties of a store. *)
Theorem saved_document_is_loaded (g : Webhook.globals) cid h uid uname init md
    (env : environment) (w : world) :
  upsert_item_fault env = None ->
  read_item_fault env = None ->
  let bot_body :=
    Bot.item_body cid h uid uname init md (utc_now_isoformat env) in
  let web_body :=
    Webhook.item_body cid h uid uname init md (utc_now_isoformat env) in
  (exists metadata,
     (Bot.get_chat_history_from_cosmos cid env
        (Bot.save_chat_history_to_cosmos cid h uid uname init md env w).2).1
     = Returned (h, metadata)
     /\ other_fields bot_body ⊆ metadata)
  /\ (Webhook.async_container_client g = true ->
      exists metadata,
        (Webhook.get_chat_history_from_cosmos g cid env
           (Webhook.save_chat_history_to_cosmos g cid h uid uname init md
              env w).2).1
        = Returned (h, metadata)
        /\ other_fields web_body ⊆ metadata).
Proof.
  intros Hup Hread bot_body web_body. split.
  - exists (other_fields bot_body). split; [|done].
    rewrite bot_save_chat_history_run, Hup. cbn [snd].
    rewrite bot_get_chat_history_run. cbn [fst].
    unfold store_answer. rewrite Hread. cbn [with_store store].
    rewrite lookup_insert_eq. unfold loaded, history_field.
    by rewrite bot_item_body_history.
  - intros Hclient. exists (other_fields web_body). split; [|done].
    rewrite webhook_save_chat_history_run, Hclient, Hup. cbn [snd].
    rewrite webhook_get_chat_history_run, Hclient. cbn [fst].
    unfold store_answer. rewrite Hread. cbn [with_store store].
    rewrite lookup_insert_eq. unfold loaded, history_field.
    by rewrite webhook_item_body_history.
Qed.

(** X6, witness: a first save into an empty store. *)
Lemma saved_document_is_loaded_witness :
  let w := World ∅ [] None None in
  let h := [Message "system" ""; Message "user" "a"; Message "assistant" "b"] in
  exists metadata,
    (Bot.get_chat_history_from_cosmos 1 no_faults
       (Bot.save_chat_history_to_cosmos 1 h 7 (Some "bob") true None
          no_faults w).2).1
    = Returned (h, metadata)
    /\ metadata !! "creator_user_id" = Some (VStr "7").
Proof.
  intros w h.
  destruct (saved_document_is_loaded ready_globals 1 h 7 (Some "bob") true None
              no_faults w eq_refl eq_refl) as [(metadata & Hbot & Hsub) _].
  exists metadata. split; [exact Hbot|].
  refine (lookup_weaken _ _ _ (VStr "7") _ Hsub).
  vm_compute. reflexivity.
Defined.

(** ** One accepted turn, end to end *)

Lemma bot_turn_run (sys : string) (u : update) (t : string)
    (env : environment) (w : world) :
  accepted_text u t ->
  telegram_fault env (telegram_rank (trace w)) = None ->
  let cid := message_chat_id u in
  let l := loaded (store_answer env (store w) (str cid)) in
  let reply := bot_turn_reply sys env l t cid in
  let doc := bot_turn_document sys env l u t in
  let evs :=
    [Enter_get_chat_history cid; ReadItem (str cid) (str cid);
     ReplyText cid Bot.THINKING_NOTICE;
     CompletionsCreate Bot.DEFAULT_MODEL 1 500
       (entries (turn_window (Bot.SYSTEM_MESSAGE sys) l t cid));
     Enter_save_chat_history cid
       (turn_history (Bot.SYSTEM_MESSAGE sys) l t ++ [Message "assistant" reply])
       (effective_user_id u) (effective_user_username u)
       (first_interaction l.1 l.2) (turn_prior l);
     UpsertItem doc; EditText cid reply] in
  Bot.llm_message_handler sys u env w
  = (match telegram_fault env (S (telegram_rank (trace w))) with
     | Some e => Raised e
     | None => Returned tt
     end,
     match upsert_item_fault env with
     | Some _ => log_events w evs
     | None => with_store (log_events w evs) (<[str cid := doc]> (store w))
     end).
Proof.
  intros (Htext & Hne & Hlen) Hf. cbv zeta.
  rewrite (bot_handler_accepts sys u t env w Htext Hne Hlen), Hf.
  reflexivity.
Qed.

Lemma webhook_turn_run (g : Webhook.globals) (cb : bool) (u : update)
    (t : string) (env : environment) (w : world) :
  accepted_text u t ->
  Webhook.async_container_client g = true ->
  let cid := message_chat_id u in
  let l := loaded (store_answer env (store w) (str cid)) in
  let reply := webhook_turn_reply g env l t cid in
  let doc := webhook_turn_document g env l u t in
  exists typing,
    Forall (fun e => e = SendChatAction cid) typing
    /\ let evs :=
         (if cb then [SendChatAction cid] else [])
         ++ [Enter_get_chat_history cid; ReadItem (str cid) (str cid)]
         ++ typing
         ++ (if Webhook.openrouter_client g
             then [CompletionsCreate Webhook.DEFAULT_MODEL 1 500
                     (entries (turn_window Webhook.SYSTEM_MESSAGE l t cid))]
             else [])
         ++ [Enter_save_chat_history cid
               (turn_history Webhook.SYSTEM_MESSAGE l t
                ++ [Message "assistant" reply])
               (effective_user_id u) (effective_user_username u)
               (first_interaction l.1 l.2) (turn_prior l);
             UpsertItem doc; ReplyText cid reply] in
       Webhook.llm_message_handler g cb u env w
       = (match telegram_fault env
                  (telegram_rank (trace w)
                   + length (if cb then [SendChatAction cid] else [])
                   + length typing) with
          | Some e => Raised e
          | None => Returned tt
          end,
          match upsert_item_fault env with
          | Some _ => log_events w evs
          | None => with_store (log_events w evs) (<[str cid := doc]> (store w))
          end).
Proof.
  intros (Htext & Hne & Hlen) Hclient. cbv zeta.
  destruct (webhook_handler_accepts g cb u t env w Htext Hne Hlen)
    as (typing & Htyping & Hrun).
  exists typing. split; [done|].
  rewrite Hrun. clear Hrun. rewrite Hclient. reflexivity.
Qed.

Lemma bot_turn_document_stored (sys : string) (u : update) (t : string)
    (env : environment) (w : world) :
  accepted_text u t ->
  telegram_fault env (telegram_rank (trace w)) = None ->
  upsert_item_fault env = None ->
  store (Bot.llm_message_handler sys u env w).2 !! str (message_chat_id u)
  = Some (bot_turn_document sys env
            (loaded (store_answer env (store w) (str (message_chat_id u)))) u t).
Proof.
  intros Hacc Hf Hup.
  pose proof (bot_turn_run sys u t env w Hacc Hf) as Hrun. cbv zeta in Hrun.
  rewrite Hrun, Hup. cbn [snd with_store store]. apply lookup_insert_eq.
Qed.

Lemma webhook_turn_document_stored (g : Webhook.globals) (cb : bool)
    (u : update) (t : string) (env : environment) (w : world) :
  accepted_text u t ->
  Webhook.async_container_client g = true ->
  upsert_item_fault env = None ->
  store (Webhook.llm_message_handler g cb u env w).2 !! str (message_chat_id u)
  = Some (webhook_turn_document g env
            (loaded (store_answer env (store w) (str (message_chat_id u)))) u t).
Proof.
  intros Hacc Hclient Hup.
  destruct (webhook_turn_run g cb u t env w Hacc Hclient)
    as (typing & _ & Hrun).
  cbv zeta in Hrun. rewrite Hrun, Hup. cbn [snd with_store store].
  apply lookup_insert_eq.
Qed.

Lemma bot_turn_document_history sys env l u t :
  bot_turn_document sys env l u t !! "history"
  = Some (VList (turn_history (Bot.SYSTEM_MESSAGE sys) l t
                 ++ [Message "assistant"
                       (bot_turn_reply sys env l t (message_chat_id u))])).
Proof. apply bot_item_body_history. Qed.

Lemma webhook_turn_document_history g env l u t :
  webhook_turn_document g env l u t !! "history"
  = Some (VList (turn_history Webhook.SYSTEM_MESSAGE l t
                 ++ [Message "assistant"
                       (webhook_turn_reply g env l t (message_chat_id u))])).
Proof. apply webhook_item_body_history. Qed.

Lemma first_interaction_fresh :
  first_interaction [] (∅ : gmap string value) = true.
Proof. unfold first_interaction. by rewrite !bool_decide_eq_true_2. Qed.

Lemma seeded_history_fresh (system : message) (md : gmap string value) :
  seeded_history system [] md = [system].
Proof. rewrite seeded_history_empty. by rewrite bool_decide_eq_true_2. Qed.

Lemma seeded_history_nonempty (system : message) (h : list message)
    (md : gmap string value) :
  h <> [] -> seeded_history system h md = h.
Proof.
  intros Hh. rewrite seeded_history_empty. by rewrite bool_decide_eq_false_2.
Qed.

(** X7.  An accepted message in a chat whose document is absent or
    cannot be read (the read raises, whatever the exception) starts the
    chat afresh: the stored history is the system turn, the user turn
    and the reply, and the sender becomes the creator. *)
Theorem turn_on_unreadable_chat_starts_afresh (sys : string)
    (g : Webhook.globals) (cb : bool) (u : update) (t : string)
    (env : environment) (w : world) (e : exn) :
  accepted_text u t ->
  store_answer env (store w) (str (message_chat_id u)) = Raised e ->
  upsert_item_fault env = None ->
  let key := str (message_chat_id u) in
  let fresh (system : message) (doc : gmap string value) :=
    (exists reply,
       doc !! "history"
       = Some (VList [system; Message "user" t; Message "assistant" reply]))
    /\ doc !! "creator_user_id" = Some (VStr (str (effective_user_id u)))
    /\ doc !! "creator_username"
       = Some (VStr (stored_username (effective_user_username u))) in
  (telegram_fault env (telegram_rank (trace w)) = None ->
   exists doc,
     store (Bot.llm_message_handler sys u env w).2 !! key = Some doc
     /\ fresh (Bot.SYSTEM_MESSAGE sys) doc)
  /\ (Webhook.async_container_client g = true ->
      exists doc,
        store (Webhook.llm_message_handler g cb u env w).2 !! key = Some doc
        /\ fresh Webhook.SYSTEM_MESSAGE doc).
Proof.
  intros Hacc Hans Hup key fresh. subst key fresh. cbv beta. split.
  - intros Hf. eexists. split.
    + by apply bot_turn_document_stored.
    + rewrite Hans. change (loaded (Raised e)) with ([] : list message, ∅ : gmap string value).
      split.
      * eexists. rewrite bot_turn_document_history. unfold turn_history.
        cbn [fst snd]. rewrite seeded_history_fresh. reflexivity.
      * unfold bot_turn_document. cbn [fst snd].
        rewrite first_interaction_fresh.
        exact (proj1 (bot_creator_provenance _ _ _ _ true _ _) eq_refl).
  - intros Hclient. eexists. split.
    + by apply webhook_turn_document_stored.
    + rewrite Hans. change (loaded (Raised e)) with ([] : list message, ∅ : gmap string value).
      split.
      * eexists. rewrite webhook_turn_document_history. unfold turn_history.
        cbn [fst snd]. rewrite seeded_history_fresh. reflexivity.
      * unfold webhook_turn_document. cbn [fst snd].
        rewrite first_interaction_fresh.
        exact (proj1 (webhook_creator_provenance _ _ _ _ true _ _) eq_refl).
Qed.

Lemma loaded_document (doc : gmap string value) (h : list message) :
  doc !! "history" = Some (VList h) ->
  loaded (Returned doc) = (h, other_fields doc).
Proof. intros Hh. unfold loaded, history_field. by rewrite Hh. Qed.

(** X8.  An accepted message in a chat with a non-empty stored
    history [h] stores [h] followed by the user turn and the reply: the
    persisted history grows by exactly two entries and is never cut,
    however long it is (only the window sent to the model is). *)
Theorem turn_appends_two_entries (sys : string) (g : Webhook.globals)
    (cb : bool) (u : update) (t : string) (env : environment) (w : world)
    (doc : gmap string value) (h : list message) :
  accepted_text u t ->
  store_answer env (store w) (str (message_chat_id u)) = Returned doc ->
  doc !! "history" = Some (VList h) ->
  h <> [] ->
  upsert_item_fault env = None ->
  let key := str (message_chat_id u) in
  let grown (doc' : gmap string value) :=
    exists reply,
      doc' !! "history"
      = Some (VList (h ++ [Message "user" t; Message "assistant" reply])) in
  (telegram_fault env (telegram_rank (trace w)) = None ->
   exists doc',
     store (Bot.llm_message_handler sys u env w).2 !! key = Some doc'
     /\ grown doc')
  /\ (Webhook.async_container_client g = true ->
      exists doc',
        store (Webhook.llm_message_handler g cb u env w).2 !! key = Some doc'
        /\ grown doc').
Proof.
  intros Hacc Hans Hhist Hne Hup key grown. subst key grown. cbv beta. split.
  - intros Hf. eexists. split; [by apply bot_turn_document_stored|].
    rewrite Hans, (loaded_document doc h Hhist).
    eexists. rewrite bot_turn_document_history. unfold turn_history.
    cbn [fst snd]. rewrite seeded_history_nonempty by done.
    by rewrite <- app_assoc.
  - intros Hclient. eexists. split; [by apply webhook_turn_document_stored|].
    rewrite Hans, (loaded_document doc h Hhist).
    eexists. rewrite webhook_turn_document_history. unfold turn_history.
    cbn [fst snd]. rewrite seeded_history_nonempty by done.
    by rewrite <- app_assoc.
Qed.

Lemma other_fields_nonempty (doc : gmap string value) (k : string) (v : value) :
  k <> "history" -> doc !! k = Some v -> other_fields doc <> ∅.
Proof.
  intros Hk Hv Hempty.
  assert (other_fields doc !! k = Some v) as H
    by (unfold other_fields; by rewrite lookup_delete_ne).
  rewrite Hempty in H. by rewrite lookup_empty in H.
Qed.

Lemma first_interaction_metadata (h : list message) (md : gmap string value) :
  md <> ∅ -> first_interaction h md = false.
Proof.
  intros Hmd. unfold first_interaction.
  rewrite (bool_decide_eq_false_2 (md = ∅)) by done. apply andb_false_r.
Qed.

Lemma turn_metadata_not_first (l : list message * gmap string value)
    (field : string) (v : value) :
  l.2 !! field = Some v ->
  first_interaction l.1 l.2 = false /\ turn_prior l = Some l.2 /\ l.2 <> ∅.
Proof.
  intros Hv.
  assert (l.2 <> ∅) as Hne.
  { intros Hempty. rewrite Hempty in Hv. by rewrite lookup_empty in Hv. }
  assert (first_interaction l.1 l.2 = false) as Hfirst
    by by apply first_interaction_metadata.
  split; [done|]. split; [|done]. unfold turn_prior. by rewrite Hfirst.
Qed.

Lemma bot_turn_document_creator sys env l u t (field : string) (v : value) :
  field = "creator_user_id" \/ field = "creator_username" ->
  l.2 !! field = Some v ->
  bot_turn_document sys env l u t !! field = Some v.
Proof.
  intros Hfield Hlv.
  destruct (turn_metadata_not_first l field v Hlv) as (Hfirst & Hprior & Hne).
  unfold bot_turn_document. rewrite Hfirst, Hprior.
  destruct (bot_creator_provenance (message_chat_id u)
    (turn_history (Bot.SYSTEM_MESSAGE sys) l t
     ++ [Message "assistant" (bot_turn_reply sys env l t (message_chat_id u))])
    (effective_user_id u) (effective_user_username u) false (Some l.2)
    (utc_now_isoformat env)) as (_ & _ & Hkeep).
  destruct (Hkeep eq_refl l.2 eq_refl Hne) as [H1 H2].
  destruct Hfield as [-> | ->]; congruence.
Qed.

Lemma webhook_turn_document_creator g env l u t (field : string) (v : value) :
  field = "creator_user_id" \/ field = "creator_username" ->
  l.2 !! field = Some v ->
  webhook_turn_document g env l u t !! field = Some v.
Proof.
  intros Hfield Hlv.
  destruct (turn_metadata_not_first l field v Hlv) as (Hfirst & Hprior & Hne).
  unfold webhook_turn_document. rewrite Hfirst, Hprior.
  destruct (webhook_creator_provenance (message_chat_id u)
    (turn_history Webhook.SYSTEM_MESSAGE l t
     ++ [Message "assistant"
           (webhook_turn_reply g env l t (message_chat_id u))])
    (effective_user_id u) (effective_user_username u) false (Some l.2)
    (utc_now_isoformat env)) as (_ & Hkeep).
  destruct (Hkeep eq_refl) as [H1 H2].
  change (Some l.2 ≫= (.!! "creator_user_id"))
    with (l.2 !! "creator_user_id") in H1.
  change (Some l.2 ≫= (.!! "creator_username"))
    with (l.2 !! "creator_username") in H2.
  destruct Hfield as [-> | ->]; [rewrite H1 | rewrite H2]; by rewrite Hlv.
Qed.

(** X9.  An accepted message in a chat whose document has a creator
    field stores the same value for that field again, and stores the
    sender as last interactor. *)
Theorem turn_keeps_creator (sys : string) (g : Webhook.globals)
    (cb : bool) (u : update) (t : string) (env : environment) (w : world)
    (doc : gmap string value) (field : string) (v : value) :
  accepted_text u t ->
  store_answer env (store w) (str (message_chat_id u)) = Returned doc ->
  field = "creator_user_id" \/ field = "creator_username" ->
  doc !! field = Some v ->
  upsert_item_fault env = None ->
  let key := str (message_chat_id u) in
  let kept (doc' : gmap string value) :=
    doc' !! field = Some v
    /\ doc' !! "last_interactor_user_id"
       = Some (VStr (str (effective_user_id u))) in
  (telegram_fault env (telegram_rank (trace w)) = None ->
   exists doc',
     store (Bot.llm_message_handler sys u env w).2 !! key = Some doc'
     /\ kept doc')
  /\ (Webhook.async_container_client g = true ->
      exists doc',
        store (Webhook.llm_message_handler g cb u env w).2 !! key = Some doc'
        /\ kept doc').
Proof.
  intros Hacc Hans Hfield Hv Hup key kept. subst key kept. cbv beta.
  assert (field <> "history") as Hnh by (destruct Hfield as [-> | ->]; done).
  set (l := loaded (store_answer env (store w) (str (message_chat_id u)))).
  assert (l.2 !! field = Some v) as Hlv.
  { subst l. rewrite Hans. unfold loaded, other_fields. cbn [snd].
    by rewrite lookup_delete_ne. }
  split.
  - intros Hf. eexists. split; [by apply bot_turn_document_stored|].
    fold l. split; [by apply bot_turn_document_creator|].
    apply bot_item_body_fresh.
  - intros Hclient. eexists. split; [by apply webhook_turn_document_stored|].
    fold l. split; [by apply webhook_turn_document_creator|].
    apply webhook_item_body_fresh.
Qed.

Lemma last_trace_with_store (w : world) docs (l : list event) (x : event) :
  last (trace (with_store (log_events w (l ++ [x])) docs)) = Some x.
Proof. apply last_log_events. Qed.

(** X10.  When the completion call raises, the turn goes on as with
    an answer: the fixed fallback text is stored as the assistant turn
    of the history, and it is the text of the final reply. *)
Theorem failed_completion_is_persisted (sys : string) (g : Webhook.globals)
    (cb : bool) (u : update) (t : string) (env : environment) (w : world)
    (e : exn) :
  accepted_text u t ->
  upsert_item_fault env = None ->
  let cid := message_chat_id u in
  let l := loaded (store_answer env (store w) (str cid)) in
  (completions_create env Bot.DEFAULT_MODEL
     (entries (turn_window (Bot.SYSTEM_MESSAGE sys) l t cid)) = Raised e ->
   telegram_fault env (telegram_rank (trace w)) = None ->
   let w' := (Bot.llm_message_handler sys u env w).2 in
   (exists doc,
      store w' !! str cid = Some doc
      /\ doc !! "history"
         = Some (VList (turn_history (Bot.SYSTEM_MESSAGE sys) l t
                        ++ [Message "assistant" Bot.FALLBACK_REPLY])))
   /\ last (trace w') = Some (EditText cid Bot.FALLBACK_REPLY))
  /\ (completions_create env Webhook.DEFAULT_MODEL
        (entries (turn_window Webhook.SYSTEM_MESSAGE l t cid)) = Raised e ->
      Webhook.async_container_client g = true ->
      Webhook.openrouter_client g = true ->
      let w' := (Webhook.llm_message_handler g cb u env w).2 in
      (exists doc,
         store w' !! str cid = Some doc
         /\ doc !! "history"
            = Some (VList (turn_history Webhook.SYSTEM_MESSAGE l t
                           ++ [Message "assistant" Webhook.FALLBACK_REPLY])))
      /\ last (trace w') = Some (ReplyText cid Webhook.FALLBACK_REPLY)).
Proof.
  intros Hacc Hup cid l. split.
  - intros Hfail Hf w'. subst w'.
    assert (bot_turn_reply sys env l t cid = Bot.FALLBACK_REPLY) as Hreply
      by (unfold bot_turn_reply; by rewrite Hfail).
    split.
    + eexists. split; [by apply bot_turn_document_stored|].
      fold cid l. rewrite bot_turn_document_history. fold cid.
      by rewrite Hreply.
    + pose proof (bot_turn_run sys u t env w Hacc Hf) as Hrun.
      cbv zeta in Hrun. fold cid l in Hrun. rewrite Hrun, Hup, Hreply.
      cbn [snd]. exact (last_trace_with_store w _ [_; _; _; _; _; _] _).
  - intros Hfail Hclient Hllm w'. subst w'.
    assert (webhook_turn_reply g env l t cid = Webhook.FALLBACK_REPLY) as Hreply
      by (unfold webhook_turn_reply; by rewrite Hllm, Hfail).
    split.
    + eexists. split; [by apply webhook_turn_document_stored|].
      fold cid l. rewrite webhook_turn_document_history. fold cid.
      by rewrite Hreply.
    + destruct (webhook_turn_run g cb u t env w Hacc Hclient)
        as (typing & _ & Hrun).
      cbv zeta in Hrun. fold cid l in Hrun. rewrite Hrun, Hup, Hreply.
      cbn [snd].
      change [?a; ?b; ReplyText cid Webhook.FALLBACK_REPLY]
        with ([a; b] ++ [ReplyText cid Webhook.FALLBACK_REPLY]).
      rewrite !app_assoc. apply last_trace_with_store.
Qed.

Lemma completion_calls_app (l1 l2 : list event) :
  completion_calls (l1 ++ l2) = completion_calls l1 ++ completion_calls l2.
Proof. apply filter_app. Qed.

Lemma completion_calls_cons (e : event) (l : list event) :
  completion_calls (e :: l)
  = if is_completion_call e then e :: completion_calls l
    else completion_calls l.
Proof.
  unfold completion_calls. rewrite filter_cons.
  destruct (decide (is_completion_call e = true)) as [->|H]; [done|].
  by destruct (is_completion_call e).
Qed.

Lemma completion_calls_typing (cid : Z) (evs : list event) :
  Forall (fun e => e = SendChatAction cid) evs -> completion_calls evs = [].
Proof.
  induction 1 as [|e evs -> _ IH]; [done|].
  by rewrite completion_calls_cons.
Qed.

Lemma turn_window_shape (system : message)
    (l : list message * gmap string value) (t : string) (cid : Z) :
  (length (turn_window system l t cid) <= 21)%nat
  /\ last (turn_window system l t cid) = Some (Message "user" t).
Proof.
  unfold turn_window. split.
  - pose proof (window_length_bound (turn_history system l t)
                  MAX_CONVERSATION_MESSAGES cid) as H.
    unfold MAX_CONVERSATION_MESSAGES in *. lia.
  - rewrite window_last_entry by (unfold MAX_CONVERSATION_MESSAGES; lia).
    unfold turn_history. apply last_snoc.
Qed.

(** X11.  An accepted turn calls the completion service exactly once
    (the webhook: when it has its clients), with the default model,
    temperature 1, at most 500 tokens and, as messages, the window the
    builder makes of the working history: the loaded history, seeded
    with the system turn when empty, followed by the user's message.
    That window has at most one system entry and twenty others, the
    last of which is the user's message. *)
Theorem completion_receives_window (sys : string) (g : Webhook.globals)
    (cb : bool) (u : update) (t : string) (env : environment) (w : world) :
  accepted_text u t ->
  let cid := message_chat_id u in
  let l := loaded (store_answer env (store w) (str cid)) in
  let window (system : message) :=
    _prepare_and_truncate_history_for_llm
      (seeded_history system l.1 l.2 ++ [Message "user" t])
      MAX_CONVERSATION_MESSAGES cid in
  (telegram_fault env (telegram_rank (trace w)) = None ->
   completion_calls (new_events w (Bot.llm_message_handler sys u env w).2)
   = [CompletionsCreate Bot.DEFAULT_MODEL 1 500
        (entries (window (Bot.SYSTEM_MESSAGE sys)))])
  /\ (Webhook.async_container_client g = true ->
      Webhook.openrouter_client g = true ->
      completion_calls
        (new_events w (Webhook.llm_message_handler g cb u env w).2)
      = [CompletionsCreate Webhook.DEFAULT_MODEL 1 500
           (entries (window Webhook.SYSTEM_MESSAGE))])
  /\ (forall system,
      (length (window system) <= 21)%nat
      /\ last (window system) = Some (Message "user" t)).
Proof.
  intros Hacc cid l window. split; [|split].
  - intros Hf.
    pose proof (bot_turn_run sys u t env w Hacc Hf) as Hrun.
    cbv zeta in Hrun. fold cid l in Hrun. rewrite Hrun. cbn [snd].
    destruct (upsert_item_fault env);
      rewrite ?new_events_log, ?new_events_with_store;
      by rewrite !completion_calls_cons.
  - intros Hclient Hllm.
    destruct (webhook_turn_run g cb u t env w Hacc Hclient)
      as (typing & Htyping & Hrun).
    cbv zeta in Hrun. fold cid l in Hrun. rewrite Hrun, Hllm. cbn [snd].
    destruct (upsert_item_fault env);
      rewrite ?new_events_log, ?new_events_with_store;
      rewrite !completion_calls_app, (completion_calls_typing cid typing Htyping);
      destruct cb; by rewrite !completion_calls_cons.
  - intros system. apply (turn_window_shape system l t cid).
Qed.

Ltac accept_hello :=
  split; [reflexivity|split; [discriminate|vm_compute; discriminate]].

(** X7, witness: a message in an empty store. *)
Lemma turn_on_unreadable_chat_starts_afresh_witness :
  let w := World ∅ [] None None in
  exists doc,
    store (Bot.llm_message_handler "" hello_update no_faults w).2 !! str 1
    = Some doc
    /\ doc !! "creator_user_id" = Some (VStr (str 7)).
Proof.
  intros w.
  destruct (turn_on_unreadable_chat_starts_afresh "" ready_globals true
              hello_update "hello" no_faults w CosmosResourceNotFoundError)
    as [Hbot _]; [accept_hello | vm_compute; reflexivity | reflexivity |].
  destruct Hbot as (doc & Hdoc & _ & Hcreator & _); [reflexivity|].
  exists doc. split; [exact Hdoc | exact Hcreator].
Defined.

(** X8, witness: a message in a chat of two entries. *)
Lemma turn_appends_two_entries_witness :
  let w := World {["1" := legacy_document]} [] None None in
  exists doc reply,
    store (Bot.llm_message_handler "" hello_update no_faults w).2 !! str 1
    = Some doc
    /\ doc !! "history"
       = Some (VList ([Message "system" ""; Message "user" "hello"]
                      ++ [Message "user" "hello"; Message "assistant" reply])).
Proof.
  intros w.
  destruct (turn_appends_two_entries "" ready_globals true hello_update "hello"
              no_faults w legacy_document
              [Message "system" ""; Message "user" "hello"])
    as [Hbot _];
    [accept_hello | vm_compute; reflexivity | vm_compute; reflexivity
    | discriminate | reflexivity |].
  destruct Hbot as (doc & Hdoc & reply & Hhist); [reflexivity|].
  exists doc, reply. split; [exact Hdoc | exact Hhist].
Defined.

(** X9, witness: a message by user 7 in a chat created by user 3. *)
Lemma turn_keeps_creator_witness :
  let w := World {["1" := creator_document]} [] None None in
  exists doc,
    store (Webhook.llm_message_handler ready_globals true hello_update
             no_faults w).2 !! str 1 = Some doc
    /\ doc !! "creator_user_id" = Some (VStr "3")
    /\ doc !! "last_interactor_user_id" = Some (VStr (str 7)).
Proof.
  intros w.
  destruct (turn_keeps_creator "" ready_globals true hello_update "hello"
              no_faults w creator_document "creator_user_id" (VStr "3"))
    as [_ Hweb];
    [accept_hello | vm_compute; reflexivity | left; reflexivity
    | vm_compute; reflexivity | reflexivity |].
  destruct Hweb as (doc & Hdoc & Hkept & Hlast); [reflexivity|].
  exists doc. split; [exact Hdoc|]. split; [exact Hkept | exact Hlast].
Defined.

(** X10, witness: a turn while the completion service is down. *)
Lemma failed_completion_is_persisted_witness :
  let w := World ∅ [] None None in
  last (trace (Bot.llm_message_handler "" hello_update failing_completion w).2)
  = Some (EditText 1 Bot.FALLBACK_REPLY).
Proof.
  intros w.
  destruct (failed_completion_is_persisted "" ready_globals true hello_update
              "hello" failing_completion w (OtherException "connection reset"))
    as [Hbot _]; [accept_hello | reflexivity |].
  destruct Hbot as [_ Hlast]; [reflexivity | reflexivity |].
  exact Hlast.
Defined.

(** X11, witness: the one call of a turn in a chat of two entries. *)
Lemma completion_receives_window_witness :
  let w := World {["1" := legacy_document]} [] None None in
  completion_calls
    (new_events w (Bot.llm_message_handler "" hello_update no_faults w).2)
  = [CompletionsCreate Bot.DEFAULT_MODEL 1 500
       (entries [Message "system" ""; Message "user" "hello";
                 Message "user" "hello"])].
Proof.
  intros w.
  destruct (completion_receives_window "" ready_globals true hello_update
              "hello" no_faults w) as [Hbot _]; [accept_hello|].
  exact (Hbot eq_refl).
Defined.

(** ** The reset commands *)

Section ResetRuns.

Variable sys : string.
Variable g : Webhook.globals.
Variable u : update.
Variable env : environment.
Variable w : world.

Let cid := message_chat_id u.
Let entry (system : message) : event :=
  Enter_save_chat_history cid [system] (effective_user_id u)
    (effective_user_username u) true None.

Lemma bot_reset_run (reply : event) :
  is_telegram_call reply = true ->
  (Bot.save_chat_history_to_cosmos cid [Bot.SYSTEM_MESSAGE sys]
     (effective_user_id u) (effective_user_username u) true None ;;;
   telegram_call reply) env w
  = (outcome_of_fault (telegram_fault env (telegram_rank (trace w))),
     let evs := [entry (Bot.SYSTEM_MESSAGE sys);
                 UpsertItem (bot_reset_document sys env u); reply] in
     match upsert_item_fault env with
     | Some _ => log_events w evs
     | None =>
         with_store (log_events w evs)
           (<[str cid := bot_reset_document sys env u]> (store w))
     end).
Proof.
  intros Hreply. unfold bind. rewrite bot_save_chat_history_run.
  fold (bot_reset_document sys env u). unfold outcome_of_fault.
  destruct (upsert_item_fault env).
  - rewrite telegram_call_run, log_events_app. rank. by rewrite Nat.add_0_r.
  - rewrite telegram_call_run. unfold with_store at 1. cbn [trace]. rank.
    rewrite Nat.add_0_r. by rewrite log_events_with_store, log_events_app.
Qed.

Lemma webhook_reset_run (reply : event) :
  is_telegram_call reply = true ->
  Webhook.async_container_client g = true ->
  (Webhook.save_chat_history_to_cosmos g cid [Webhook.SYSTEM_MESSAGE]
     (effective_user_id u) (effective_user_username u) true None ;;;
   telegram_call reply) env w
  = (outcome_of_fault (telegram_fault env (telegram_rank (trace w))),
     let evs := [entry Webhook.SYSTEM_MESSAGE;
                 UpsertItem (webhook_reset_document env u); reply] in
     match upsert_item_fault env with
     | Some _ => log_events w evs
     | None =>
         with_store (log_events w evs)
           (<[str cid := webhook_reset_document env u]> (store w))
     end).
Proof.
  intros Hreply Hclient. unfold bind.
  rewrite webhook_save_chat_history_run, Hclient.
  fold (webhook_reset_document env u). unfold outcome_of_fault.
  destruct (upsert_item_fault env).
  - rewrite telegram_call_run, log_events_app. rank. by rewrite Nat.add_0_r.
  - rewrite telegram_call_run. unfold with_store at 1. cbn [trace]. rank.
    rewrite Nat.add_0_r. by rewrite log_events_with_store, log_events_app.
Qed.

End ResetRuns.

Lemma bot_reset_document_fresh sys env u :
  freshly_reset (Bot.SYSTEM_MESSAGE sys) u (bot_reset_document sys env u).
Proof.
  unfold freshly_reset, bot_reset_document.
  pose proof (bot_item_body_fresh (message_chat_id u) [Bot.SYSTEM_MESSAGE sys]
    (effective_user_id u) (effective_user_username u) true None
    (utc_now_isoformat env)) as (_ & _ & Hh & Hl & _).
  pose proof (proj1 (bot_creator_provenance (message_chat_id u)
    [Bot.SYSTEM_MESSAGE sys] (effective_user_id u) (effective_user_username u)
    true None (utc_now_isoformat env)) eq_refl) as (Hc1 & Hc2).
  done.
Qed.

Lemma webhook_reset_document_fresh env u :
  freshly_reset Webhook.SYSTEM_MESSAGE u (webhook_reset_document env u).
Proof.
  unfold freshly_reset, webhook_reset_document.
  pose proof (webhook_item_body_fresh (message_chat_id u)
    [Webhook.SYSTEM_MESSAGE]
    (effective_user_id u) (effective_user_username u) true None
    (utc_now_isoformat env)) as (_ & _ & Hh & Hl & _).
  pose proof (proj1 (webhook_creator_provenance (message_chat_id u)
    [Webhook.SYSTEM_MESSAGE] (effective_user_id u)
    (effective_user_username u)
    true None (utc_now_isoformat env)) eq_refl) as (Hc1 & Hc2).
  done.
Qed.

(** X12.  When the write succeeds, [/start] and [/clear] replace the
    document of the chat by one whose history is the single system
    turn and whose creator and last interactor are the user of the
    command; both commands leave the same store behind, and no other
    chat is touched. *)
Theorem reset_commands_restart_history (sys : string) (g : Webhook.globals)
    (u : update) (env : environment) (w : world) :
  upsert_item_fault env = None ->
  let key := str (message_chat_id u) in
  (exists doc,
     store (Bot.start_command sys u env w).2 !! key = Some doc
     /\ freshly_reset (Bot.SYSTEM_MESSAGE sys) u doc
     /\ store (Bot.clear_command sys u env w).2
        = store (Bot.start_command sys u env w).2
     /\ forall k, k <> key ->
          store (Bot.start_command sys u env w).2 !! k = store w !! k)
  /\ (Webhook.async_container_client g = true ->
      exists doc,
        store (Webhook.start_command g u env w).2 !! key = Some doc
        /\ freshly_reset Webhook.SYSTEM_MESSAGE u doc
        /\ store (Webhook.clear_command g u env w).2
           = store (Webhook.start_command g u env w).2
        /\ forall k, k <> key ->
             store (Webhook.start_command g u env w).2 !! k = store w !! k).
Proof.
  intros Hup key. subst key. split.
  - unfold Bot.start_command, Bot.clear_command. cbv zeta.
    rewrite !bot_reset_run by reflexivity. rewrite Hup. cbn [snd with_store store].
    eexists. split; [apply lookup_insert_eq|].
    split; [apply bot_reset_document_fresh|]. split; [reflexivity|].
    intros k Hk. by rewrite lookup_insert_ne.
  - intros Hclient.
    unfold Webhook.start_command, Webhook.clear_command. cbv zeta.
    rewrite !webhook_reset_run by done. rewrite Hup. cbn [snd with_store store].
    eexists. split; [apply lookup_insert_eq|].
    split; [apply webhook_reset_document_fresh|]. split; [reflexivity|].
    intros k Hk. by rewrite lookup_insert_ne.
Qed.

(** X13.  When the write fails and the reply is delivered, each reset
    command (of bot.py, and of the webhook with its store client)
    returns normally, having attempted the write and then sent its
    reply (for [/clear]: that the memory was wiped) as its last call;
    the store keeps what it held. *)
Theorem reset_commands_reply_regardless (sys : string) (g : Webhook.globals)
    (u : update) (env : environment) (w : world) (e : exn) :
  upsert_item_fault env = Some e ->
  telegram_fault env (telegram_rank (trace w)) = None ->
  let attempt (system : message) (doc : gmap string value) (reply : event) :=
    (Returned tt,
     log_events w
       [Enter_save_chat_history (message_chat_id u) [system]
          (effective_user_id u) (effective_user_username u) true None;
        UpsertItem doc; reply]) in
  Bot.start_command sys u env w
  = attempt (Bot.SYSTEM_MESSAGE sys) (bot_reset_document sys env u)
      (START_REPLY u)
  /\ Bot.clear_command sys u env w
     = attempt (Bot.SYSTEM_MESSAGE sys) (bot_reset_document sys env u)
         (CLEAR_REPLY u)
  /\ (Webhook.async_container_client g = true ->
      Webhook.start_command g u env w
      = attempt Webhook.SYSTEM_MESSAGE (webhook_reset_document env u)
          (START_REPLY u)
      /\ Webhook.clear_command g u env w
         = attempt Webhook.SYSTEM_MESSAGE (webhook_reset_document env u)
             (CLEAR_REPLY u))
  /\ (forall system doc reply,
      store (attempt system doc reply).2 = store w
      /\ last (trace (attempt system doc reply).2) = Some reply).
Proof.
  intros Hup Hf attempt. subst attempt. cbv beta.
  unfold Bot.start_command, Bot.clear_command, Webhook.start_command,
    Webhook.clear_command. cbv zeta.
  rewrite !bot_reset_run by reflexivity. rewrite Hup, Hf. cbn [snd].
  split; [reflexivity|]. split; [reflexivity|]. split.
  - intros Hclient. rewrite !webhook_reset_run by done. rewrite Hup, Hf.
    split; reflexivity.
  - intros system doc reply. cbn [snd]. split; [reflexivity|].
    exact (last_log_events w [_; _] _).
Qed.

(** X12, witness: [/start] in a chat that has a history. *)
Lemma reset_commands_restart_history_witness :
  let w := World {["1" := legacy_document]} [] None None in
  exists doc,
    store (Bot.start_command "" hello_update no_faults w).2 !! str 1 = Some doc
    /\ doc !! "history" = Some (VList [Message "system" ""]).
Proof.
  intros w.
  destruct (reset_commands_restart_history "" ready_globals hello_update
              no_faults w eq_refl) as [(doc & Hdoc & (Hh & _) & _) _].
  exists doc. split; [exact Hdoc | exact Hh].
Defined.

(** X13, witness: [/start] while the store refuses every call. *)
Lemma reset_commands_reply_regardless_witness :
  let w := World {["1" := legacy_document]} [] None None in
  (Bot.start_command "" hello_update failing_store w).1 = Returned tt
  /\ store (Bot.start_command "" hello_update failing_store w).2 = store w
  /\ last (trace (Bot.start_command "" hello_update failing_store w).2)
     = Some (START_REPLY hello_update).
Proof.
  intros w.
  destruct (reset_commands_reply_regardless "" ready_globals hello_update
              failing_store w CosmosHttpResponseError eq_refl eq_refl)
    as (Hstart & _ & _ & Hworld).
  rewrite Hstart. split; [reflexivity|]. apply Hworld.
Defined.

Lemma bot_reset_store sys start u env w :
  upsert_item_fault env = None ->
  store (bot_reset sys start u env w).2
  = <[str (message_chat_id u) := bot_reset_document sys env u]> (store w).
Proof.
  intros Hup. unfold bot_reset.
  destruct start; unfold Bot.start_command, Bot.clear_command; cbv zeta;
    rewrite bot_reset_run by reflexivity; by rewrite Hup.
Qed.

Lemma webhook_reset_store g start u env w :
  Webhook.async_container_client g = true ->
  upsert_item_fault env = None ->
  store (webhook_reset g start u env w).2
  = <[str (message_chat_id u) := webhook_reset_document env u]> (store w).
Proof.
  intros Hclient Hup. unfold webhook_reset.
  destruct start; unfold Webhook.start_command, Webhook.clear_command;
    cbv zeta; rewrite webhook_reset_run by done; by rewrite Hup.
Qed.

Lemma store_answer_present env docs key doc :
  read_item_fault env = None -> docs !! key = Some doc ->
  store_answer env docs key = Returned doc.
Proof. intros Hr Hd. unfold store_answer. by rewrite Hr, Hd. Qed.

(** X14.  Reset, then one turn.  After a reset by one user, the first
    accepted message in the same chat (by any user) leaves the history
    [system; user; assistant], the user of the reset as creator and the
    sender of the message as last interactor. *)
Theorem turn_after_reset (sys : string) (g : Webhook.globals) (cb start : bool)
    (u1 u2 : update) (t : string) (env : environment) (w : world) :
  accepted_text u2 t ->
  message_chat_id u2 = message_chat_id u1 ->
  read_item_fault env = None ->
  upsert_item_fault env = None ->
  let key := str (message_chat_id u1) in
  (no_telegram_fault env ->
   exists doc,
     store (Bot.llm_message_handler sys u2 env
              (bot_reset sys start u1 env w).2).2 !! key = Some doc
     /\ continued_after_reset (Bot.SYSTEM_MESSAGE sys) u1 u2 t doc)
  /\ (Webhook.async_container_client g = true ->
      exists doc,
        store (Webhook.llm_message_handler g cb u2 env
                 (webhook_reset g start u1 env w).2).2 !! key = Some doc
        /\ continued_after_reset Webhook.SYSTEM_MESSAGE u1 u2 t doc).
Proof.
  intros Hacc Hcid Hread Hup key. subst key. rewrite <- Hcid. split.
  - intros Hf. eexists. split; [by apply bot_turn_document_stored|].
    rewrite (bot_reset_store sys start u1 env w Hup), Hcid.
    rewrite (store_answer_present env _ _ (bot_reset_document sys env u1) Hread)
      by apply lookup_insert_eq.
    destruct (bot_reset_document_fresh sys env u1) as (Hh & Hc & _).
    rewrite (loaded_document _ _ Hh).
    split; [|split].
    + eexists. rewrite bot_turn_document_history. unfold turn_history.
      cbn [fst snd]. by rewrite seeded_history_nonempty.
    + apply bot_turn_document_creator; [by left|].
      cbn [snd]. unfold other_fields. by rewrite lookup_delete_ne.
    + apply bot_item_body_fresh.
  - intros Hclient. eexists.
    split; [by apply webhook_turn_document_stored|].
    rewrite (webhook_reset_store g start u1 env w Hclient Hup), Hcid.
    rewrite (store_answer_present env _ _ (webhook_reset_document env u1) Hread)
      by apply lookup_insert_eq.
    destruct (webhook_reset_document_fresh env u1) as (Hh & Hc & _).
    rewrite (loaded_document _ _ Hh).
    split; [|split].
    + eexists. rewrite webhook_turn_document_history. unfold turn_history.
      cbn [fst snd]. by rewrite seeded_history_nonempty.
    + apply webhook_turn_document_creator; [by left|].
      cbn [snd]. unfold other_fields. by rewrite lookup_delete_ne.
    + apply webhook_item_body_fresh.
Qed.

(** X14, witness: [/clear] by user 7, then a message by user 9. *)
Lemma turn_after_reset_witness :
  exists doc,
    store (Webhook.llm_message_handler ready_globals true carol_update no_faults
             (Webhook.clear_command ready_globals hello_update no_faults
                (World ∅ [] None None)).2).2 !! str 1 = Some doc
    /\ doc !! "creator_user_id" = Some (VStr (str 7))
    /\ doc !! "last_interactor_user_id" = Some (VStr (str 9)).
Proof.
  destruct (turn_after_reset "" ready_globals true false hello_update
              carol_update "hello" no_faults (World ∅ [] None None))
    as [_ Hweb];
    [accept_hello | reflexivity | reflexivity | reflexivity |].
  destruct Hweb as (doc & Hdoc & _ & Hc & Hl); [reflexivity|].
  exists doc. split; [exact Hdoc|]. split; [exact Hc | exact Hl].
Defined.

(** ** The liveness loop over a whole schedule *)

Ltac loop_goals :=
  split_and!; unfold typing_events;
  try done; try (by repeat constructor); try (simpl; lia).

(** X16.  The liveness loop never raises and does nothing but send
    typing indicators to its chat: at most one per scheduled round,
    none when [context.bot] is unavailable, and exactly one per round
    as long as it has not returned.  The store and the application are
    left as they were. *)
Theorem typing_loop_is_contained (cb : bool) (cid : Z)
    (schedule : list typing_round) (env : environment) (w : world) :
  exists r evs,
    Webhook.send_typing_periodically cb cid schedule env w
      = (Returned r, log_events w evs)
    /\ typing_events cid evs
    /\ (length evs <= length schedule)%nat
    /\ (cb = false -> evs = [])
    /\ (r = None -> length evs = length schedule).
Proof.
  revert w. induction schedule as [|r rest IH]; intros w.
  - exists None, []. rewrite log_events_nil. loop_goals.
  - simpl. destruct (stop_set_at_check r).
    + exists (Some tt), []. rewrite log_events_nil.
      loop_goals.
    + unfold bind. rewrite typing_round_body_run.
      destruct cb.
      * set (c := match telegram_fault env _ with
                  | Some TimeoutError => _ | _ => _ end).
        destruct c.
        -- exists (Some tt), [SendChatAction cid].
           loop_goals.
        -- destruct (IH (log_events w [SendChatAction cid]))
             as (r' & evs & -> & Hevs & Hlen & _ & Hnone).
           exists r', (SendChatAction cid :: evs). rewrite log_events_app.
           loop_goals.
           intros Hr. simpl. by rewrite Hnone.
      * exists (Some tt), []. rewrite log_events_nil.
        loop_goals.
Qed.

(** X16, witness: without [context.bot] the world is left as it was. *)
Lemma typing_loop_is_contained_witness :
  exists r,
    Webhook.send_typing_periodically false 1 two_rounds no_faults
      (World ∅ [] None None)
    = (Returned r, World ∅ [] None None).
Proof.
  destruct (typing_loop_is_contained false 1 two_rounds no_faults
              (World ∅ [] None None)) as (r & evs & Hrun & _ & _ & Hcb & _).
  exists r. rewrite Hrun, (Hcb eq_refl). reflexivity.
Defined.

(** X17.  Unless a send fails with the exception class of an expired
    wait, the loop has returned by the end of the round in which the
    stop event is set (at the test of the loop or within the wait),
    having sent at most one indicator per round up to that one. *)
Theorem typing_loop_returns_once_stop_is_set (cb : bool) (cid : Z)
    (before rest : list typing_round) (r : typing_round)
    (env : environment) (w : world) :
  no_telegram_timeout env ->
  stop_set_in_round r ->
  exists evs,
    Webhook.send_typing_periodically cb cid (before ++ r :: rest) env w
      = (Returned (Some tt), log_events w evs)
    /\ typing_events cid evs
    /\ (length evs <= S (length before))%nat.
Proof.
  intros Hto Hstop. revert w.
  induction before as [|r0 before IH]; intros w.
  - cbn [app length].
    destruct (stop_set_at_check r) eqn:Hcheck.
    + exists []. rewrite log_events_nil.
      rewrite (typing_loop_stops_at_check cb cid r rest env w Hcheck).
      loop_goals.
    + destruct Hstop as [Hstop|Hwait]; [congruence|].
      simpl. rewrite Hcheck. unfold bind. rewrite typing_round_body_run.
      destruct cb.
      * exists [SendChatAction cid].
        assert (match telegram_fault env (telegram_rank (trace w)) with
                | Some TimeoutError => Webhook.Continue
                | Some _ => Webhook.Break
                | None => if stop_set_within_wait r then Webhook.Break
                          else Webhook.Continue
                end = Webhook.Break) as ->.
        { pose proof (Hto (telegram_rank (trace w))) as Hn.
          destruct (telegram_fault env _) as [[]|]; try done.
          by rewrite Hwait. }
        loop_goals.
      * exists []. rewrite log_events_nil.
        loop_goals.
  - cbn [app length]. simpl.
    destruct (stop_set_at_check r0).
    + exists []. rewrite log_events_nil.
      loop_goals.
    + unfold bind. rewrite typing_round_body_run.
      destruct cb.
      * set (c := match telegram_fault env _ with
                  | Some TimeoutError => _ | _ => _ end).
        destruct c.
        -- exists [SendChatAction cid].
           loop_goals.
        -- destruct (IH (log_events w [SendChatAction cid]))
             as (evs & -> & Hevs & Hlen).
           exists (SendChatAction cid :: evs). rewrite log_events_app.
           loop_goals.
      * exists []. rewrite log_events_nil.
        loop_goals.
Qed.

(** X17, witness: the event is set in the wait of the second round. *)
Lemma typing_loop_returns_once_stop_is_set_witness :
  Webhook.send_typing_periodically true 1 two_rounds no_faults
    (World ∅ [] None None)
  = (Returned (Some tt),
     World ∅ [SendChatAction 1; SendChatAction 1] None None).
Proof.
  destruct (typing_loop_returns_once_stop_is_set true 1
              [TypingRound false false] [TypingRound false false]
              (TypingRound false true) no_faults (World ∅ [] None None))
    as (evs & Hrun & _ & _);
    [intros n; discriminate | right; reflexivity |].
  reflexivity.
Defined.

Lemma send_typing_periodically_continues (cid : Z)
    (before rest : list typing_round) (env : environment) (w : world) :
  rounds_continue env before (telegram_rank (trace w)) ->
  Webhook.send_typing_periodically true cid (before ++ rest) env w
  = Webhook.send_typing_periodically true cid rest env
      (log_events w (replicate (length before) (SendChatAction cid))).
Proof.
  revert w. induction before as [|r before IH]; intros w Hall.
  - by rewrite log_events_nil.
  - destruct (Hall 0%nat r eq_refl) as (Hcheck & Hround).
    rewrite Nat.add_0_r in Hround.
    cbn [app length replicate]. simpl. rewrite Hcheck. unfold bind.
    rewrite typing_round_body_run.
    assert (match telegram_fault env (telegram_rank (trace w)) with
            | Some TimeoutError => Webhook.Continue
            | Some _ => Webhook.Break
            | None => if stop_set_within_wait r then Webhook.Break
                      else Webhook.Continue
            end = Webhook.Continue) as ->
      by (destruct Hround as [-> | (-> & ->)]; reflexivity).
    rewrite IH.
    + by rewrite log_events_app.
    + intros i r' Hi. rewrite trace_log_events, telegram_rank_app.
      change (telegram_rank [SendChatAction cid]) with 1%nat.
      replace (telegram_rank (trace w) + 1 + i)%nat
        with (telegram_rank (trace w) + S i)%nat by lia.
      by apply Hall.
Qed.

(** X18.  While rounds continue (the wait expires with the event
    unset, or the send itself raises [asyncio.TimeoutError], which the
    same [except] clause swallows) the loop sends one indicator per
    round and goes on with the rest of the schedule. *)
Theorem typing_loop_sends_once_per_round (cid : Z)
    (before rest : list typing_round) (env : environment) (w : world) :
  rounds_continue env before (telegram_rank (trace w)) ->
  Webhook.send_typing_periodically true cid (before ++ rest) env w
  = Webhook.send_typing_periodically true cid rest env
      (log_events w (replicate (length before) (SendChatAction cid))).
Proof. apply send_typing_periodically_continues. Qed.

(** X18, witness: a first send that times out. *)
Lemma typing_loop_sends_once_per_round_witness :
  Webhook.send_typing_periodically true 1 two_rounds flaky_telegram
    (World ∅ [] None None)
  = Webhook.send_typing_periodically true 1
      [TypingRound false true; TypingRound false false] flaky_telegram
      (World ∅ [SendChatAction 1] None None).
Proof.
  apply (typing_loop_sends_once_per_round 1 [TypingRound false false]
           [TypingRound false true; TypingRound false false] flaky_telegram
           (World ∅ [] None None)).
  intros [|i] r [= <-]. split; [reflexivity | left; reflexivity].
Defined.

(** X19.  A send that fails with any exception but
    [asyncio.TimeoutError] ends the loop in that round: the loop
    returns normally, having sent one indicator per round including the
    failed one, and none after. *)
Theorem typing_loop_ends_at_delivery_error (cid : Z)
    (before rest : list typing_round) (r : typing_round)
    (env : environment) (w : world) (e : exn) :
  rounds_continue env before (telegram_rank (trace w)) ->
  stop_set_at_check r = false ->
  telegram_fault env (telegram_rank (trace w) + length before) = Some e ->
  e <> TimeoutError ->
  Webhook.send_typing_periodically true cid (before ++ r :: rest) env w
  = (Returned (Some tt),
     log_events w (replicate (S (length before)) (SendChatAction cid))).
Proof.
  intros Hall Hcheck Hfault He.
  rewrite send_typing_periodically_continues by done.
  rewrite (typing_loop_stops_on_delivery_error cid r rest env _ e Hcheck).
  - rewrite log_events_app. f_equal. f_equal.
    change [SendChatAction cid] with (replicate 1 (SendChatAction cid)).
    rewrite <- replicate_add. f_equal. lia.
  - rewrite trace_log_events, telegram_rank_app.
    rewrite (telegram_rank_typing cid (replicate _ _))
      by (apply Forall_replicate; reflexivity).
    by rewrite length_replicate.
  - done.
Qed.

(** X19, witness: a second send that is refused. *)
Lemma typing_loop_ends_at_delivery_error_witness :
  Webhook.send_typing_periodically true 1 two_rounds flaky_telegram
    (World ∅ [] None None)
  = (Returned (Some tt),
     World ∅ [SendChatAction 1; SendChatAction 1] None None).
Proof.
  apply (typing_loop_ends_at_delivery_error 1 [TypingRound false false]
           [TypingRound false false] (TypingRound false true) flaky_telegram
           (World ∅ [] None None) (OtherException "Forbidden")).
  - intros [|i] r [= <-]. split; [reflexivity | left; reflexivity].
  - reflexivity.
  - reflexivity.
  - discriminate.
Defined.

(** ** The liveness loop: stopping, and delivery errors *)






(** ** Global initialization *)

Lemma global_initialization_secrets (s : Webhook.startup) :
  Webhook.global_secrets (Webhook.global_initialization s)
  = Webhook.Secrets
      (Webhook.or_getenv s (vault_value s Webhook.TELEGRAM_BOT_TOKEN)
         "TELEGRAM_BOT_TOKEN")
      (Webhook.or_getenv s (vault_value s Webhook.OPENROUTER_API_KEY)
         "OPENROUTER_API_KEY")
      (Webhook.or_getenv s (vault_value s Webhook.COSMOS_DB_URI)
         "COSMOS_DB_URI")
      (Webhook.or_getenv s (vault_value s Webhook.COSMOS_DB_KEY)
         "COSMOS_DB_KEY").
Proof.
  unfold Webhook.global_initialization, vault_value.
  destruct (opt_str_truthy (Webhook.getenv s "KEY_VAULT_URI"));
    [destruct (Webhook.key_vault_secrets s)|];
    cbv zeta;
    repeat match goal with
    | |- context [if ?b then _ else _] => destruct b
    | |- context [match ?f with Some _ => _ | None => _ end] => destruct f
    end; reflexivity.
Qed.

(** X20.  How each of the four secrets is resolved at start: a
    non-empty value of the key vault wins; the environment variable of
    the same name is used when the vault has no value for it, when no
    vault is configured, and when reading the vault raises. *)
Theorem secret_resolution (s : Webhook.startup)
    (field : Webhook.secrets -> option string) (name : string) :
  (field, name) ∈ SECRET_VARIABLES ->
  let resolved := field (Webhook.global_secrets (Webhook.global_initialization s)) in
  (opt_str_truthy (vault_value s field) = true ->
   resolved = vault_value s field)
  /\ (opt_str_truthy (vault_value s field) = false ->
      resolved = Webhook.getenv s name)
  /\ (opt_str_truthy (Webhook.getenv s "KEY_VAULT_URI") = false ->
      resolved = Webhook.getenv s name)
  /\ (forall e, Webhook.key_vault_secrets s = Raised e ->
      resolved = Webhook.getenv s name).
Proof.
  intros Hin resolved. subst resolved.
  rewrite global_initialization_secrets.
  assert (field (Webhook.Secrets
      (Webhook.or_getenv s (vault_value s Webhook.TELEGRAM_BOT_TOKEN)
         "TELEGRAM_BOT_TOKEN")
      (Webhook.or_getenv s (vault_value s Webhook.OPENROUTER_API_KEY)
         "OPENROUTER_API_KEY")
      (Webhook.or_getenv s (vault_value s Webhook.COSMOS_DB_URI)
         "COSMOS_DB_URI")
      (Webhook.or_getenv s (vault_value s Webhook.COSMOS_DB_KEY)
         "COSMOS_DB_KEY"))
    = Webhook.or_getenv s (vault_value s field) name) as ->.
  { unfold SECRET_VARIABLES in Hin.
    repeat (apply elem_of_cons in Hin as [[= -> ->]|Hin]; [reflexivity|]).
    by apply elem_of_nil in Hin. }
  unfold Webhook.or_getenv.
  split; [by intros ->|]. split; [by intros ->|].
  split.
  - intros Huri. unfold vault_value. by rewrite Huri.
  - intros e He. unfold vault_value. rewrite He.
    by destruct (opt_str_truthy (Webhook.getenv s "KEY_VAULT_URI")).
Qed.

(** X20, witness: a vault that holds only the token. *)
Lemma secret_resolution_witness :
  let g := Webhook.global_initialization vault_startup in
  Webhook.TELEGRAM_BOT_TOKEN (Webhook.global_secrets g) = Some "vault-token"
  /\ Webhook.OPENROUTER_API_KEY (Webhook.global_secrets g) = Some "env-value".
Proof.
  intros g. split.
  - destruct (secret_resolution vault_startup Webhook.TELEGRAM_BOT_TOKEN
                "TELEGRAM_BOT_TOKEN") as (Hvault & _);
      [apply list_elem_of_here|].
    exact (Hvault eq_refl).
  - destruct (secret_resolution vault_startup Webhook.OPENROUTER_API_KEY
                "OPENROUTER_API_KEY") as (_ & Henv & _);
      [apply list_elem_of_further, list_elem_of_here|].
    exact (Henv eq_refl).
Defined.

(** X21.  After the global initialization both service clients exist
    exactly when the worker is not flagged as misconfigured; it is not
    flagged exactly when all four secrets are non-empty and building
    the clients did not raise; and an unflagged worker has a bot
    token. *)
Theorem clients_follow_the_flag (s : Webhook.startup) :
  let g := Webhook.global_initialization s in
  Webhook.openrouter_client g = negb (Webhook.critical_secrets_missing g)
  /\ Webhook.async_container_client g
     = negb (Webhook.critical_secrets_missing g)
  /\ (Webhook.critical_secrets_missing g = false <->
      some_secret_missing (Webhook.global_secrets g) = false
      /\ Webhook.client_constructor_fault s = None)
  /\ (Webhook.critical_secrets_missing g = false ->
      opt_str_truthy (Webhook.TELEGRAM_BOT_TOKEN (Webhook.global_secrets g))
      = true).
Proof.
  intros g.
  pose proof (global_initialization_flag s) as Hflag. cbv zeta in Hflag.
  fold g in Hflag.
  assert (Webhook.openrouter_client g
          = negb (Webhook.critical_secrets_missing g)
          /\ Webhook.async_container_client g
             = negb (Webhook.critical_secrets_missing g)) as [H1 H2].
  { subst g. unfold Webhook.global_initialization. cbv zeta.
    match goal with
    | |- context [if negb ?m then _ else _] => destruct (negb m)
    end; [destruct (Webhook.client_constructor_fault s)|]; by split. }
  split; [exact H1|]. split; [exact H2|]. split; [split|].
  - intros Hc. rewrite Hc in Hflag. symmetry in Hflag.
    apply orb_false_iff in Hflag as [Hm Hf]. split; [exact Hm|].
    by destruct (Webhook.client_constructor_fault s).
  - intros [Hm Hf]. by rewrite Hflag, Hm, Hf.
  - intros Hc. rewrite Hc in Hflag. symmetry in Hflag.
    apply orb_false_iff in Hflag as [Hm _]. unfold some_secret_missing in Hm.
    by destruct (opt_str_truthy (Webhook.TELEGRAM_BOT_TOKEN _)).
Qed.

(** X21, witness: a start with all four secrets. *)
Lemma clients_follow_the_flag_witness :
  let g := Webhook.global_initialization vault_startup in
  Webhook.critical_secrets_missing g = false
  /\ Webhook.async_container_client g = true.
Proof.
  intros g.
  destruct (clients_follow_the_flag vault_startup) as (_ & H2 & Hiff & _).
  assert (Webhook.critical_secrets_missing g = false) as Hc
    by (apply Hiff; split; reflexivity).
  split; [exact Hc|]. fold g in H2. by rewrite H2, Hc.
Defined.

(** ** The HTTP entry point, continued *)


Lemma after_lazy_init_consistent (g : Webhook.globals) (env : environment)
    (w : world) :
  ptb_consistent w -> ptb_consistent (after_lazy_init g env w).
Proof.
  intros Hw. unfold after_lazy_init. destruct (Webhook.is_none _); [|done].
  by apply initialize_ptb_application_consistent.
Qed.



(** X23.  The application and its bot stay set together across
    invocations (given that processing an update keeps them so), and
    from such a state [main] never answers with the error of a missing
    bot instance. *)
Theorem bot_instance_is_never_missing (g : Webhook.globals)
    (req : Webhook.http_request) (env : environment) (w : world) :
  ptb_consistent w ->
  processing_keeps_consistency env ->
  (Webhook.main g req env w).1 <> Returned BOT_UNAVAILABLE
  /\ ptb_consistent (Webhook.main g req env w).2.
Proof.
  intros Hw Hproc.
  destruct (Webhook.critical_secrets_missing g) eqn:Hc.
  - unfold Webhook.main. rewrite Hc. split; [discriminate | exact Hw].
  - rewrite (main_run g req env w Hc). cbv zeta.
    pose proof (after_lazy_init_consistent g env w Hw) as Hw2.
    set (w2 := after_lazy_init g env w) in *.
    assert (Webhook.is_none (ptb_application w)
            && (Webhook.is_none (ptb_application w2)
                || Webhook.is_none (ptb_bot_instance w2)) = false
            -> Webhook.is_none (ptb_bot_instance w2) = false) as Hbot.
    { unfold ptb_consistent in Hw2. rewrite <- Hw2, orb_diag.
      subst w2. unfold after_lazy_init.
      destruct (Webhook.is_none (ptb_application w)) eqn:Happ; [done|].
      by rewrite Happ. }
    destruct (_ && _); [split; [discriminate | exact Hw2]|].
    destruct (Webhook.request_json req) as [request_body|];
      [|split; [discriminate | exact Hw2]].
    rewrite Hbot by done.
    destruct (update_de_json env request_body) as [[u|]|e];
      [|split; [discriminate | exact Hw2]..].
    destruct (Webhook.is_none (ptb_application w2));
      [split; [discriminate | exact Hw2]|].
    pose proof (Hproc u w2 Hw2) as Hw3.
    destruct (application_process_update env u w2) as [[[]|e] w3];
      (split; [discriminate | exact Hw3]).
Qed.

(** X23, witness: a first request to a fresh worker. *)
Lemma bot_instance_is_never_missing_witness :
  ptb_consistent
    (Webhook.main ready_globals (Webhook.HttpRequest (Some "{}")) decoding
       (Webhook.initial_world ∅)).2.
Proof.
  refine (proj2 (bot_instance_is_never_missing ready_globals
            (Webhook.HttpRequest (Some "{}")) decoding
            (Webhook.initial_world ∅) eq_refl _)).
  intros u w Hw. exact Hw.
Defined.

(** X24.  A failed lazy initialization is not remembered: the
    request gets the 500 of the failed initialization, nothing else
    changes, and the next request initializes again, so that with an
    initialization that now succeeds its response is not a 500. *)
Theorem failed_initialization_is_retried (g : Webhook.globals)
    (req1 req2 : Webhook.http_request) (env1 env2 : environment) (w : world)
    (e : exn) :
  Webhook.critical_secrets_missing g = false ->
  opt_str_truthy (Webhook.TELEGRAM_BOT_TOKEN (Webhook.global_secrets g)) = true ->
  ptb_application w = None ->
  application_initialize_fault env1 = Some e ->
  application_initialize_fault env2 = None ->
  let first := Webhook.main g req1 env1 w in
  first = (Returned PTB_FAILURE, World (store w) (trace w) None None)
  /\ exists response,
       (Webhook.main g req2 env2 first.2).1 = Returned response
       /\ Webhook.status_code response <> 500.
Proof.
  intros Hc Htoken Happ Hf1 Hf2 first.
  assert (first = (Returned PTB_FAILURE, World (store w) (trace w) None None))
    as Hfirst.
  { subst first. rewrite (main_run g req1 env1 w Hc). cbv zeta.
    unfold after_lazy_init. rewrite Happ. cbn [Webhook.is_none].
    rewrite initialize_ptb_application_run, Htoken, Hf1. reflexivity. }
  split; [exact Hfirst|]. rewrite Hfirst. cbn [snd].
  rewrite (main_run g req2 env2 _ Hc). cbv zeta.
  unfold after_lazy_init. cbn [ptb_application Webhook.is_none].
  rewrite initialize_ptb_application_run, Htoken, Hf2.
  cbn [ptb_application ptb_bot_instance Webhook.is_none andb orb snd].
  destruct (Webhook.request_json req2) as [request_body|];
    [|eexists; split; [reflexivity | discriminate]].
  destruct (update_de_json env2 request_body) as [[u|]|e'];
    [|eexists; split; [reflexivity | discriminate]..].
  match goal with
  | |- context [application_process_update env2 u ?w0] =>
      destruct (application_process_update env2 u w0) as [[[]|e'] w3]
  end; eexists; (split; [reflexivity | discriminate]).
Qed.

(** X24, witness: an initialization that fails once. *)
Lemma failed_initialization_is_retried_witness :
  let first :=
    Webhook.main ready_globals (Webhook.HttpRequest (Some "{}"))
      failing_initialize (Webhook.initial_world ∅) in
  first.1 = Returned PTB_FAILURE
  /\ exists response,
       (Webhook.main ready_globals (Webhook.HttpRequest (Some "{}")) decoding
          first.2).1 = Returned response
       /\ Webhook.status_code response <> 500.
Proof.
  intros first.
  destruct (failed_initialization_is_retried ready_globals
              (Webhook.HttpRequest (Some "{}")) (Webhook.HttpRequest (Some "{}"))
              failing_initialize decoding (Webhook.initial_world ∅)
              (OtherException "network") eq_refl eq_refl eq_refl eq_refl eq_refl)
    as (Hfirst & Hsecond).
  subst first. split; [by rewrite Hfirst | exact Hsecond].
Defined.

(** ** The completion client, continued *)

(** X15.  An answer of the completion service without a choice, or
    whose first choice has no content, gives the fixed fallback text
    after the one call (temperature 1, at most 500 tokens); a webhook
    worker without completion client answers with its client-error
    text and makes no call. *)
Theorem completion_without_text_gives_fallback (g : Webhook.globals)
    (h : list message) (model : string) (env : environment) (w : world)
    (c : chat_completion) :
  completions_create env model (entries h) = Returned c ->
  answer_without_text c ->
  let called := log_events w [CompletionsCreate model 1 500 (entries h)] in
  Bot.get_llm_response_from_openrouter (entries h) model env w
  = (Returned Bot.FALLBACK_REPLY, called)
  /\ Webhook.get_llm_response_from_openrouter g (entries h) model env w
     = if Webhook.openrouter_client g
       then (Returned Webhook.FALLBACK_REPLY, called)
       else (Returned Webhook.CLIENT_ERROR_REPLY, w).
Proof.
  intros Hc Hno called. subst called.
  rewrite bot_get_llm_response_run, webhook_get_llm_response_run.
  rewrite !log_history_preview_entries, Hc.
  destruct c as [[|[[text|]] rest]]; try done.
Qed.

(** X15, witness: an answer with no choice. *)
Lemma completion_without_text_gives_fallback_witness :
  let env :=
    Environment "now" None None (fun _ _ => Returned (ChatCompletion []))
      (fun _ => None) [] None (fun _ => Returned None)
      (fun _ w => (Returned tt, w)) in
  (Bot.get_llm_response_from_openrouter (entries [Message "user" "a"]) "m"
     env (World ∅ [] None None)).1
  = Returned Bot.FALLBACK_REPLY.
Proof.
  intros env.
  destruct (completion_without_text_gives_fallback ready_globals
              [Message "user" "a"] "m" env (World ∅ [] None None)
              (ChatCompletion []) eq_refl I) as [Hbot _].
  by rewrite Hbot.
Defined.
